(** * suoj_judge_core: a shallow embedding of [judge_core_cgroup.cpp]

    The development models the supervising process of the judge: the
    limit loader, the cgroup manager, the CPU selector, the compile and run
    stages, the verdict classification and the result encoder.  Everything
    the operating system decides (which files open, what a read returns,
    whether [fork] succeeds, how the child dies) is read from an explicit
    [Kernel] record; everything the judge does to the system (mkdir, writes,
    kill, wait, close, rmdir) is collected in a log of [Syscall]s. *)

From Stdlib Require Import ZArith String Ascii List Bool Lia.
From Stdlib Require Import DecimalString DecimalZ DecimalPos DecimalFacts.
Import ListNotations.

Local Open Scope string_scope.
Local Open Scope Z_scope.

(** ** Machine integers *)

Module CInt.

(** Two's-complement reduction of a mathematical integer to a signed
    [w]-bit integer. *)
Definition wrap (w : Z) (z : Z) : Z :=
  (z + 2 ^ (w - 1)) mod 2 ^ w - 2 ^ (w - 1).

(** [int] (32 bits) and [long long] (64 bits) on the Linux targets. *)
Definition to_int (z : Z) : Z := wrap 32 z.
Definition to_ll (z : Z) : Z := wrap 64 z.

(** [size_t]: unsigned 64 bits. *)
Definition to_size_t (z : Z) : Z := z mod 2 ^ 64.

Definition INT_MAX : Z := 2147483647.
Definition INT_MIN : Z := -2147483648.
Definition LLONG_MAX : Z := 9223372036854775807.
Definition LLONG_MIN : Z := -9223372036854775808.

Definition in_int (z : Z) : bool := (INT_MIN <=? z) && (z <=? INT_MAX).
Definition in_ll (z : Z) : bool := (LLONG_MIN <=? z) && (z <=? LLONG_MAX).

End CInt.

(** ** Bytes and strings

    A [std::string] is a sequence of bytes: Rocq's [string] of [ascii]. *)

Module Str.

Definition dquote : ascii := "034"%char.
Definition newline : ascii := "010"%char.
Definition cret : ascii := "013"%char.
Definition tab : ascii := "009"%char.
Definition nul : ascii := "000"%char.
Definition backslash : ascii := "\"%char.

Definition chr (c : ascii) : string := String c "".
Definition q : string := chr dquote.
Definition endl : string := chr newline.

(** [std::to_string] and [operator<<] on integers: plain decimal, with a
    leading minus sign for negative numbers. *)
Definition to_string (z : Z) : string := NilZero.string_of_int (Z.to_int z).

(** [s.find(pat, pos)]: position of the first occurrence of [pat] in [s]
    at or after [pos]; [None] is [string::npos]. *)
Definition find (s pat : string) (pos : nat) : option nat :=
  String.index pos pat s.

Definition is_digit (c : ascii) : bool :=
  let n := nat_of_ascii c in (48 <=? n)%nat && (n <=? 57)%nat.

Definition digit_val (c : ascii) : Z := Z.of_nat (nat_of_ascii c) - 48.

(** [isspace] in the C locale. *)
Definition is_space (c : ascii) : bool :=
  let n := nat_of_ascii c in (n =? 32)%nat || ((9 <=? n)%nat && (n <=? 13)%nat).

Fixpoint skip_space (s : string) : string :=
  match s with
  | String c s' => if is_space c then skip_space s' else s
  | EmptyString => s
  end.

(** Longest prefix of decimal digits, and what follows it. *)
Fixpoint span_digits (s : string) : string * string :=
  match s with
  | String c s' =>
      if is_digit c then let '(d, r) := span_digits s' in (String c d, r)
      else ("", s)
  | EmptyString => ("", "")
  end.

(** Value of a digit string, most significant digit first. *)
Fixpoint digits_val (acc : Z) (s : string) : Z :=
  match s with
  | String c s' => digits_val (acc * 10 + digit_val c) s'
  | EmptyString => acc
  end.

(** Optional sign in front of a number, as [strtol] and [num_get] read
    it: the factor and the rest. *)
Definition read_sign (s : string) : Z * string :=
  match s with
  | String "-" s' => (-1, s')
  | String "+" s' => (1, s')
  | _ => (1, s)
  end.

(** [std::stoi(s)]: leading white space, optional sign, decimal digits;
    trailing characters are ignored.  Throws [invalid_argument] when no
    digit is found and [out_of_range] when the value does not fit an
    [int]; both have [what() == "stoi"]. *)
Definition stoi (s : string) : Z + string :=
  let '(sg, s1) := read_sign (skip_space s) in
  let '(ds, _) := span_digits s1 in
  match ds with
  | EmptyString => inr "stoi"
  | _ => let v := sg * digits_val 0 ds in
         if CInt.in_int v then inl v else inr "stoi"
  end.

(** [stream >> x] for a [long long x] followed by [stream.good()]:
    [Some v] when a number was extracted, it fits, and the stream did not
    reach the end of the file while reading it. *)
Definition extract_ll (content : string) : option Z :=
  let '(sg, s1) := read_sign (skip_space content) in
  let '(ds, rest) := span_digits s1 in
  match ds, rest with
  | EmptyString, _ => None
  | _, EmptyString => None
  | _, _ => let v := sg * digits_val 0 ds in
            if CInt.in_ll v then Some v else None
  end.

(** One [getline]: the characters before the first newline and the rest
    of the stream after it ([None] when the stream ended). *)
Fixpoint split_line (s : string) : string * option string :=
  match s with
  | EmptyString => ("", None)
  | String c s' =>
      if Ascii.eqb c newline then ("", Some s')
      else let '(l, r) := split_line s' in (String c l, r)
  end.

(** [getline(stream, line)] on a freshly opened stream: the first line,
    or the empty string when the file is empty. *)
Definition first_line (content : string) : string := fst (split_line content).

(** The lines [while (getline(stream, line))] iterates over: a final line
    without newline counts when it is not empty. *)
Fixpoint lines_from (cur : string) (s : string) : list string :=
  match s with
  | EmptyString => match cur with EmptyString => [] | _ => [cur] end
  | String c s' =>
      if Ascii.eqb c newline then cur :: lines_from "" s'
      else lines_from (cur ++ chr c) s'
  end.

Definition lines (content : string) : list string := lines_from "" content.

(** A [char] buffer read as a C string: the bytes before the first NUL. *)
Fixpoint c_str (buf : string) : string :=
  match buf with
  | EmptyString => ""
  | String c s' => if Ascii.eqb c nul then "" else String c (c_str s')
  end.

Definition is_empty (s : string) : bool :=
  match s with EmptyString => true | _ => false end.

End Str.

Import Str.

(** ** Data model *)

Record JudgeResult := mkJudgeResult {
  status : string;
  time_used : Z;          (* long long *)
  mem_used : Z;           (* long long *)
  exit_code : Z;          (* int *)
  error_message : string;
  stdout_content : string;
  output_len : Z;         (* int *)
  allocated_cpu : string
}.

Record Limits := mkLimits {
  time_limit : Z;         (* int *)
  memory_limit : Z;       (* long long *)
  output_limit : Z;       (* int *)
  compile_timeout : Z;    (* int *)
  stack_limit : Z         (* long long *)
}.

Definition set_status (r : JudgeResult) (s : string) : JudgeResult :=
  mkJudgeResult s (time_used r) (mem_used r) (exit_code r) (error_message r)
                (stdout_content r) (output_len r) (allocated_cpu r).
Definition set_time_used (r : JudgeResult) (t : Z) : JudgeResult :=
  mkJudgeResult (status r) t (mem_used r) (exit_code r) (error_message r)
                (stdout_content r) (output_len r) (allocated_cpu r).
Definition set_mem_used (r : JudgeResult) (m : Z) : JudgeResult :=
  mkJudgeResult (status r) (time_used r) m (exit_code r) (error_message r)
                (stdout_content r) (output_len r) (allocated_cpu r).
Definition set_exit_code (r : JudgeResult) (e : Z) : JudgeResult :=
  mkJudgeResult (status r) (time_used r) (mem_used r) e (error_message r)
                (stdout_content r) (output_len r) (allocated_cpu r).
Definition set_error_message (r : JudgeResult) (m : string) : JudgeResult :=
  mkJudgeResult (status r) (time_used r) (mem_used r) (exit_code r) m
                (stdout_content r) (output_len r) (allocated_cpu r).
Definition set_stdout_content (r : JudgeResult) (s : string) : JudgeResult :=
  mkJudgeResult (status r) (time_used r) (mem_used r) (exit_code r)
                (error_message r) s (output_len r) (allocated_cpu r).
Definition set_output_len (r : JudgeResult) (n : Z) : JudgeResult :=
  mkJudgeResult (status r) (time_used r) (mem_used r) (exit_code r)
                (error_message r) (stdout_content r) n (allocated_cpu r).
Definition set_allocated_cpu (r : JudgeResult) (c : string) : JudgeResult :=
  mkJudgeResult (status r) (time_used r) (mem_used r) (exit_code r)
                (error_message r) (stdout_content r) (output_len r) c.

(** ** The operating system *)

(** What the judge does to the system, in program order. *)
Inductive Syscall :=
| Mkdir (path : string) (mode : Z)
| Rmdir (path : string)
| WriteFile (path data : string)
| PipeCreate (rd wr : Z)
| Fork (pid : Z)
| Kill (pid sig : Z)
| Waitpid (pid : Z)
| Wait4 (pid : Z)
| Close (fd : Z)
| SchedSetaffinity (pid cpu : Z)
| Popen (cmd : string)
| Pclose
| Unlink (path : string).

(** What one round of the drain loop observes: the value [select] returns,
    which read ends it reports readable, and what a [read] on each returns
    ([None] for -1, otherwise the bytes, none at the end of the stream). *)
Record SelectRound := mkSelectRound {
  sel_result : Z;
  sel_out_ready : bool;
  sel_err_ready : bool;
  sel_out_read : option string;
  sel_err_read : option string
}.

(** The answers of the system to the supervising process. *)
Record Kernel := mkKernel {
  k_random : Z;                         (* the draw from [dis(gen)] *)
  k_mkdir : string -> bool;             (* [mkdir(path, 0755) == 0] *)
  k_open_out : string -> bool;          (* an [ofstream] on the path opens *)
  k_write_good : string -> string -> bool; (* [good()] after writing the data *)
  k_read : string -> option string;     (* an [ifstream]: [None] if it does not open *)
  k_hash : string -> Z;                 (* [std::hash<string>] *)
  k_clock : Z;                          (* [now().time_since_epoch().count()] *)
  k_pipe_out : option (Z * Z);          (* [pipe(stdout_pipe)]: [None] for -1 *)
  k_pipe_err : option (Z * Z);          (* [pipe(stderr_pipe)] *)
  k_fork : option Z;                    (* [fork()] in the parent: [None] for -1 *)
  k_setaffinity : Z -> Z -> bool;       (* [sched_setaffinity(pid, {cpu}) == 0] *)
  k_select : list SelectRound;          (* the rounds of the drain loop *)
  k_wait4 : option (Z * Z);             (* wait status and [ru_maxrss]; [None] for -1 *)
  k_run_ms : Z;                         (* milliseconds from before [fork] to after [wait4] *)
  k_popen : option (string * Z);        (* compiler output and [pclose] status *)
  k_compile_ms : Z                      (* milliseconds around the compile command *)
}.

(** Effects: a computation yields a value and the system calls it made, in
    program order. *)
Definition M (A : Type) : Type := (A * list Syscall)%type.

Definition ret {A} (a : A) : M A := (a, []).
Definition bind {A B} (m : M A) (f : A -> M B) : M B :=
  let '(a, l1) := m in
  let '(b, l2) := f a in
  (b, (l1 ++ l2)%list).
Definition emit (s : Syscall) : M unit := (tt, [s]).

Notation "x <- m ;; f" := (bind m (fun x => f))
  (at level 61, m at next level, right associativity).
Notation "' pat <- m ;; f" :=
  (bind m (fun x => match x with pat => f end))
  (at level 61, pat pattern, m at next level, right associativity).
Notation "m ;;; f" := (bind m (fun _ => f))
  (at level 61, right associativity).

(** A function body either returns or lets an exception escape. *)
Inductive Outcome (A : Type) :=
| Returned (a : A)
| Thrown (what : string).
Arguments Returned {A} a.
Arguments Thrown {A} what.

(** ** Platform constants

    Signal numbers of [<signal.h>] and the wait-status macros of
    [<sys/wait.h>] on Linux (x86 and ARM); they come from the system headers,
    not from the repository. *)

Definition SIGABRT : Z := 6.
Definition SIGFPE : Z := 8.
Definition SIGKILL : Z := 9.
Definition SIGSEGV : Z := 11.
Definition SIGXCPU : Z := 24.

Definition WTERMSIG (st : Z) : Z := Z.land st 127.
Definition WEXITSTATUS (st : Z) : Z := Z.shiftr (Z.land st 65280) 8.
Definition WIFEXITED (st : Z) : bool := WTERMSIG st =? 0.
(** [((signed char) ((st & 0x7f) + 1) >> 1) > 0] *)
Definition WIFSIGNALED (st : Z) : bool :=
  Z.shiftr (CInt.wrap 8 (Z.land st 127 + 1)) 1 >? 0.

Section Judge.

Variable k : Kernel.

(** ** CgroupManager *)

Record CgroupManager := mkCgroupManager {
  cgroup_path : string;
  cgroup_name : string;
  created : bool
}.

(** The constructor: a random name [judge_XXXXXX], nothing created yet. *)
Definition CgroupManager_new : CgroupManager :=
  let name := "judge_" ++ to_string (k_random k) in
  mkCgroupManager ("/sys/fs/cgroup/" ++ name) name false.

Definition set_created (cg : CgroupManager) (b : bool) : CgroupManager :=
  mkCgroupManager (cgroup_path cg) (cgroup_name cg) b.

(** [ofstream f(path); if (!f) return false; f << data << endl;
    return f.good();] *)
Definition write_line (path data : string) : M bool :=
  if k_open_out k path then
    emit (WriteFile path (data ++ endl)) ;;;
    ret (k_write_good k path (data ++ endl))
  else ret false.

Definition create (cg : CgroupManager) : M (bool * CgroupManager) :=
  emit (Mkdir (cgroup_path cg) 493) ;;;        (* 0755 *)
  if negb (k_mkdir k (cgroup_path cg)) then ret (false, cg)
  else ret (true, set_created cg true).

Definition setMemoryLimit (cg : CgroupManager) (limit_bytes : Z) : M bool :=
  if negb (created cg) then ret false
  else write_line (cgroup_path cg ++ "/memory.max") (to_string limit_bytes).

(** Number of lines of [/proc/cpuinfo] that start with [processor];
    -1 when the file cannot be opened, 1 when no line matches.  The
    counter is an [int]: the model follows it as long as it does not
    overflow. *)
Definition starts_with_processor (line : string) : bool :=
  match find line "processor" 0 with
  | Some O => true
  | _ => false
  end.

Definition count_processor_lines (content : string) : Z :=
  fold_left (fun cpu_count line =>
               if starts_with_processor line then cpu_count + 1 else cpu_count)
            (lines content) 0.

Definition getCpuCount : Z :=
  match k_read k "/proc/cpuinfo" with
  | None => -1
  | Some content =>
      let cpu_count := count_processor_lines content in
      if cpu_count >? 0 then cpu_count else 1
  end.

Definition selectCpuForBinding (cg : CgroupManager) : string :=
  let cpu_count := getCpuCount in
  if cpu_count <=? 0 then "0"
  else
    let timestamp := k_clock k in
    let hash_value :=
      Z.lxor (CInt.to_size_t (k_hash k (cgroup_name cg)))
             (CInt.to_size_t timestamp) in
    let selected_cpu :=
      CInt.to_int (hash_value mod CInt.to_size_t cpu_count) in
    to_string selected_cpu.

Definition setCpuLimit (cg : CgroupManager) : M bool :=
  if negb (created cg) then ret false
  else
    (if k_open_out k "/sys/fs/cgroup/cgroup.subtree_control"
     then emit (WriteFile "/sys/fs/cgroup/cgroup.subtree_control"
                          ("+cpuset" ++ endl))
     else ret tt) ;;;
    let selected_cpu := selectCpuForBinding cg in
    if is_empty selected_cpu then ret false
    else
      ok <- write_line (cgroup_path cg ++ "/cpuset.cpus") selected_cpu ;;
      if negb ok then ret false
      else
        let available_mems :=
          match k_read k "/sys/fs/cgroup/cpuset.mems.effective" with
          | Some content => first_line content
          | None => ""
          end in
        let available_mems :=
          if is_empty available_mems then "0" else available_mems in
        write_line (cgroup_path cg ++ "/cpuset.mems") available_mems.

Definition forceCpuBinding (pid cpu_id : Z) : M bool :=
  emit (SchedSetaffinity pid cpu_id) ;;;
  ret (k_setaffinity k pid cpu_id).

Definition addProcess (cg : CgroupManager) (pid : Z) : M bool :=
  if negb (created cg) then ret false
  else write_line (cgroup_path cg ++ "/cgroup.procs") (to_string pid).

(** [ifstream f(path); if (!f) return -1; f >> v;
    return f.good() ? v : -1;] *)
Definition read_ll (path : string) : Z :=
  match k_read k path with
  | None => -1
  | Some content =>
      match extract_ll content with
      | Some v => v
      | None => -1
      end
  end.

Definition getMemoryPeak (cg : CgroupManager) : Z :=
  if negb (created cg) then -1
  else read_ll (cgroup_path cg ++ "/memory.peak").

Definition getCurrentMemory (cg : CgroupManager) : Z :=
  if negb (created cg) then -1
  else read_ll (cgroup_path cg ++ "/memory.current").

Definition cleanup (cg : CgroupManager) : M CgroupManager :=
  if created cg then
    emit (Rmdir (cgroup_path cg)) ;;;
    ret (set_created cg false)
  else ret cg.

Definition getName (cg : CgroupManager) : string := cgroup_name cg.

Definition getAllocatedCpu (cg : CgroupManager) : string :=
  if negb (created cg) then ""
  else
    match k_read k (cgroup_path cg ++ "/cpuset.cpus") with
    | None => ""
    | Some content => first_line content
    end.

End Judge.

(** ** Limit loader *)

Fixpoint drop (n : nat) (s : string) : string :=
  match n, s with
  | O, _ => s
  | S n', String _ s' => drop n' s'
  | S _, EmptyString => ""
  end.

(** [while (pos < json.length() && (json[pos] == ' ' || json[pos] == '\t'))
    pos++;] on the part of [json] from [pos] on. *)
Fixpoint skip_blank (s : string) : string :=
  match s with
  | String c s' =>
      if Ascii.eqb c " "%char || Ascii.eqb c tab then skip_blank s' else s
  | EmptyString => s
  end.

(** [result = result * 10 + (json[pos] - '0')] while the character is a
    digit; [result] is a [long long], reduced to 64 bits at each step. *)
Fixpoint accumulate_digits (result : Z) (s : string) : Z :=
  match s with
  | String c s' =>
      if is_digit c
      then accumulate_digits (CInt.to_ll (result * 10 + digit_val c)) s'
      else result
  | EmptyString => result
  end.

Definition parseJsonNumber (json key : string) : Z :=
  match find json (q ++ key ++ q) 0 with
  | None => -1
  | Some pos =>
      match find json ":" pos with
      | None => -1
      | Some pos =>
          accumulate_digits 0 (skip_blank (drop (S pos) json))
      end
  end.

(** [loadLimits] on what opening the file gives: [None] when it cannot be
    opened, otherwise its whole content. *)
Definition loadLimits_from (file : option string) : Limits :=
  match file with
  | None => mkLimits 1000 67108864 64000000 30000 8388608
  | Some json =>
      let time_limit := parseJsonNumber json "time_limit" in
      let memory_limit := parseJsonNumber json "memory_limit" in
      let output_limit := parseJsonNumber json "output_limit" in
      let compile_timeout := parseJsonNumber json "compile_timeout" in
      let stack_limit := parseJsonNumber json "stack_limit" in
      mkLimits
        (CInt.to_int (if time_limit >? 0 then time_limit else 1000))
        (if memory_limit >? 0 then CInt.to_ll (memory_limit * 1024)
         else 67108864)
        (CInt.to_int (if output_limit >? 0 then output_limit else 64000000))
        (CInt.to_int (if compile_timeout >? 0 then compile_timeout else 30000))
        (if stack_limit >? 0 then CInt.to_ll (stack_limit * 1024)
         else 8388608)
  end.

Definition loadLimits (k : Kernel) (limits_file : string) : Limits :=
  loadLimits_from (k_read k limits_file).

(** ** Compile stage *)

Definition compileProgram (k : Kernel) (source_file output_file : string)
           (limits : Limits) : M JudgeResult :=
  let result := mkJudgeResult "CE" 0 0 0 "" "" 0 "" in
  let compile_cmd :=
    "g++ -g -std=c++20 -O2 -Wall -Wextra -Wshadow -Wconversion -Wfloat-equal "
      ++ source_file ++ " -o " ++ output_file ++ " 2>&1" in
  emit (Popen compile_cmd) ;;;
  match k_popen k with
  | None =>
      ret (set_error_message result "Failed to create compilation process")
  | Some (compile_output, compile_result) =>
      emit Pclose ;;;
      let result := set_time_used result (k_compile_ms k) in
      if negb (compile_result =? 0) then
        ret (set_status (set_error_message result compile_output) "CE")
      else if time_used result >? compile_timeout limits then
        ret (set_error_message (set_status result "CE") "Compilation timeout")
      else ret (set_status result "OK")
  end.

(** ** Run stage *)

(** One [read] into [buffer] followed by [output += buffer]: the pipe is
    done when [bytes_read <= 0]; otherwise the buffer, terminated by a NUL
    after the bytes read, is appended as a C string. *)
Definition absorb (done : bool) (ready : bool) (rd : option string)
           (output : string) : string * bool :=
  if negb done && ready then
    match rd with
    | None => (output, true)
    | Some EmptyString => (output, true)
    | Some bytes => (output ++ c_str bytes, done)
    end
  else (output, done).

(** The drain loop [while (!stdout_done || !stderr_done)] over the rounds
    the system provides; when they are used up [select] times out. *)
Fixpoint drain (rounds : list SelectRound) (stdout_output stderr_output : string)
         (stdout_done stderr_done : bool) : string * string :=
  if stdout_done && stderr_done then (stdout_output, stderr_output)
  else
    match rounds with
    | [] => (stdout_output, stderr_output)
    | r :: rounds' =>
        if sel_result r <=? 0 then (stdout_output, stderr_output)
        else
          let '(stdout_output, stdout_done) :=
            absorb stdout_done (sel_out_ready r) (sel_out_read r) stdout_output in
          let '(stderr_output, stderr_done) :=
            absorb stderr_done (sel_err_ready r) (sel_err_read r) stderr_output in
          drain rounds' stdout_output stderr_output stdout_done stderr_done
    end.

(** The verdict from the wait status (the [if (WIFEXITED(status)) ... else
    if (WIFSIGNALED(status)) ...] block of [runProgram]). *)
Definition classify (result : JudgeResult) (limits : Limits) (wstatus : Z)
           (stderr_output : string) : JudgeResult :=
  if WIFEXITED wstatus then
    let result := set_exit_code result (WEXITSTATUS wstatus) in
    if exit_code result =? 0 then
      if time_used result >? time_limit limits then set_status result "TLE"
      else if mem_used result >? memory_limit limits then set_status result "MLE"
      else if output_len result >? output_limit limits then set_status result "OLE"
      else set_status result "OK"
    else
      let result := set_status result "RE" in
      let result :=
        set_error_message result
          ("Program exited with non-zero code: " ++ to_string (exit_code result)) in
      if negb (is_empty stderr_output)
      then set_error_message result
             (error_message result ++ "\nStderr: " ++ stderr_output)
      else result
  else if WIFSIGNALED wstatus then
    let signal_num := WTERMSIG wstatus in
    let result := set_exit_code result (CInt.to_int (128 + signal_num)) in
    if signal_num =? SIGXCPU then
      set_error_message (set_status result "TLE") "Time limit exceeded (SIGXCPU)"
    else if signal_num =? SIGKILL then
      if mem_used result >? memory_limit limits
      then set_error_message (set_status result "MLE")
                             "Memory limit exceeded (cgroup)"
      else set_error_message (set_status result "TLE")
                             "Time limit exceeded (SIGKILL)"
    else if signal_num =? SIGSEGV then
      set_error_message (set_status result "RE") "Segmentation fault"
    else if signal_num =? SIGFPE then
      set_error_message (set_status result "RE") "Floating point exception"
    else if signal_num =? SIGABRT then
      if mem_used result >? memory_limit limits
      then set_error_message (set_status result "MLE")
                             "Memory limit exceeded (allocation failed)"
      else set_error_message (set_status result "RE") "Program aborted"
    else
      set_error_message (set_status result "RE")
        ("Program terminated by signal " ++ to_string signal_num)
  else result.

Section Run.

(** The executable and the input file are used by the child only
    ([open], [execl]); the supervising side does not look at them. *)
Variable k : Kernel.
Variable limits : Limits.

Definition close4 (a b c d : Z) : M unit :=
  emit (Close a) ;;; emit (Close b) ;;; emit (Close c) ;;; emit (Close d).

(** The parent side of [fork]. *)
Definition supervise (cgroup : CgroupManager) (result : JudgeResult)
           (pid out_rd out_wr err_rd err_wr : Z) : M (Outcome JudgeResult) :=
  ok <- addProcess k cgroup pid ;;
  if negb ok then
    let result := set_error_message result "Failed to add process to cgroup" in
    emit (Kill pid SIGKILL) ;;;
    emit (Waitpid pid) ;;;
    close4 out_rd out_wr err_rd err_wr ;;;
    ret (Returned result)
  else
    let allocated_cpu_str := allocated_cpu result in
    bound <-
      (if negb (is_empty allocated_cpu_str) then
         match stoi allocated_cpu_str with
         | inr what => ret (Thrown what)
         | inl allocated_cpu_id =>
             ok <- forceCpuBinding k pid allocated_cpu_id ;;
             if negb ok
             then ret (Returned
                    (set_error_message result
                       (error_message result
                          ++ "Warning: Failed to set CPU affinity; ")))
             else ret (Returned result)
         end
       else ret (Returned result)) ;;
    match bound with
    | Thrown what => ret (Thrown what)
    | Returned result =>
        emit (Close out_wr) ;;;
        emit (Close err_wr) ;;;
        let '(stdout_output, stderr_output) :=
          drain (k_select k) "" "" false false in
        emit (Close out_rd) ;;;
        emit (Close err_rd) ;;;
        emit (Wait4 pid) ;;;
        match k_wait4 k with
        | None =>
            ret (Returned
                   (set_error_message result "Failed to wait for child process"))
        | Some (wstatus, ru_maxrss) =>
            let result := set_time_used result (k_run_ms k) in
            let memory_peak := getMemoryPeak k cgroup in
            let result :=
              set_mem_used result
                (if memory_peak >? 0 then memory_peak
                 else CInt.to_ll (ru_maxrss * 1024)) in
            let result := set_stdout_content result stdout_output in
            let result :=
              set_output_len result
                (CInt.to_int (Z.of_nat (String.length stdout_output))) in
            ret (Returned (classify result limits wstatus stderr_output))
        end
    end.

(** [runProgram] up to its [return]; the manager it hands back is the
    local [cgroup] object whose destructor then runs. *)
Definition runProgram_body : M (Outcome JudgeResult * CgroupManager) :=
  let result := mkJudgeResult "RE" 0 0 (-1) "" "" 0 "" in
  '(ok, cgroup) <- create k (CgroupManager_new k) ;;
  if negb ok then
    ret (Returned (set_error_message result
                     "Failed to create cgroup (需要root权限)"), cgroup)
  else
    ok <- setMemoryLimit k cgroup (memory_limit limits) ;;
    if negb ok then
      ret (Returned (set_error_message result
                       "Failed to set memory limit in cgroup"), cgroup)
    else
      ok <- setCpuLimit k cgroup ;;
      if negb ok then
        ret (Returned (set_error_message result
                         "Failed to set CPU limit in cgroup"), cgroup)
      else
        let result := set_allocated_cpu result (getAllocatedCpu k cgroup) in
        match k_pipe_out k with
        | None =>
            ret (Returned (set_error_message result "Failed to create pipes"),
                 cgroup)
        | Some (out_rd, out_wr) =>
            emit (PipeCreate out_rd out_wr) ;;;
            match k_pipe_err k with
            | None =>
                ret (Returned (set_error_message result "Failed to create pipes"),
                     cgroup)
            | Some (err_rd, err_wr) =>
                emit (PipeCreate err_rd err_wr) ;;;
                match k_fork k with
                | None =>
                    let result :=
                      set_error_message result "Failed to fork process" in
                    close4 out_rd out_wr err_rd err_wr ;;;
                    ret (Returned result, cgroup)
                | Some pid =>
                    emit (Fork pid) ;;;
                    out <- supervise cgroup result pid out_rd out_wr err_rd err_wr ;;
                    ret (out, cgroup)
                end
            end
        end.

(** [runProgram]: the body, then the destructor of [cgroup], which runs
    on a return and on an exception alike. *)
Definition runProgram : M (Outcome JudgeResult) :=
  '(out, cgroup) <- runProgram_body ;;
  cleanup cgroup ;;;
  ret out.

End Run.

(** ** Result encoder *)

(** The escaping loop of [resultToJson], run over [error_message] and over
    [stdout_content]. *)
Definition escape_char (c : ascii) : string :=
  if Ascii.eqb c dquote then String backslash (chr dquote)
  else if Ascii.eqb c backslash then String backslash (chr backslash)
  else if Ascii.eqb c newline then String backslash "n"
  else if Ascii.eqb c cret then String backslash "r"
  else if Ascii.eqb c tab then String backslash "t"
  else chr c.

Fixpoint escape (s : string) : string :=
  match s with
  | EmptyString => ""
  | String c s' => escape_char c ++ escape s'
  end.

Definition resultToJson (result : JudgeResult) : string :=
  "{" ++ endl
  ++ "  " ++ q ++ "status" ++ q ++ ": " ++ q ++ status result ++ q ++ "," ++ endl
  ++ "  " ++ q ++ "time_used" ++ q ++ ": " ++ to_string (time_used result) ++ "," ++ endl
  ++ "  " ++ q ++ "mem_used" ++ q ++ ": " ++ to_string (mem_used result) ++ "," ++ endl
  ++ "  " ++ q ++ "exit_code" ++ q ++ ": " ++ to_string (exit_code result) ++ "," ++ endl
  ++ "  " ++ q ++ "error_message" ++ q ++ ": " ++ q
  ++ escape (error_message result)
  ++ q ++ "," ++ endl
  ++ "  " ++ q ++ "stdout" ++ q ++ ": " ++ q
  ++ escape (stdout_content result)
  ++ q ++ "," ++ endl
  ++ "  " ++ q ++ "output_len" ++ q ++ ": " ++ to_string (output_len result) ++ "," ++ endl
  ++ "  " ++ q ++ "allocated_cpu" ++ q ++ ": " ++ q ++ allocated_cpu result ++ q ++ endl
  ++ "}".

(** ** Entry orchestrator *)

Definition judge_core (k : Kernel) (limits_file source_file input_file : string)
  : M JudgeResult :=
  let limits := loadLimits k limits_file in
  let executable := source_file ++ ".out" in
  result <- compileProgram k source_file executable limits ;;
  if negb (String.eqb (status result) "OK") then ret result
  else
    out <- runProgram k limits ;;
    match out with
    | Returned result =>
        emit (Unlink executable) ;;;
        ret result
    | Thrown what =>
        let result := set_status result "SE" in
        let result := set_error_message result ("System error: " ++ what) in
        let result := set_time_used result 0 in
        let result := set_mem_used result 0 in
        let result := set_exit_code result (-1) in
        let result := set_output_len result 0 in
        ret (set_allocated_cpu result "")
    end.

(** ** Reading a run *)

Definition returned {A} (o : Outcome A) : option A :=
  match o with
  | Returned a => Some a
  | Thrown _ => None
  end.

(** The result [runProgram] returns, when it returns one, and the system
    calls it has made by then (the destructor of [cgroup] included). *)
Definition run_result (k : Kernel) (limits : Limits) : option JudgeResult :=
  returned (fst (runProgram k limits)).

Definition run_log (k : Kernel) (limits : Limits) : list Syscall :=
  snd (runProgram k limits).

(** The conversion [stoi(allocated_cpu_str)] in front of the affinity call
    lets an exception escape. *)
Definition affinity_throws (allocated_cpu_str : string) : bool :=
  negb (is_empty allocated_cpu_str)
  && match stoi allocated_cpu_str with inr _ => true | inl _ => false end.

(** The sandbox faults of the run stage, in the order [runProgram] meets
    them. *)
Inductive Fault :=
| CgroupCreation
| MemoryLimitWrite
| CpuLimitWrite
| PipeCreation
| ForkFailure
| Enrollment
| Reap.

Definition fault_message (f : Fault) : string :=
  match f with
  | CgroupCreation => "Failed to create cgroup (需要root权限)"
  | MemoryLimitWrite => "Failed to set memory limit in cgroup"
  | CpuLimitWrite => "Failed to set CPU limit in cgroup"
  | PipeCreation => "Failed to create pipes"
  | ForkFailure => "Failed to fork process"
  | Enrollment => "Failed to add process to cgroup"
  | Reap => "Failed to wait for child process"
  end.

(** The first fault the system inflicts on a run, if any. *)
Definition run_fault (k : Kernel) (limits : Limits) : option Fault :=
  let '(ok, cgroup) := fst (create k (CgroupManager_new k)) in
  if negb ok then Some CgroupCreation
  else if negb (fst (setMemoryLimit k cgroup (memory_limit limits)))
  then Some MemoryLimitWrite
  else if negb (fst (setCpuLimit k cgroup)) then Some CpuLimitWrite
  else
    match k_pipe_out k, k_pipe_err k with
    | None, _ | Some _, None => Some PipeCreation
    | Some _, Some _ =>
        match k_fork k with
        | None => Some ForkFailure
        | Some pid =>
            if negb (fst (addProcess k cgroup pid)) then Some Enrollment
            else if affinity_throws (getAllocatedCpu k cgroup) then None
            else
              match k_wait4 k with
              | None => Some Reap
              | Some _ => None
              end
        end
    end.

(** A fault met before the CPU limit is in place. *)
Definition before_cpu_limit (f : Fault) : bool :=
  match f with
  | CgroupCreation | MemoryLimitWrite | CpuLimitWrite => true
  | _ => false
  end.

(** The cgroup manager of a run once [create] has succeeded. *)
Definition run_cgroup (k : Kernel) : CgroupManager :=
  set_created (CgroupManager_new k) true.

(** Two system calls made one right after the other. *)
Definition consecutive (a b : Syscall) (log : list Syscall) : Prop :=
  exists pre post, log = (pre ++ a :: b :: post)%list.

(** Number of lines of a [/proc/cpuinfo] content that begin with
    [processor]. *)
Definition processor_lines (content : string) : nat :=
  List.length (filter starts_with_processor (lines content)).

(** ** Sample systems

    A small machine with two cores on which everything succeeds, and the
    ways it is varied below. *)

Definition sample_files (path : string) : option string :=
  if String.eqb path "/proc/cpuinfo" then
    Some ("processor : 0" ++ endl ++ "model name : cpu" ++ endl
          ++ "processor : 1" ++ endl)
  else if String.eqb path "/sys/fs/cgroup/judge_123456/cpuset.cpus" then
    Some ("1" ++ endl)
  else if String.eqb path "/sys/fs/cgroup/judge_123456/memory.peak" then
    Some ("4096" ++ endl)
  else None.

Definition sample_kernel (mkdir_ok : bool) (open_out : string -> bool)
           (pipe_out : option (Z * Z)) (rounds : list SelectRound)
           (wait4 : option (Z * Z)) (run_ms : Z) : Kernel :=
  mkKernel 123456 (fun _ => mkdir_ok) open_out (fun _ _ => true)
           sample_files (fun _ => 7) 12 pipe_out (Some (5, 6)) (Some 4242)
           (fun _ _ => true) rounds wait4 run_ms (Some ("", 0)) 300.

Definition all_open (path : string) : bool := true.

(** The child prints [hello] and its pipes reach the end of the stream. *)
Definition hello_rounds : list SelectRound :=
  [mkSelectRound 1 true false (Some "hello") None;
   mkSelectRound 2 true true (Some "") (Some "")].

Definition sample_limits : Limits := loadLimits_from None.

Fixpoint repeat_char (c : ascii) (n : nat) : string :=
  match n with
  | O => ""
  | S n' => String c (repeat_char c n')
  end.

(** The child exits with code 0 after exactly [run_ms] milliseconds. *)
Definition k_clean_exit (run_ms : Z) : Kernel :=
  sample_kernel true all_open (Some (3, 4)) hello_rounds (Some (0, 100)) run_ms.

(** The child is killed by signal [sig]. *)
Definition k_signaled (sig : Z) : Kernel :=
  sample_kernel true all_open (Some (3, 4)) hello_rounds (Some (sig, 100)) 2100.

(** [mkdir] fails: the judge does not run as root. *)
Definition k_no_root : Kernel :=
  sample_kernel false all_open (Some (3, 4)) hello_rounds (Some (0, 100)) 15.

(** The first [pipe] fails, after the cgroup was set up. *)
Definition k_pipe_fail : Kernel :=
  sample_kernel true all_open None hello_rounds (Some (0, 100)) 15.

(** [cgroup.procs] cannot be opened: enrolling the child fails. *)
Definition k_enroll_fail : Kernel :=
  sample_kernel true
    (fun path =>
       negb (String.eqb path "/sys/fs/cgroup/judge_123456/cgroup.procs"))
    (Some (3, 4)) hello_rounds (Some (0, 100)) 15.

(** The child prints 100 bytes and exits with code 0; the output limit is
    32 bytes. *)
Definition k_loud : Kernel :=
  sample_kernel true all_open (Some (3, 4))
    [mkSelectRound 1 true false (Some (repeat_char "A" 100)) None;
     mkSelectRound 2 true true (Some "") (Some "")]
    (Some (0, 100)) 15.

Definition tight_limits : Limits := mkLimits 1000 67108864 32 30000 8388608.

Definition boundary_result : JudgeResult :=
  mkJudgeResult "OK" 1000 4096 0 "" "hello" 5 "1".

Definition killed_result : JudgeResult :=
  mkJudgeResult "TLE" 2100 4096 137 "Time limit exceeded (SIGKILL)" "hello" 5 "1".

(** One round of the drain loop in which only the standard output of the
    child is readable and [read] returns [bytes]. *)
Definition stdout_round (bytes : string) : SelectRound :=
  mkSelectRound 1 true false (Some bytes) None.

(** What a sequence of buffers adds to a [std::string] when each is
    appended as a C string. *)
Fixpoint concat_c_str (chunks : list string) : string :=
  match chunks with
  | [] => ""
  | c :: cs => c_str c ++ concat_c_str cs
  end.

(** The count of cores as section 4.3 of the specification words it: the
    number of [processor] lines, 1 when [/proc/cpuinfo] is unreadable, 0 when
    it exists but lists none. *)
Definition spec_cpu_count (cpuinfo : option string) : Z :=
  match cpuinfo with
  | None => 1
  | Some content => Z.of_nat (processor_lines content)
  end.

(** A system whose [/proc/cpuinfo] opens and is empty, and one on which it
    does not open. *)
Definition k_cpuinfo (cpuinfo : option string) : Kernel :=
  mkKernel 123456 (fun _ => true) all_open (fun _ _ => true)
           (fun path =>
              if String.eqb path "/proc/cpuinfo" then cpuinfo
              else sample_files path)
           (fun _ => 7) 12 (Some (3, 4)) (Some (5, 6)) (Some 4242)
           (fun _ _ => true) hello_rounds (Some (0, 100)) 15 (Some ("", 0)) 300.

(** ** A decoder for the output of the encoder

    It reads the fields in the order [resultToJson] writes them, takes
    [status] and [allocated_cpu] as they stand up to the next double quote,
    and undoes the five escapes in [error_message] and [stdout]. *)

Definition obind {A B} (o : option A) (f : A -> option B) : option B :=
  match o with
  | Some a => f a
  | None => None
  end.

(** [s] without the literal [lit] in front of it. *)
Fixpoint expect (lit s : string) : option string :=
  match lit, s with
  | EmptyString, _ => Some s
  | String a lit', String b s' =>
      if Ascii.eqb a b then expect lit' s' else None
  | String _ _, EmptyString => None
  end.

(** The bytes before the next double quote, and what follows the quote. *)
Fixpoint read_raw (s : string) : option (string * string) :=
  match s with
  | EmptyString => None
  | String c s' =>
      if Ascii.eqb c dquote then Some ("", s')
      else obind (read_raw s') (fun '(p, rest) => Some (String c p, rest))
  end.

(** The character an escape sequence stands for. *)
Definition unescape_char (c : ascii) : option ascii :=
  if Ascii.eqb c dquote then Some dquote
  else if Ascii.eqb c backslash then Some backslash
  else if Ascii.eqb c "n" then Some newline
  else if Ascii.eqb c "r" then Some cret
  else if Ascii.eqb c "t" then Some tab
  else None.

(** The bytes that may not stand as they are inside an escaped value. *)
Definition is_control (c : ascii) : bool :=
  Ascii.eqb c newline || Ascii.eqb c cret || Ascii.eqb c tab.

(** The bytes before the next double quote that is not escaped, with the
    escapes undone, and what follows the quote.  A newline, carriage return
    or tab that is not escaped is refused, and so is a backslash in front
    of anything but the five escaped characters. *)
Fixpoint read_escaped (s : string) : option (string * string) :=
  match s with
  | EmptyString => None
  | String c s' =>
      if Ascii.eqb c dquote then Some ("", s')
      else if Ascii.eqb c backslash then
        match s' with
        | String e s'' =>
            match unescape_char e, read_escaped s'' with
            | Some x, Some (p, rest) => Some (String x p, rest)
            | _, _ => None
            end
        | EmptyString => None
        end
      else if is_control c then None
      else obind (read_escaped s') (fun '(p, rest) => Some (String c p, rest))
  end.

(** A decimal number with an optional sign, and what follows it. *)
Definition read_number (s : string) : option (Z * string) :=
  let '(sg, s1) := read_sign s in
  let '(ds, rest) := span_digits s1 in
  if is_empty ds then None else Some (sg * digits_val 0 ds, rest).

Definition parseResult (s : string) : option JudgeResult :=
  obind (expect ("{" ++ endl ++ "  " ++ q ++ "status" ++ q ++ ": " ++ q) s)
  (fun s => obind (read_raw s)
  (fun '(status, s) =>
     obind (expect ("," ++ endl ++ "  " ++ q ++ "time_used" ++ q ++ ": ") s)
  (fun s => obind (read_number s)
  (fun '(time_used, s) =>
     obind (expect ("," ++ endl ++ "  " ++ q ++ "mem_used" ++ q ++ ": ") s)
  (fun s => obind (read_number s)
  (fun '(mem_used, s) =>
     obind (expect ("," ++ endl ++ "  " ++ q ++ "exit_code" ++ q ++ ": ") s)
  (fun s => obind (read_number s)
  (fun '(exit_code, s) =>
     obind (expect ("," ++ endl ++ "  " ++ q ++ "error_message" ++ q ++ ": " ++ q) s)
  (fun s => obind (read_escaped s)
  (fun '(error_message, s) =>
     obind (expect ("," ++ endl ++ "  " ++ q ++ "stdout" ++ q ++ ": " ++ q) s)
  (fun s => obind (read_escaped s)
  (fun '(stdout_content, s) =>
     obind (expect ("," ++ endl ++ "  " ++ q ++ "output_len" ++ q ++ ": ") s)
  (fun s => obind (read_number s)
  (fun '(output_len, s) =>
     obind (expect ("," ++ endl ++ "  " ++ q ++ "allocated_cpu" ++ q ++ ": " ++ q) s)
  (fun s => obind (read_raw s)
  (fun '(allocated_cpu, s) =>
     obind (expect (endl ++ "}") s)
  (fun s =>
     if is_empty s
     then Some (mkJudgeResult status time_used mem_used exit_code
                              error_message stdout_content output_len
                              allocated_cpu)
     else None))))))))))))))))).

Fixpoint no_dquote (s : string) : bool :=
  match s with
  | EmptyString => true
  | String c s' => negb (Ascii.eqb c dquote) && no_dquote s'
  end.

(** The text [resultToJson] puts between the status and the allocated core
    of a result whose other fields are zero or empty. *)
Definition json_middle : string :=
  q ++ "," ++ endl
  ++ "  " ++ q ++ "time_used" ++ q ++ ": 0," ++ endl
  ++ "  " ++ q ++ "mem_used" ++ q ++ ": 0," ++ endl
  ++ "  " ++ q ++ "exit_code" ++ q ++ ": 0," ++ endl
  ++ "  " ++ q ++ "error_message" ++ q ++ ": " ++ q ++ q ++ "," ++ endl
  ++ "  " ++ q ++ "stdout" ++ q ++ ": " ++ q ++ q ++ "," ++ endl
  ++ "  " ++ q ++ "output_len" ++ q ++ ": 0," ++ endl
  ++ "  " ++ q ++ "allocated_cpu" ++ q ++ ": " ++ q.

(** Two different results with the same encoding: the quote inside the
    status of the second, or inside the core of the first, is written as it
    is. *)
Definition twin_a : JudgeResult :=
  mkJudgeResult "RE" 0 0 0 "" "" 0 ("x" ++ json_middle ++ "1").
Definition twin_b : JudgeResult :=
  mkJudgeResult ("RE" ++ json_middle ++ "x") 0 0 0 "" "" 0 "1".

(** A result whose messages contain every character the encoder escapes. *)
Definition tricky_result : JudgeResult :=
  mkJudgeResult "RE" 12 4096 (-1)
    ("a" ++ q ++ "b\c" ++ endl ++ chr cret ++ chr tab ++ "\n")
    (q ++ q ++ "\\" ++ endl) 4 "0".

(** A limits file whose time limit does not fit an [int], and one whose
    time limit is [INT_MAX + 1]. *)
Definition huge_time_limit_file : string :=
  "{" ++ q ++ "time_limit" ++ q ++ ": 4294967296}".

Definition wrapping_time_limit_file : string :=
  "{" ++ q ++ "time_limit" ++ q ++ ": 2147483648}".

(** What follows a number in the output of the encoder is not a digit. *)
Definition starts_nondigit (s : string) : Prop :=
  match s with
  | EmptyString => True
  | String c _ => is_digit c = false
  end.

(** The compiler reports an error and exits with status 1. *)
Definition k_syntax_error : Kernel :=
  mkKernel 123456 (fun _ => true) all_open (fun _ _ => true) sample_files
           (fun _ => 7) 12 (Some (3, 4)) (Some (5, 6)) (Some 4242)
           (fun _ _ => true) hello_rounds (Some (0, 100)) 15
           (Some ("a.cpp:1:1: error", 256)) 300.

(** System calls that neither signal, reap nor close: the child and the
    pipe ends are left as they are. *)
Definition leaves_child_alone (s : Syscall) : bool :=
  match s with
  | Kill _ _ | Waitpid _ | Wait4 _ | Close _ => false
  | _ => true
  end.

(** The read-back of [cpuset.cpus] is a blank: the affinity conversion
    throws. *)
Definition k_blank_cpus : Kernel :=
  mkKernel 123456 (fun _ => true) all_open (fun _ _ => true)
           (fun path =>
              if String.eqb path "/sys/fs/cgroup/judge_123456/cpuset.cpus"
              then Some (" " ++ endl)
              else sample_files path)
           (fun _ => 7) 12 (Some (3, 4)) (Some (5, 6)) (Some 4242)
           (fun _ _ => true) hello_rounds (Some (0, 100)) 15 (Some ("", 0)) 300.

(** The child writes [oops] to its standard error and exits with code 3. *)
Definition k_exit_3 : Kernel :=
  sample_kernel true all_open (Some (3, 4))
    [mkSelectRound 1 false true None (Some "oops");
     mkSelectRound 2 true true (Some "") (Some "")]
    (Some (768, 100)) 15.

Definition exit_3_result : JudgeResult :=
  mkJudgeResult "RE" 15 4096 3
    "Program exited with non-zero code: 3\nStderr: oops" "" 0 "1".

(** The last system calls of a log. *)
Definition ends_with (suffix log : list Syscall) : Prop :=
  exists pre, log = (pre ++ suffix)%list.

(** [sched_setaffinity] fails; everything else succeeds. *)
Definition k_no_affinity : Kernel :=
  mkKernel 123456 (fun _ => true) all_open (fun _ _ => true) sample_files
           (fun _ => 7) 12 (Some (3, 4)) (Some (5, 6)) (Some 4242)
           (fun _ _ => false) hello_rounds (Some (0, 100)) 15 (Some ("", 0)) 300.

Definition warned_result : JudgeResult :=
  mkJudgeResult "OK" 15 4096 0 "Warning: Failed to set CPU affinity; "
                "hello" 5 "1".

(** Bytes the rounds of the drain loop offer on the standard output of the
    child. *)
Fixpoint stdout_bytes_offered (rounds : list SelectRound) : nat :=
  match rounds with
  | [] => 0%nat
  | r :: rounds' =>
      (match sel_out_read r with
       | Some bytes => String.length bytes
       | None => 0%nat
       end + stdout_bytes_offered rounds')%nat
  end.

(** Two rounds that look the same from the standard output of the child. *)
Definition same_stdout_side (a b : SelectRound) : Prop :=
  sel_result a = sel_result b /\
  sel_out_ready a = sel_out_ready b /\
  sel_out_read a = sel_out_read b.

(** The rounds of [hello_rounds] with a chatty standard error. *)
Definition hello_rounds_stderr : list SelectRound :=
  [mkSelectRound 1 true true (Some "hello") (Some "warning: x");
   mkSelectRound 2 true false (Some "") None].

(** The keys of the limits file, and for each the field it fills and the
    value the field takes when the key gives nothing. *)
Definition limit_keys : list string :=
  ["time_limit"; "memory_limit"; "output_limit"; "compile_timeout";
   "stack_limit"].

Definition limit_field (key : string) (limits : Limits) : Z :=
  if String.eqb key "time_limit" then time_limit limits
  else if String.eqb key "memory_limit" then memory_limit limits
  else if String.eqb key "output_limit" then output_limit limits
  else if String.eqb key "compile_timeout" then compile_timeout limits
  else stack_limit limits.

Definition limit_default (key : string) : Z :=
  limit_field key (mkLimits 1000 67108864 64000000 30000 8388608).

(** A limits file in the layout the judge is fed with: the five keys in
    order, [memory_limit] and [stack_limit] in kibibytes. *)
Definition render_limits (time_ms memory_kib output_bytes compile_ms stack_kib : Z)
  : string :=
  "{" ++ q ++ "time_limit" ++ q ++ ": " ++ to_string time_ms
      ++ ", " ++ q ++ "memory_limit" ++ q ++ ": " ++ to_string memory_kib
      ++ ", " ++ q ++ "output_limit" ++ q ++ ": " ++ to_string output_bytes
      ++ ", " ++ q ++ "compile_timeout" ++ q ++ ": " ++ to_string compile_ms
      ++ ", " ++ q ++ "stack_limit" ++ q ++ ": " ++ to_string stack_kib ++ "}".

(** Occurrences of a byte in a string. *)
Fixpoint count_char (c : ascii) (s : string) : nat :=
  match s with
  | EmptyString => 0%nat
  | String x s' => ((if Ascii.eqb x c then 1 else 0) + count_char c s')%nat
  end.

(** ** Resource limits of the child

    What the child passes to [setrlimit] between [fork] and [execl], in
    order, and the deadline the supervisor gives [select].  The seconds are
    computed on [int]s; [rlim_t] is an unsigned 64-bit integer. *)





(** [memory.peak] of the node cannot be read. *)
Definition k_no_peak : Kernel :=
  mkKernel 123456 (fun _ => true) all_open (fun _ _ => true)
           (fun path =>
              if String.eqb path "/sys/fs/cgroup/judge_123456/memory.peak"
              then None
              else sample_files path)
           (fun _ => 7) 12 (Some (3, 4)) (Some (5, 6)) (Some 4242)
           (fun _ _ => true) hello_rounds (Some (0, 100)) 15 (Some ("", 0)) 300.

(** The first [pipe] succeeds and the second fails. *)
Definition k_second_pipe_fail : Kernel :=
  mkKernel 123456 (fun _ => true) all_open (fun _ _ => true) sample_files
           (fun _ => 7) 12 (Some (3, 4)) None (Some 4242)
           (fun _ _ => true) hello_rounds (Some (0, 100)) 15 (Some ("", 0)) 300.

(** ** The capture as the rounds describe it

    The rounds that count are those before the first in which [select]
    times out or fails.  In these, every [read] on a readable standard
    output fills one buffer, up to the first [read] that returns no byte
    (the end of the stream, or an error). *)

Fixpoint rounds_before_timeout (rounds : list SelectRound) : list SelectRound :=
  match rounds with
  | [] => []
  | r :: rounds' =>
      if sel_result r <=? 0 then [] else r :: rounds_before_timeout rounds'
  end.

Fixpoint buffers_until_eof (reads : list (option string)) : list string :=
  match reads with
  | Some (String c s) :: reads' => String c s :: buffers_until_eof reads'
  | _ => []
  end.

Definition stdout_buffers (rounds : list SelectRound) : list string :=
  buffers_until_eof
    (map sel_out_read (filter sel_out_ready (rounds_before_timeout rounds))).

Definition concat_str (l : list string) : string := fold_right append "" l.

Definition nul_free (s : string) : bool := (count_char nul s =? 0)%nat.

(** The standard error of the child ends first; its standard output then
    arrives in two buffers. *)
Definition stderr_first_rounds : list SelectRound :=
  [mkSelectRound 1 false true None (Some "");
   mkSelectRound 1 true false (Some "hel") None;
   mkSelectRound 1 true false (Some "lo") None;
   mkSelectRound 1 true false (Some "") None].

Definition k_stderr_first : Kernel :=
  sample_kernel true all_open (Some (3, 4)) stderr_first_rounds
                (Some (0, 100)) 15.

Definition hello_result : JudgeResult :=
  mkJudgeResult "OK" 15 4096 0 "" "hello" 5 "1".

(** A limits file that gives two of the five numbers. *)
Definition partial_limits_file : string :=
  "{" ++ q ++ "time_limit" ++ q ++ ": 2000, "
      ++ q ++ "memory_limit" ++ q ++ ": 1024}".

(** * Properties *)

(** ** The effect monad *)

Section MonadFacts.
Context {A B : Type}.

Lemma fst_bind (m : M A) (f : A -> M B) : fst (bind m f) = fst (f (fst m)).
Proof.
  unfold bind. destruct m as [a l1]; cbn [fst snd].
  destruct (f a); reflexivity.
Qed.

Lemma snd_bind (m : M A) (f : A -> M B) :
  snd (bind m f) = (snd m ++ snd (f (fst m)))%list.
Proof.
  unfold bind. destruct m as [a l1]; cbn [fst snd].
  destruct (f a); reflexivity.
Qed.
End MonadFacts.

Lemma consecutive_here a b l : consecutive a b (a :: b :: l).
Proof. exists [], l. reflexivity. Qed.

Lemma consecutive_app_r a b l1 l2 :
  consecutive a b l2 -> consecutive a b (l1 ++ l2).
Proof.
  intros (pre & post & ->). exists (l1 ++ pre)%list, post.
  now rewrite <- List.app_assoc.
Qed.

Lemma consecutive_app_l a b l1 l2 :
  consecutive a b l1 -> consecutive a b (l1 ++ l2).
Proof.
  intros (pre & post & ->). exists pre, (post ++ l2)%list.
  now rewrite <- List.app_assoc.
Qed.

(** ** Wait statuses *)

Lemma WTERMSIG_mod st : WTERMSIG st = st mod 128.
Proof.
  unfold WTERMSIG. change 127 with (Z.ones 7).
  rewrite Z.land_ones by lia. reflexivity.
Qed.

Lemma WTERMSIG_range st : 0 <= WTERMSIG st <= 127.
Proof.
  rewrite WTERMSIG_mod.
  pose proof (Z.mod_pos_bound st 128 eq_refl). lia.
Qed.

Lemma WIFSIGNALED_range st :
  WIFSIGNALED st = true -> 1 <= WTERMSIG st <= 126.
Proof.
  unfold WIFSIGNALED. fold (WTERMSIG st).
  pose proof (WTERMSIG_range st) as Hr.
  rewrite Z.shiftr_div_pow2 by lia. unfold CInt.wrap.
  change (2 ^ (8 - 1)) with 128. change (2 ^ 8) with 256. change (2 ^ 1) with 2.
  intros H. apply Z.gtb_lt in H.
  destruct (Z.eq_dec (WTERMSIG st) 127) as [E | E].
  - rewrite E in H. vm_compute in H. discriminate.
  - rewrite Z.mod_small in H by lia.
    assert (WTERMSIG st <> 0); [| lia].
    intros E0. rewrite E0 in H. vm_compute in H. discriminate.
Qed.

Lemma WIFSIGNALED_not_exited st : WIFSIGNALED st = true -> WIFEXITED st = false.
Proof.
  intros H. apply WIFSIGNALED_range in H. unfold WIFEXITED.
  apply Z.eqb_neq. lia.
Qed.

(** ** The shape of a run *)

Ltac run_red :=
  cbn [fst snd negb andb orb returned before_cpu_limit fault_message
       status time_used mem_used exit_code error_message stdout_content
       output_len allocated_cpu set_error_message set_allocated_cpu
       set_time_used set_mem_used set_stdout_content set_output_len] in *.

Lemma fst_create k cg :
  fst (create k cg) =
  (k_mkdir k (cgroup_path cg),
   if k_mkdir k (cgroup_path cg) then set_created cg true else cg).
Proof.
  unfold create. rewrite fst_bind.
  destruct (k_mkdir k (cgroup_path cg)); reflexivity.
Qed.

Lemma run_result_body k limits :
  run_result k limits = returned (fst (fst (runProgram_body k limits))).
Proof.
  unfold run_result, runProgram. rewrite fst_bind.
  destruct (fst (runProgram_body k limits)) as [out cg].
  rewrite fst_bind. reflexivity.
Qed.

Ltac fault_done :=
  intros [= <-]; run_red; eexists; repeat split; reflexivity.

(** A run that meets a fault returns the initial result with the message of
    the fault; the core it names is the one read back after the CPU limit
    was set, when the run got that far. *)
Lemma run_fault_result k limits f :
  run_fault k limits = Some f ->
  exists r,
    run_result k limits = Some r /\
    status r = "RE" /\ time_used r = 0 /\ mem_used r = 0 /\ exit_code r = -1 /\
    error_message r = fault_message f /\
    stdout_content r = "" /\ output_len r = 0 /\
    allocated_cpu r =
      (if before_cpu_limit f then "" else getAllocatedCpu k (run_cgroup k)).
Proof.
  rewrite run_result_body.
  unfold run_fault, runProgram_body, run_cgroup.
  rewrite fst_bind, fst_create.
  destruct (k_mkdir k _); cbn [negb]; [| fault_done].
  rewrite fst_bind.
  destruct (fst (setMemoryLimit _ _ _)); cbn [negb]; [| fault_done].
  rewrite fst_bind.
  destruct (fst (setCpuLimit _ _)); cbn [negb]; [| fault_done].
  destruct (k_pipe_out k) as [[out_rd out_wr]|]; [| fault_done].
  rewrite fst_bind.
  destruct (k_pipe_err k) as [[err_rd err_wr]|]; [| fault_done].
  rewrite fst_bind.
  destruct (k_fork k) as [pid|]; [| rewrite fst_bind; fault_done].
  rewrite !fst_bind. cbn [fst ret].
  unfold supervise.
  destruct (drain (k_select k) _ _ _ _) as [stdout_output stderr_output].
  rewrite fst_bind.
  destruct (fst (addProcess _ _ _)); cbn [negb];
    [| rewrite !fst_bind; fault_done].
  unfold affinity_throws. cbn [allocated_cpu set_allocated_cpu].
  rewrite fst_bind.
  destruct (is_empty (getAllocatedCpu _ _)); cbn [negb andb fst ret].
  - rewrite !fst_bind.
    destruct (k_wait4 k) as [[st rss]|]; [discriminate | fault_done].
  - destruct (stoi _) as [id | what]; [| discriminate].
    rewrite fst_bind.
    destruct (fst (forceCpuBinding _ _ _)); cbn [negb fst ret];
      rewrite !fst_bind;
      (destruct (k_wait4 k) as [[st rss]|]; [discriminate | fault_done]).
Qed.

Ltac verdict_done :=
  intros _ [= <-]; do 3 eexists; split; [reflexivity |];
  split; [reflexivity |]; run_red; repeat split; reflexivity.

(** A run that meets no fault and returns has reaped the child and
    classified what it measured. *)
Lemma run_verdict k limits r :
  run_fault k limits = None ->
  run_result k limits = Some r ->
  exists st rss r0,
    k_wait4 k = Some (st, rss) /\
    r = classify r0 limits st (snd (drain (k_select k) "" "" false false)) /\
    status r0 = "RE" /\ exit_code r0 = -1 /\
    time_used r0 = k_run_ms k /\
    mem_used r0 =
      (if getMemoryPeak k (run_cgroup k) >? 0 then getMemoryPeak k (run_cgroup k)
       else CInt.to_ll (rss * 1024)) /\
    stdout_content r0 = fst (drain (k_select k) "" "" false false) /\
    output_len r0 = CInt.to_int (Z.of_nat (String.length (stdout_content r0))) /\
    allocated_cpu r0 = getAllocatedCpu k (run_cgroup k).
Proof.
  rewrite run_result_body.
  unfold run_fault, runProgram_body, run_cgroup.
  rewrite fst_bind, fst_create.
  destruct (k_mkdir k _); cbn [negb]; [| discriminate].
  rewrite fst_bind.
  destruct (fst (setMemoryLimit _ _ _)); cbn [negb]; [| discriminate].
  rewrite fst_bind.
  destruct (fst (setCpuLimit _ _)); cbn [negb]; [| discriminate].
  destruct (k_pipe_out k) as [[out_rd out_wr]|]; [| discriminate].
  rewrite fst_bind.
  destruct (k_pipe_err k) as [[err_rd err_wr]|]; [| discriminate].
  rewrite fst_bind.
  destruct (k_fork k) as [pid|]; [| discriminate].
  rewrite !fst_bind. cbn [fst ret].
  unfold supervise.
  destruct (drain (k_select k) _ _ _ _) as [stdout_output stderr_output].
  rewrite fst_bind.
  destruct (fst (addProcess _ _ _)); cbn [negb]; [| discriminate].
  unfold affinity_throws. cbn [allocated_cpu set_allocated_cpu].
  rewrite fst_bind.
  destruct (is_empty (getAllocatedCpu _ _)); cbn [negb andb fst ret snd].
  - rewrite !fst_bind.
    destruct (k_wait4 k) as [[st rss]|]; [| discriminate]. verdict_done.
  - destruct (stoi _) as [id | what]; [| discriminate].
    rewrite fst_bind.
    destruct (fst (forceCpuBinding _ _ _)); cbn [negb fst ret];
      rewrite !fst_bind;
      (destruct (k_wait4 k) as [[st rss]|]; [| discriminate]); verdict_done.
Qed.

Lemma run_log_body k limits :
  run_log k limits =
  (snd (runProgram_body k limits)
     ++ snd (cleanup (snd (fst (runProgram_body k limits)))))%list.
Proof.
  unfold run_log, runProgram. rewrite snd_bind.
  destruct (fst (runProgram_body k limits)) as [out cg].
  rewrite snd_bind. cbn [snd ret]. now rewrite List.app_nil_r.
Qed.

Ltac log_step := rewrite snd_bind; apply consecutive_app_r.

(** When enrolling the child fails, the supervisor kills it and waits for
    it before it returns. *)
Lemma enrollment_failure_log k limits :
  run_fault k limits = Some Enrollment ->
  exists pid,
    k_fork k = Some pid /\
    consecutive (Kill pid SIGKILL) (Waitpid pid) (run_log k limits).
Proof.
  rewrite run_log_body.
  unfold run_fault, runProgram_body.
  rewrite fst_create.
  destruct (k_mkdir k _) eqn:Hmk; cbn [negb]; [| discriminate].
  destruct (fst (setMemoryLimit _ _ _)) eqn:Hmem; cbn [negb]; [| discriminate].
  destruct (fst (setCpuLimit _ _)) eqn:Hcpu; cbn [negb]; [| discriminate].
  destruct (k_pipe_out k) as [[out_rd out_wr]|] eqn:Hout; [| discriminate].
  destruct (k_pipe_err k) as [[err_rd err_wr]|] eqn:Herr; [| discriminate].
  destruct (k_fork k) as [pid|] eqn:Hfork; [| discriminate].
  destruct (fst (addProcess _ _ _)) eqn:Hadd; cbn [negb].
  { destruct (affinity_throws _); [discriminate |].
    destruct (k_wait4 k); discriminate. }
  intros _. exists pid. split; [reflexivity |].
  apply consecutive_app_l.
  log_step. rewrite fst_create, Hmk. cbn [negb].
  log_step. rewrite Hmem. cbn [negb].
  log_step. rewrite Hcpu. cbn [negb].
  log_step. log_step. log_step.
  rewrite snd_bind. apply consecutive_app_l.
  unfold supervise.
  destruct (drain (k_select k) _ _ _ _) as [stdout_output stderr_output].
  log_step. rewrite Hadd. cbn [negb].
  apply consecutive_here.
Qed.

(** ** Classification *)

Ltac split_ifs :=
  repeat match goal with
         | |- context [if ?c then _ else _] => destruct c eqn:?
         end.

Lemma classify_keeps r0 limits st err :
  let r := classify r0 limits st err in
  time_used r = time_used r0 /\ mem_used r = mem_used r0 /\
  stdout_content r = stdout_content r0 /\ output_len r = output_len r0 /\
  allocated_cpu r = allocated_cpu r0.
Proof.
  unfold classify. split_ifs; cbn; repeat split; reflexivity.
Qed.

Lemma gtb_false_le x y : (x >? y) = false -> x <= y.
Proof. rewrite Z.gtb_ltb. apply Z.ltb_ge. Qed.

Lemma classify_OK r0 limits st err :
  status r0 = "RE" ->
  status (classify r0 limits st err) = "OK" ->
  let r := classify r0 limits st err in
  exit_code r = 0 /\ time_used r <= time_limit limits /\
  mem_used r <= memory_limit limits /\ output_len r <= output_limit limits.
Proof.
  intros H0. unfold classify.
  destruct (WIFEXITED st).
  - cbn [exit_code set_exit_code].
    destruct (WEXITSTATUS st =? 0) eqn:Hc.
    + cbn [time_used mem_used output_len set_exit_code].
      destruct (time_used r0 >? time_limit limits) eqn:Ht; [discriminate |].
      destruct (mem_used r0 >? memory_limit limits) eqn:Hm; [discriminate |].
      destruct (output_len r0 >? output_limit limits) eqn:Ho; [discriminate |].
      intros _. cbn. apply Z.eqb_eq in Hc.
      auto using gtb_false_le.
    + destruct (negb (is_empty err)); discriminate.
  - destruct (WIFSIGNALED st); [| rewrite H0; discriminate].
    split_ifs; discriminate.
Qed.

Lemma classify_clean_exit r0 limits st err :
  WIFEXITED st = true -> WEXITSTATUS st = 0 ->
  let r := classify r0 limits st err in
  exit_code r = 0 /\
  status r =
    (if time_used r0 >? time_limit limits then "TLE"
     else if mem_used r0 >? memory_limit limits then "MLE"
     else if output_len r0 >? output_limit limits then "OLE"
     else "OK").
Proof.
  intros He Hc. unfold classify. rewrite He.
  cbn [exit_code set_exit_code]. rewrite Hc. cbn [Z.eqb].
  cbn [time_used mem_used output_len set_exit_code].
  split_ifs; split; reflexivity.
Qed.

Lemma to_int_small z : CInt.INT_MIN <= z <= CInt.INT_MAX -> CInt.to_int z = z.
Proof.
  unfold CInt.INT_MIN, CInt.INT_MAX, CInt.to_int, CInt.wrap. intros H.
  change (2 ^ (32 - 1)) with 2147483648. change (2 ^ 32) with 4294967296.
  rewrite Z.mod_small by lia. lia.
Qed.

Lemma classify_signaled r0 limits st err :
  WIFSIGNALED st = true ->
  let r := classify r0 limits st err in
  let signal_num := WTERMSIG st in
  exit_code r = 128 + signal_num /\
  (signal_num = SIGXCPU -> status r = "TLE") /\
  (signal_num = SIGKILL ->
   status r = if mem_used r0 >? memory_limit limits then "MLE" else "TLE") /\
  (signal_num = SIGSEGV ->
   status r = "RE" /\ error_message r = "Segmentation fault") /\
  (signal_num = SIGFPE ->
   status r = "RE" /\ error_message r = "Floating point exception") /\
  (signal_num = SIGABRT ->
   if mem_used r0 >? memory_limit limits then status r = "MLE"
   else status r = "RE" /\ error_message r = "Program aborted") /\
  (signal_num <> SIGXCPU -> signal_num <> SIGKILL -> signal_num <> SIGSEGV ->
   signal_num <> SIGFPE -> signal_num <> SIGABRT ->
   status r = "RE" /\
   error_message r = "Program terminated by signal " ++ to_string signal_num).
Proof.
  intros Hs. pose proof (WIFSIGNALED_range st Hs) as Hr.
  unfold classify. rewrite (WIFSIGNALED_not_exited st Hs), Hs.
  rewrite to_int_small by (unfold CInt.INT_MIN, CInt.INT_MAX; lia).
  cbn zeta. unfold SIGXCPU, SIGKILL, SIGSEGV, SIGFPE, SIGABRT.
  repeat match goal with
         | |- context [WTERMSIG st =? ?c] =>
             destruct (Z.eqb_spec (WTERMSIG st) c)
         end;
    destruct (mem_used _ >? memory_limit limits) eqn:Hm; cbn;
    repeat split; intros; try reflexivity; try lia.
Qed.

(** ** Results of the run stage *)

(** C1 (as amended).  For every sandbox fault of the run stage (cgroup
    creation, memory-limit write, cpu-limit write, pipe creation, fork,
    enrolment of the child, reaping of the child) [runProgram] returns a
    result whose status is the initial ["RE"], with exit code -1 and the
    short message of the fault; when enrolling the child fails, the child
    is sent [SIGKILL] and waited for before the result is returned. *)
Theorem sandbox_fault_result k limits f :
  run_fault k limits = Some f ->
  exists r,
    run_result k limits = Some r /\
    status r = "RE" /\ exit_code r = -1 /\
    error_message r = fault_message f /\
    (f = Enrollment ->
     exists pid,
       k_fork k = Some pid /\
       consecutive (Kill pid SIGKILL) (Waitpid pid) (run_log k limits)).
Proof.
  intros Hf.
  destruct (run_fault_result k limits f Hf)
    as (r & Hr & Hst & _ & _ & Hec & Hmsg & _).
  exists r. repeat split; try assumption.
  intros ->. now apply enrollment_failure_log.
Qed.

Lemma sandbox_fault_result_witness :
  run_fault k_enroll_fail sample_limits = Some Enrollment /\
  exists r,
    run_result k_enroll_fail sample_limits = Some r /\
    status r = "RE" /\ exit_code r = -1 /\
    error_message r = fault_message Enrollment /\
    (Enrollment = Enrollment ->
     exists pid,
       k_fork k_enroll_fail = Some pid /\
       consecutive (Kill pid SIGKILL) (Waitpid pid)
                   (run_log k_enroll_fail sample_limits)).
Proof.
  assert (H : run_fault k_enroll_fail sample_limits = Some Enrollment)
    by (vm_compute; reflexivity).
  split; [exact H |].
  exact (sandbox_fault_result k_enroll_fail sample_limits Enrollment H).
Defined.

(** C1 (as stated) fails: without root [mkdir] fails, and the result of
    the run has status ["RE"], not ["SE"]. *)
Lemma sandbox_fault_not_SE :
  run_fault k_no_root sample_limits = Some CgroupCreation /\
  option_map status (run_result k_no_root sample_limits) = Some "RE" /\
  option_map (fun r => String.eqb (status r) "SE")
             (run_result k_no_root sample_limits) = Some false.
Proof. vm_compute. repeat split. Qed.

(** C2.  When the child was terminated by a signal, the exit code is 128
    plus the signal number and the verdict follows the signal: [SIGXCPU] is
    TLE; [SIGKILL] is MLE when the memory used exceeds the limit and TLE
    otherwise; [SIGSEGV] and [SIGFPE] are RE with their messages; [SIGABRT]
    is MLE when the memory used exceeds the limit and RE "Program aborted"
    otherwise; any other signal is RE "Program terminated by signal N". *)
Theorem signal_verdict k limits r st rss :
  run_fault k limits = None ->
  run_result k limits = Some r ->
  k_wait4 k = Some (st, rss) ->
  WIFSIGNALED st = true ->
  let signal_num := WTERMSIG st in
  exit_code r = 128 + signal_num /\
  (signal_num = SIGXCPU -> status r = "TLE") /\
  (signal_num = SIGKILL ->
   status r = if mem_used r >? memory_limit limits then "MLE" else "TLE") /\
  (signal_num = SIGSEGV ->
   status r = "RE" /\ error_message r = "Segmentation fault") /\
  (signal_num = SIGFPE ->
   status r = "RE" /\ error_message r = "Floating point exception") /\
  (signal_num = SIGABRT ->
   if mem_used r >? memory_limit limits then status r = "MLE"
   else status r = "RE" /\ error_message r = "Program aborted") /\
  (signal_num <> SIGXCPU -> signal_num <> SIGKILL -> signal_num <> SIGSEGV ->
   signal_num <> SIGFPE -> signal_num <> SIGABRT ->
   status r = "RE" /\
   error_message r = "Program terminated by signal " ++ to_string signal_num).
Proof.
  intros Hf Hr Hw Hs.
  destruct (run_verdict k limits r Hf Hr) as (st' & rss' & r0 & Hw' & -> & _).
  rewrite Hw in Hw'. injection Hw' as <- <-.
  destruct (classify_keeps r0 limits st
              (snd (drain (k_select k) "" "" false false)))
    as (_ & -> & _).
  now apply classify_signaled.
Qed.

Lemma signal_verdict_witness :
  run_fault (k_signaled 9) sample_limits = None /\
  run_result (k_signaled 9) sample_limits = Some killed_result /\
  WIFSIGNALED 9 = true /\
  exit_code killed_result = 128 + WTERMSIG 9 /\
  (WTERMSIG 9 = SIGKILL ->
   status killed_result =
   if mem_used killed_result >? memory_limit sample_limits then "MLE" else "TLE").
Proof.
  assert (Hf : run_fault (k_signaled 9) sample_limits = None)
    by (vm_compute; reflexivity).
  assert (Hr : run_result (k_signaled 9) sample_limits = Some killed_result)
    by (vm_compute; reflexivity).
  assert (Hw : k_wait4 (k_signaled 9) = Some (9, 100)) by reflexivity.
  assert (Hs : WIFSIGNALED 9 = true) by (vm_compute; reflexivity).
  destruct (signal_verdict (k_signaled 9) sample_limits killed_result 9 100
                           Hf Hr Hw Hs) as (He & _ & Hk & _).
  exact (conj Hf (conj Hr (conj Hs (conj He Hk)))).
Defined.

(** A result of the run stage with status OK is within all its limits. *)
Lemma run_ok k limits r :
  run_result k limits = Some r ->
  status r = "OK" ->
  exit_code r = 0 /\ time_used r <= time_limit limits /\
  mem_used r <= memory_limit limits /\ output_len r <= output_limit limits.
Proof.
  intros Hr Hok.
  destruct (run_fault k limits) as [f |] eqn:Hf.
  - destruct (run_fault_result k limits f Hf) as (r' & Hr' & Hst & _).
    rewrite Hr in Hr'. injection Hr' as <-. rewrite Hok in Hst. discriminate.
  - destruct (run_verdict k limits r Hf Hr)
      as (st & rss & r0 & _ & -> & Hst & _).
    now apply classify_OK.
Qed.

(** The orchestrator hands out status OK only for a result of the run
    stage: a failed compilation is CE and an exception is SE. *)
Lemma judge_core_ok k limits_file source_file input_file :
  status (fst (judge_core k limits_file source_file input_file)) = "OK" ->
  run_result k (loadLimits k limits_file)
  = Some (fst (judge_core k limits_file source_file input_file)).
Proof.
  unfold judge_core, run_result. rewrite fst_bind.
  destruct (negb (String.eqb (status (fst (compileProgram _ _ _ _))) "OK"))
    eqn:Hc.
  - cbn [fst ret]. intros Hok. rewrite Hok in Hc. discriminate.
  - rewrite fst_bind.
    destruct (fst (runProgram k (loadLimits k limits_file))) as [r | what].
    + rewrite fst_bind. reflexivity.
    + cbn. discriminate.
Qed.

(** C3.  A final result with status OK, be it the one [runProgram] returns
    or the one [judge_core] hands out for the limits it loaded, has exit
    code 0, a time within the time limit, a memory within the memory limit
    and an output length within the output limit. *)
Theorem ok_invariant k limits r :
  run_result k limits = Some r \/
  (exists limits_file source_file input_file,
     limits = loadLimits k limits_file /\
     r = fst (judge_core k limits_file source_file input_file)) ->
  status r = "OK" ->
  exit_code r = 0 /\ time_used r <= time_limit limits /\
  mem_used r <= memory_limit limits /\ output_len r <= output_limit limits.
Proof.
  intros [Hr | (lf & sf & inf & -> & ->)] Hok.
  - now apply (run_ok k limits r).
  - apply (run_ok k); [| exact Hok].
    now apply judge_core_ok.
Qed.

Lemma ok_invariant_witness :
  run_result (k_clean_exit 1000) sample_limits = Some boundary_result /\
  status boundary_result = "OK" /\
  exit_code boundary_result = 0 /\
  time_used boundary_result <= time_limit sample_limits /\
  mem_used boundary_result <= memory_limit sample_limits /\
  output_len boundary_result <= output_limit sample_limits.
Proof.
  assert (Hr : run_result (k_clean_exit 1000) sample_limits = Some boundary_result)
    by (vm_compute; reflexivity).
  assert (Hok : status boundary_result = "OK") by reflexivity.
  split; [exact Hr |]. split; [exact Hok |].
  exact (ok_invariant (k_clean_exit 1000) sample_limits boundary_result
                      (or_introl Hr) Hok).
Defined.

(** C4.  When the child exits normally with code 0 the verdict is decided
    by strict comparisons in the order TLE (time), MLE (memory), OLE
    (output), else OK; a run whose time equals the time limit, with memory
    and output within their limits, is OK. *)
Theorem clean_exit_verdict k limits r st rss :
  run_fault k limits = None ->
  run_result k limits = Some r ->
  k_wait4 k = Some (st, rss) ->
  WIFEXITED st = true ->
  WEXITSTATUS st = 0 ->
  status r =
    (if time_used r >? time_limit limits then "TLE"
     else if mem_used r >? memory_limit limits then "MLE"
     else if output_len r >? output_limit limits then "OLE"
     else "OK") /\
  (time_used r = time_limit limits ->
   mem_used r <= memory_limit limits ->
   output_len r <= output_limit limits ->
   status r = "OK").
Proof.
  intros Hf Hr Hw He Hc.
  destruct (run_verdict k limits r Hf Hr) as (st' & rss' & r0 & Hw' & -> & _).
  rewrite Hw in Hw'. injection Hw' as <- <-.
  set (err := snd (drain (k_select k) "" "" false false)).
  destruct (classify_keeps r0 limits st err) as (-> & -> & _ & -> & _).
  destruct (classify_clean_exit r0 limits st err He Hc) as (_ & ->).
  split; [reflexivity |].
  intros Ht Hm Ho.
  replace (time_used r0 >? time_limit limits) with false
    by (symmetry; rewrite Z.gtb_ltb; apply Z.ltb_ge; lia).
  replace (mem_used r0 >? memory_limit limits) with false
    by (symmetry; rewrite Z.gtb_ltb; apply Z.ltb_ge; lia).
  replace (output_len r0 >? output_limit limits) with false
    by (symmetry; rewrite Z.gtb_ltb; apply Z.ltb_ge; lia).
  reflexivity.
Qed.

Lemma clean_exit_verdict_witness :
  run_fault (k_clean_exit 1000) sample_limits = None /\
  run_result (k_clean_exit 1000) sample_limits = Some boundary_result /\
  WIFEXITED 0 = true /\ WEXITSTATUS 0 = 0 /\
  time_used boundary_result = time_limit sample_limits /\
  status boundary_result = "OK".
Proof.
  assert (Hf : run_fault (k_clean_exit 1000) sample_limits = None)
    by (vm_compute; reflexivity).
  assert (Hr : run_result (k_clean_exit 1000) sample_limits = Some boundary_result)
    by (vm_compute; reflexivity).
  assert (Hw : k_wait4 (k_clean_exit 1000) = Some (0, 100)) by reflexivity.
  assert (He : WIFEXITED 0 = true) by reflexivity.
  assert (Hc : WEXITSTATUS 0 = 0) by reflexivity.
  destruct (clean_exit_verdict (k_clean_exit 1000) sample_limits boundary_result
                               0 100 Hf Hr Hw He Hc) as (_ & Hb).
  assert (Ht : time_used boundary_result = time_limit sample_limits)
    by reflexivity.
  refine (conj Hf (conj Hr (conj He (conj Hc (conj Ht (Hb Ht _ _)))))).
  - vm_compute; discriminate.
  - vm_compute; discriminate.
Defined.

(** ** Captured output *)

Lemma append_assoc (a b c : string) : (a ++ b) ++ c = a ++ (b ++ c).
Proof. induction a as [| x a IH]; cbn; [reflexivity | now rewrite IH]. Qed.

Lemma append_nil_r (a : string) : a ++ "" = a.
Proof. induction a as [| x a IH]; cbn; [reflexivity | now rewrite IH]. Qed.

Lemma length_append (a b : string) :
  String.length (a ++ b) = (String.length a + String.length b)%nat.
Proof. induction a as [| x a IH]; cbn; [reflexivity | now rewrite IH]. Qed.

(** While the child keeps writing, the loop appends every buffer it reads:
    nothing bounds what accumulates. *)
Lemma drain_collects chunks : forall out err,
  Forall (fun c => c <> "") chunks ->
  drain (map stdout_round chunks) out err false false
  = (out ++ concat_c_str chunks, err).
Proof.
  induction chunks as [| c cs IH]; intros out err Hne.
  - cbn. now rewrite append_nil_r.
  - inversion Hne as [| ? ? Hc Hcs]; subst.
    cbn [map drain andb stdout_round sel_result sel_out_ready sel_err_ready
         sel_out_read sel_err_read concat_c_str].
    change (1 <=? 0) with false. cbv iota.
    unfold absorb at 1 2. cbn [negb andb].
    destruct c as [| x c]; [congruence |].
    rewrite IH by assumption. now rewrite append_assoc.
Qed.

(** C6 (as stated) fails: with an output limit of 32 bytes, a child that
    prints 100 bytes and exits with code 0 gives a result that holds all
    100 bytes (and the verdict OLE). *)
Lemma capture_exceeds_output_limit :
  output_limit tight_limits = 32 /\
  option_map (fun r => (String.length (stdout_content r), output_len r, status r))
             (run_result k_loud tight_limits)
  = Some (100%nat, 100, "OLE") /\
  option_map (fun r => Z.of_nat (String.length (stdout_content r))
                       <=? output_limit tight_limits)
             (run_result k_loud tight_limits)
  = Some false.
Proof. vm_compute. repeat split. Qed.

(** ** Faults and the allocated core *)

(** C9 (as amended).  A run that fails before the CPU limit is in place
    (cgroup creation, memory-limit write, cpu-limit write) has an empty
    [allocated_cpu]; a run that fails later (pipe creation, fork,
    enrolment, reaping) carries what was read back from [cpuset.cpus] of
    the node right after the CPU limit was set: its first line, or the empty
    string when the file does not open. *)
Theorem fault_allocated_cpu k limits f r :
  run_fault k limits = Some f ->
  run_result k limits = Some r ->
  allocated_cpu r =
    (if before_cpu_limit f then ""
     else match k_read k (cgroup_path (run_cgroup k) ++ "/cpuset.cpus") with
          | None => ""
          | Some content => first_line content
          end).
Proof.
  intros Hf Hr.
  destruct (run_fault_result k limits f Hf)
    as (r' & Hr' & _ & _ & _ & _ & _ & _ & _ & Hcpu).
  rewrite Hr in Hr'. injection Hr' as <-. exact Hcpu.
Qed.

Lemma fault_allocated_cpu_witness :
  (run_fault k_no_root sample_limits = Some CgroupCreation /\
   allocated_cpu (mkJudgeResult "RE" 0 0 (-1) (fault_message CgroupCreation)
                                "" 0 "") = "") /\
  (run_fault k_enroll_fail sample_limits = Some Enrollment /\
   run_result k_enroll_fail sample_limits
   = Some (mkJudgeResult "RE" 0 0 (-1) (fault_message Enrollment) "" 0 "1") /\
   allocated_cpu (mkJudgeResult "RE" 0 0 (-1) (fault_message Enrollment)
                                "" 0 "1")
   = first_line ("1" ++ endl)).
Proof.
  assert (Hf : run_fault k_no_root sample_limits = Some CgroupCreation)
    by (vm_compute; reflexivity).
  assert (Hr : run_result k_no_root sample_limits
               = Some (mkJudgeResult "RE" 0 0 (-1)
                                     (fault_message CgroupCreation) "" 0 ""))
    by (vm_compute; reflexivity).
  assert (Hf' : run_fault k_enroll_fail sample_limits = Some Enrollment)
    by (vm_compute; reflexivity).
  assert (Hr' : run_result k_enroll_fail sample_limits
                = Some (mkJudgeResult "RE" 0 0 (-1)
                                      (fault_message Enrollment) "" 0 "1"))
    by (vm_compute; reflexivity).
  split.
  - split; [exact Hf |].
    exact (fault_allocated_cpu k_no_root sample_limits CgroupCreation _ Hf Hr).
  - split; [exact Hf' |]. split; [exact Hr' |].
    exact (fault_allocated_cpu k_enroll_fail sample_limits Enrollment _ Hf' Hr').
Defined.

(** C9 (as stated) fails: when the first [pipe] fails the child is not
    enrolled, yet the result names core 1. *)
Lemma pipe_failure_names_cpu :
  run_fault k_pipe_fail sample_limits = Some PipeCreation /\
  option_map allocated_cpu (run_result k_pipe_fail sample_limits) = Some "1" /\
  option_map (fun r => String.eqb (allocated_cpu r) "")
             (run_result k_pipe_fail sample_limits) = Some false.
Proof. vm_compute. repeat split. Qed.

(** ** The created flag *)

(** C10.  As long as [created] is not set, [setMemoryLimit], [setCpuLimit]
    and [addProcess] return false without touching the system,
    [getMemoryPeak] and [getCurrentMemory] return -1 and [getAllocatedCpu]
    the empty string, and [cleanup] does nothing; the constructor leaves the
    flag unset and a failed [create] keeps it so.  [cleanup] removes the
    directory exactly when the flag is set, and clears it, so that a second
    [cleanup] does nothing. *)
Theorem created_flag_guard k cg :
  created cg = false ->
  (forall limit_bytes, setMemoryLimit k cg limit_bytes = (false, [])) /\
  setCpuLimit k cg = (false, []) /\
  (forall pid, addProcess k cg pid = (false, [])) /\
  getMemoryPeak k cg = -1 /\
  getCurrentMemory k cg = -1 /\
  getAllocatedCpu k cg = "" /\
  cleanup cg = (cg, []) /\
  created (CgroupManager_new k) = false /\
  (k_mkdir k (cgroup_path cg) = false ->
   created (snd (fst (create k cg))) = false) /\
  (forall cg',
     created cg' = true ->
     cleanup cg' = (set_created cg' false, [Rmdir (cgroup_path cg')])) /\
  (forall cg',
     created (fst (cleanup cg')) = false /\
     cleanup (fst (cleanup cg')) = (fst (cleanup cg'), [])).
Proof.
  intros Hc.
  unfold setMemoryLimit, setCpuLimit, addProcess, getMemoryPeak,
    getCurrentMemory, getAllocatedCpu, cleanup.
  rewrite Hc. cbn [negb].
  repeat split.
  - intros Hmk. rewrite fst_create, Hmk. exact Hc.
  - intros cg' Hc'. rewrite Hc'. reflexivity.
  - destruct (created cg') eqn:Hc'; [reflexivity | exact Hc'].
  - destruct (created cg') eqn:Hc'; cbn; [reflexivity | now rewrite Hc'].
Qed.

Lemma created_flag_guard_witness :
  created (CgroupManager_new k_no_root) = false /\
  setMemoryLimit k_no_root (CgroupManager_new k_no_root) 67108864 = (false, []) /\
  getMemoryPeak k_no_root (CgroupManager_new k_no_root) = -1.
Proof.
  assert (Hc : created (CgroupManager_new k_no_root) = false) by reflexivity.
  destruct (created_flag_guard k_no_root (CgroupManager_new k_no_root) Hc)
    as (Hm & _ & _ & Hp & _).
  exact (conj Hc (conj (Hm 67108864) Hp)).
Defined.

(** ** CPU selector *)

Lemma count_processor_lines_from ls : forall acc,
  fold_left (fun cpu_count line =>
               if starts_with_processor line then cpu_count + 1 else cpu_count)
            ls acc
  = acc + Z.of_nat (List.length (filter starts_with_processor ls)).
Proof.
  induction ls as [| l ls IH]; intros acc; cbn [fold_left filter].
  - cbn. lia.
  - rewrite IH. destruct (starts_with_processor l); cbn [List.length]; lia.
Qed.

Lemma count_processor_lines_spec content :
  count_processor_lines content = Z.of_nat (processor_lines content).
Proof.
  unfold count_processor_lines, processor_lines.
  now rewrite count_processor_lines_from.
Qed.

(** C8 (as amended).  With N the number of lines of [/proc/cpuinfo] that
    begin with [processor]: [getCpuCount] is -1 when the file is unreadable
    and 1 when it lists no processor, and in both cases the selector
    returns "0"; for N between 1 and [INT_MAX], [getCpuCount] is N and the
    selector returns the decimal string of the one index
    (hash(cgroup_name) XOR timestamp) mod N, which lies in [0, N). *)
Theorem cpu_selector k cg :
  (k_read k "/proc/cpuinfo" = None ->
   getCpuCount k = -1 /\ selectCpuForBinding k cg = "0") /\
  (forall content,
     k_read k "/proc/cpuinfo" = Some content ->
     let N := Z.of_nat (processor_lines content) in
     (N = 0 -> getCpuCount k = 1 /\ selectCpuForBinding k cg = "0") /\
     (0 < N <= CInt.INT_MAX ->
      let index :=
        Z.lxor (CInt.to_size_t (k_hash k (cgroup_name cg)))
               (CInt.to_size_t (k_clock k)) mod N in
      getCpuCount k = N /\ 0 <= index < N /\
      selectCpuForBinding k cg = to_string index)).
Proof.
  split.
  - intros Hr. unfold selectCpuForBinding, getCpuCount. rewrite Hr.
    split; reflexivity.
  - intros content Hr N. unfold selectCpuForBinding, getCpuCount.
    rewrite Hr, count_processor_lines_spec. fold N. split.
    + intros ->. cbn [Z.gtb Z.compare Z.leb]. split; [reflexivity |].
      change (CInt.to_size_t 1) with 1. rewrite Z.mod_1_r. reflexivity.
    + intros HN. set (index := Z.lxor _ _ mod N).
      replace (N >? 0) with true by (symmetry; apply Z.gtb_lt; lia).
      replace (N <=? 0) with false by (symmetry; apply Z.leb_gt; lia).
      assert (Hsz : CInt.to_size_t N = N).
      { unfold CInt.to_size_t, CInt.INT_MAX in *. apply Z.mod_small.
        change (2 ^ 64) with 18446744073709551616. lia. }
      rewrite Hsz. fold index.
      assert (Hi : 0 <= index < N) by (apply Z.mod_pos_bound; lia).
      split; [reflexivity |]. split; [exact Hi |].
      rewrite to_int_small; [reflexivity |].
      unfold CInt.INT_MIN, CInt.INT_MAX in *. lia.
Qed.

Lemma cpu_selector_witness :
  k_read (k_clean_exit 15) "/proc/cpuinfo"
  = Some ("processor : 0" ++ endl ++ "model name : cpu" ++ endl
          ++ "processor : 1" ++ endl) /\
  getCpuCount (k_clean_exit 15) = 2 /\
  selectCpuForBinding (k_clean_exit 15) (CgroupManager_new (k_clean_exit 15))
  = "1".
Proof.
  pose (content := "processor : 0" ++ endl ++ "model name : cpu" ++ endl
                   ++ "processor : 1" ++ endl).
  assert (Hr : k_read (k_clean_exit 15) "/proc/cpuinfo" = Some content)
    by reflexivity.
  destruct (cpu_selector (k_clean_exit 15) (CgroupManager_new (k_clean_exit 15)))
    as (_ & H).
  destruct (H content Hr) as (_ & HN).
  assert (Hb : 0 < Z.of_nat (processor_lines content) <= CInt.INT_MAX)
    by (vm_compute; split; [reflexivity | discriminate]).
  destruct (HN Hb) as (Hc & _ & Hs).
  exact (conj Hr (conj Hc Hs)).
Defined.

(** C8 (as stated) fails on both fallbacks: an unreadable [/proc/cpuinfo]
    gives the count -1, not 1, and a readable one without processor lines
    gives 1, not 0 (there would be no index in [0, 0)); the selector returns
    "0" in both cases. *)
Lemma cpu_count_fallbacks :
  getCpuCount (k_cpuinfo None) = -1 /\
  spec_cpu_count (k_read (k_cpuinfo None) "/proc/cpuinfo") = 1 /\
  getCpuCount (k_cpuinfo (Some "")) = 1 /\
  spec_cpu_count (k_read (k_cpuinfo (Some "")) "/proc/cpuinfo") = 0 /\
  selectCpuForBinding (k_cpuinfo (Some "")) (CgroupManager_new (k_cpuinfo (Some "")))
  = "0" /\
  (getCpuCount (k_cpuinfo (Some ""))
   =? spec_cpu_count (k_read (k_cpuinfo (Some "")) "/proc/cpuinfo")) = false /\
  (getCpuCount (k_cpuinfo None)
   =? spec_cpu_count (k_read (k_cpuinfo None) "/proc/cpuinfo")) = false.
Proof. vm_compute. repeat split. Qed.

(** ** Result encoder *)

Lemma expect_app lit s : expect lit (lit ++ s) = Some s.
Proof.
  induction lit as [| a lit IH]; cbn; [now destruct s |].
  now rewrite Ascii.eqb_refl.
Qed.

Lemma read_raw_app p rest :
  no_dquote p = true -> read_raw (p ++ String dquote rest) = Some (p, rest).
Proof.
  induction p as [| c p IH]; cbn [no_dquote append read_raw]; intros H.
  - reflexivity.
  - apply andb_prop in H as [Hc Hp]. apply negb_true_iff in Hc.
    rewrite Hc, (IH Hp). reflexivity.
Qed.

Lemma read_escaped_cons c p rest tail :
  read_escaped tail = Some (p, rest) ->
  read_escaped (escape_char c ++ tail) = Some (String c p, rest).
Proof.
  intros Ht. unfold escape_char.
  destruct (Ascii.eqb c dquote) eqn:E1.
  { apply Ascii.eqb_eq in E1. subst c. cbn. rewrite Ht. reflexivity. }
  destruct (Ascii.eqb c backslash) eqn:E2.
  { apply Ascii.eqb_eq in E2. subst c. cbn. rewrite Ht. reflexivity. }
  destruct (Ascii.eqb c newline) eqn:E3.
  { apply Ascii.eqb_eq in E3. subst c. cbn. rewrite Ht. reflexivity. }
  destruct (Ascii.eqb c cret) eqn:E4.
  { apply Ascii.eqb_eq in E4. subst c. cbn. rewrite Ht. reflexivity. }
  destruct (Ascii.eqb c tab) eqn:E5.
  { apply Ascii.eqb_eq in E5. subst c. cbn. rewrite Ht. reflexivity. }
  cbn [chr append read_escaped]. unfold is_control.
  rewrite E1, E2, E3, E4, E5, Ht. reflexivity.
Qed.

Lemma read_escaped_escape p rest :
  read_escaped (escape p ++ String dquote rest) = Some (p, rest).
Proof.
  induction p as [| c p IH]; cbn [escape append].
  - cbn. reflexivity.
  - rewrite append_assoc. now apply read_escaped_cons.
Qed.

(** Undoing the escapes gives back the payload, whatever its bytes. *)
Lemma unescape_escape p : read_escaped (escape p ++ q) = Some (p, "").
Proof. apply read_escaped_escape. Qed.

(** *** Decimal numbers *)

Lemma span_digits_uint d rest :
  starts_nondigit rest ->
  span_digits (NilEmpty.string_of_uint d ++ rest)
  = (NilEmpty.string_of_uint d, rest).
Proof.
  intros Hrest.
  induction d as [| d IH | d IH | d IH | d IH | d IH | d IH | d IH | d IH
                  | d IH | d IH];
    cbn [NilEmpty.string_of_uint append span_digits];
    try (change (is_digit _) with true; cbv iota; rewrite IH; reflexivity).
  destruct rest as [| c rest]; cbn; [reflexivity |].
  cbn in Hrest. now rewrite Hrest.
Qed.

Lemma digits_val_acc d : forall acc,
  digits_val (Z.pos acc) (NilEmpty.string_of_uint d)
  = Z.pos (Pos.of_uint_acc d acc).
Proof.
  induction d as [| d IH | d IH | d IH | d IH | d IH | d IH | d IH | d IH
                  | d IH | d IH];
    intros acc; cbn [NilEmpty.string_of_uint digits_val Pos.of_uint_acc];
    [reflexivity | ..];
    rewrite <- IH; f_equal;
    match goal with
    | |- context [digit_val ?c] =>
        let v := eval vm_compute in (digit_val c) in
        change (digit_val c) with v
    end; lia.
Qed.

Lemma digits_val_uint d :
  digits_val 0 (NilEmpty.string_of_uint d) = Z.of_N (Pos.of_uint d).
Proof.
  induction d as [| d IH | d IH | d IH | d IH | d IH | d IH | d IH | d IH
                  | d IH | d IH];
    cbn [NilEmpty.string_of_uint digits_val Pos.of_uint];
    [reflexivity | exact IH | ..];
    cbn [Z.of_N]; rewrite <- digits_val_acc; reflexivity.
Qed.

Lemma string_of_uint_head d :
  d <> Decimal.Nil ->
  exists c s, NilEmpty.string_of_uint d = String c s /\ is_digit c = true.
Proof.
  destruct d; intros H; [congruence | ..]; cbn; eauto.
Qed.

Lemma read_number_pos p rest :
  starts_nondigit rest ->
  read_number (NilEmpty.string_of_uint (Pos.to_uint p) ++ rest)
  = Some (Z.pos p, rest).
Proof.
  intros Hrest. unfold read_number.
  destruct (string_of_uint_head (Pos.to_uint p) (Unsigned.to_uint_nonnil p))
    as (c & s & Hs & Hc).
  assert (Hsign : read_sign (NilEmpty.string_of_uint (Pos.to_uint p) ++ rest)
                  = (1, NilEmpty.string_of_uint (Pos.to_uint p) ++ rest)).
  { rewrite Hs. cbn [append]. unfold read_sign.
    destruct c as [[] [] [] [] [] [] [] []]; try reflexivity; discriminate. }
  rewrite Hsign, span_digits_uint by assumption.
  rewrite Hs at 1. cbn [is_empty].
  rewrite digits_val_uint, DecimalPos.Unsigned.of_to. cbn [Z.of_N].
  f_equal.
Qed.

Lemma read_number_neg p rest :
  starts_nondigit rest ->
  read_number (String "-" (NilEmpty.string_of_uint (Pos.to_uint p) ++ rest))
  = Some (Z.neg p, rest).
Proof.
  intros Hrest. unfold read_number.
  destruct (string_of_uint_head (Pos.to_uint p) (Unsigned.to_uint_nonnil p))
    as (c & s & Hs & Hc).
  cbn [read_sign]. rewrite span_digits_uint by assumption.
  rewrite Hs at 1. cbn [is_empty].
  rewrite digits_val_uint, DecimalPos.Unsigned.of_to. reflexivity.
Qed.

Lemma string_of_uint_pos p :
  NilZero.string_of_uint (Pos.to_uint p)
  = NilEmpty.string_of_uint (Pos.to_uint p).
Proof.
  pose proof (Unsigned.to_uint_nonnil p) as Hn.
  unfold NilZero.string_of_uint.
  destruct (Pos.to_uint p); [congruence | reflexivity ..].
Qed.

Lemma read_number_to_string z rest :
  starts_nondigit rest ->
  read_number (to_string z ++ rest) = Some (z, rest).
Proof.
  intros Hrest. unfold to_string.
  destruct z as [| p | p]; cbn [Z.to_int NilZero.string_of_int].
  - unfold read_number. cbn.
    destruct rest as [| c rest]; [reflexivity |].
    cbn in Hrest. cbn. now rewrite Hrest.
  - rewrite string_of_uint_pos. now apply read_number_pos.
  - rewrite string_of_uint_pos. cbn [append]. now apply read_number_neg.
Qed.

(** *** Round trip *)

Lemma resultToJson_layout r :
  resultToJson r =
  ("{" ++ endl ++ "  " ++ q ++ "status" ++ q ++ ": " ++ q)
    ++ status r ++ String dquote
    (("," ++ endl ++ "  " ++ q ++ "time_used" ++ q ++ ": ")
       ++ to_string (time_used r) ++
    (("," ++ endl ++ "  " ++ q ++ "mem_used" ++ q ++ ": ")
       ++ to_string (mem_used r) ++
    (("," ++ endl ++ "  " ++ q ++ "exit_code" ++ q ++ ": ")
       ++ to_string (exit_code r) ++
    (("," ++ endl ++ "  " ++ q ++ "error_message" ++ q ++ ": " ++ q)
       ++ escape (error_message r) ++ String dquote
    (("," ++ endl ++ "  " ++ q ++ "stdout" ++ q ++ ": " ++ q)
       ++ escape (stdout_content r) ++ String dquote
    (("," ++ endl ++ "  " ++ q ++ "output_len" ++ q ++ ": ")
       ++ to_string (output_len r) ++
    (("," ++ endl ++ "  " ++ q ++ "allocated_cpu" ++ q ++ ": " ++ q)
       ++ allocated_cpu r ++ String dquote
    ((endl ++ "}") ++ "")))))))).
Proof. reflexivity. Qed.

Lemma comma_nondigit s : starts_nondigit (("," ++ s) ++ "").
Proof. reflexivity. Qed.

(** C7 (as stated) fails: status and allocated_cpu are not escaped, so two
    results that differ in both have the same encoding, from which no
    decoder can tell them apart. *)
Lemma encoder_not_injective :
  resultToJson twin_a = resultToJson twin_b /\
  String.eqb (status twin_a) (status twin_b) = false /\
  String.eqb (allocated_cpu twin_a) (allocated_cpu twin_b) = false /\
  no_dquote (status twin_b) = false.
Proof. vm_compute. repeat split. Qed.

(** ** Limit loader *)

(** Without a file the loader returns the defaults. *)
Lemma loadLimits_missing_file :
  loadLimits_from None = mkLimits 1000 67108864 64000000 30000 8388608.
Proof. reflexivity. Qed.

Lemma to_ll_small z :
  CInt.LLONG_MIN <= z <= CInt.LLONG_MAX -> CInt.to_ll z = z.
Proof.
  unfold CInt.LLONG_MIN, CInt.LLONG_MAX, CInt.to_ll, CInt.wrap. intros H.
  change (2 ^ (64 - 1)) with 9223372036854775808.
  change (2 ^ 64) with 18446744073709551616.
  rewrite Z.mod_small by lia. lia.
Qed.

(** What the loader does with the numbers [parseJsonNumber] finds, as long
    as they fit the fields they are stored in: a value that is not positive
    gives the default, a positive one is kept, times 1024 for the two sizes
    given in kibibytes. *)
Lemma loadLimits_in_range json :
  let limits := loadLimits_from (Some json) in
  let v := parseJsonNumber json in
  (v "time_limit" <= 0 -> time_limit limits = 1000) /\
  (0 < v "time_limit" <= CInt.INT_MAX -> time_limit limits = v "time_limit") /\
  (v "memory_limit" <= 0 -> memory_limit limits = 67108864) /\
  (0 < v "memory_limit" -> v "memory_limit" * 1024 <= CInt.LLONG_MAX ->
   memory_limit limits = v "memory_limit" * 1024) /\
  (v "output_limit" <= 0 -> output_limit limits = 64000000) /\
  (0 < v "output_limit" <= CInt.INT_MAX ->
   output_limit limits = v "output_limit") /\
  (v "compile_timeout" <= 0 -> compile_timeout limits = 30000) /\
  (0 < v "compile_timeout" <= CInt.INT_MAX ->
   compile_timeout limits = v "compile_timeout") /\
  (v "stack_limit" <= 0 -> stack_limit limits = 8388608) /\
  (0 < v "stack_limit" -> v "stack_limit" * 1024 <= CInt.LLONG_MAX ->
   stack_limit limits = v "stack_limit" * 1024).
Proof.
  cbn zeta. unfold loadLimits_from.
  cbn [time_limit memory_limit output_limit compile_timeout stack_limit].
  unfold CInt.INT_MAX, CInt.LLONG_MAX.
  repeat split; intros;
    repeat match goal with
           | |- context [?x >? 0] =>
               let E := fresh "E" in
               destruct (x >? 0) eqn:E;
               [apply Z.gtb_lt in E | apply gtb_false_le in E]
           end;
    try lia; try reflexivity;
    first [ apply to_int_small; unfold CInt.INT_MIN, CInt.INT_MAX; lia
          | apply to_ll_small; unfold CInt.LLONG_MIN, CInt.LLONG_MAX; lia ].
Qed.

(** C5 (the code at the failing input).  A limits file with
    ["time_limit": 4294967296] is parsed to the positive [long long]
    4294967296, which passes the test [time_limit > 0] and is then stored
    into the [int] field, where it becomes 0; with 2147483648 the field
    becomes negative.  The loader returns a record whose time limit is not
    positive. *)
Theorem loadLimits_narrowing :
  parseJsonNumber huge_time_limit_file "time_limit" = 4294967296 /\
  time_limit (loadLimits_from (Some huge_time_limit_file)) = 0 /\
  (0 <? time_limit (loadLimits_from (Some huge_time_limit_file))) = false /\
  time_limit (loadLimits_from (Some wrapping_time_limit_file)) = -2147483648.
Proof. vm_compute. repeat split. Qed.

(** * Further properties *)

(** ** Compile stage *)

Lemma fst_compileProgram k source_file output_file limits :
  fst (compileProgram k source_file output_file limits) =
  match k_popen k with
  | None =>
      mkJudgeResult "CE" 0 0 0 "Failed to create compilation process" "" 0 ""
  | Some (compile_output, compile_result) =>
      if negb (compile_result =? 0)
      then mkJudgeResult "CE" (k_compile_ms k) 0 0 compile_output "" 0 ""
      else if k_compile_ms k >? compile_timeout limits
           then mkJudgeResult "CE" (k_compile_ms k) 0 0 "Compilation timeout" "" 0 ""
           else mkJudgeResult "OK" (k_compile_ms k) 0 0 "" "" 0 ""
  end.
Proof.
  unfold compileProgram. rewrite fst_bind.
  destruct (k_popen k) as [[compile_output compile_result] |]; [| reflexivity].
  rewrite fst_bind.
  cbn [time_used set_time_used].
  destruct (negb (compile_result =? 0)); [reflexivity |].
  destruct (k_compile_ms k >? compile_timeout limits); reflexivity.
Qed.

(** The compile stage answers OK or CE and nothing else; it reports no
    memory, exit code, output or core; and it answers OK exactly when the
    compiler could be started, exited with status 0 and took no longer than
    the compile timeout (a compilation that takes exactly the timeout is
    OK). *)
Theorem compile_outcome k source_file output_file limits :
  let r := fst (compileProgram k source_file output_file limits) in
  (status r = "OK" \/ status r = "CE") /\
  mem_used r = 0 /\ exit_code r = 0 /\ stdout_content r = "" /\
  output_len r = 0 /\ allocated_cpu r = "" /\
  (status r = "OK" <->
   exists compile_output,
     k_popen k = Some (compile_output, 0) /\
     k_compile_ms k <= compile_timeout limits) /\
  (status r = "OK" -> error_message r = "" /\ time_used r = k_compile_ms k).
Proof.
  cbn zeta. rewrite fst_compileProgram.
  destruct (k_popen k) as [[compile_output compile_result] |].
  - destruct (Z.eqb_spec compile_result 0) as [-> | Hne]; cbn [negb].
    + destruct (k_compile_ms k >? compile_timeout limits) eqn:Ht; cbn;
        repeat split; auto; try discriminate.
      * intros (o & _ & Hle). apply Z.gtb_lt in Ht. lia.
      * exists compile_output. split; [reflexivity |].
        now apply gtb_false_le.
    + cbn. repeat split; auto; try discriminate.
      intros (o & [= _ E] & _). congruence.
  - cbn. repeat split; auto; try discriminate.
    intros (o & E & _). discriminate.
Qed.

(** A compilation that fails carries its reason: the combined output of
    the compiler when it exits with a status other than 0, "Compilation
    timeout" when it exits with 0 but too late, and a fixed message when
    the compiler could not be started. *)
Theorem compile_error_message k source_file output_file limits :
  let r := fst (compileProgram k source_file output_file limits) in
  status r = "CE" ->
  error_message r =
    match k_popen k with
    | None => "Failed to create compilation process"
    | Some (compile_output, compile_result) =>
        if compile_result =? 0 then "Compilation timeout" else compile_output
    end.
Proof.
  cbn zeta. rewrite fst_compileProgram.
  destruct (k_popen k) as [[compile_output compile_result] |]; [| reflexivity].
  destruct (compile_result =? 0); cbn [negb]; [| reflexivity].
  destruct (k_compile_ms k >? compile_timeout limits); [reflexivity |].
  discriminate.
Qed.

Lemma compile_error_message_witness :
  status (fst (compileProgram k_syntax_error "a.cpp" "a.cpp.out" sample_limits))
  = "CE" /\
  error_message (fst (compileProgram k_syntax_error "a.cpp" "a.cpp.out" sample_limits))
  = "a.cpp:1:1: error".
Proof.
  assert (H : status (fst (compileProgram k_syntax_error "a.cpp" "a.cpp.out"
                                          sample_limits)) = "CE")
    by reflexivity.
  exact (conj H (compile_error_message k_syntax_error "a.cpp" "a.cpp.out"
                                       sample_limits H)).
Defined.

(** ** Entry orchestrator *)

(** When the compilation is not OK the orchestrator returns its result and
    does nothing more: the system calls made are those of the compile stage
    alone, so that no cgroup is created and nothing is unlinked; the result
    is a CE without memory or core. *)
Theorem judge_core_compile_error k limits_file source_file input_file :
  let compiled :=
    compileProgram k source_file (source_file ++ ".out")
                   (loadLimits k limits_file) in
  status (fst compiled) <> "OK" ->
  judge_core k limits_file source_file input_file = compiled /\
  status (fst compiled) = "CE" /\
  mem_used (fst compiled) = 0 /\ allocated_cpu (fst compiled) = "".
Proof.
  cbn zeta. intros Hne.
  assert (Hce : status (fst (compileProgram k source_file (source_file ++ ".out")
                                            (loadLimits k limits_file))) = "CE"
                /\ mem_used (fst (compileProgram k source_file
                                     (source_file ++ ".out")
                                     (loadLimits k limits_file))) = 0
                /\ allocated_cpu (fst (compileProgram k source_file
                                          (source_file ++ ".out")
                                          (loadLimits k limits_file))) = "").
  { rewrite fst_compileProgram in *.
    destruct (k_popen k) as [[compile_output compile_result] |];
      [| repeat split].
    destruct (negb (compile_result =? 0)); [repeat split |].
    destruct (k_compile_ms k >? compile_timeout _); [repeat split |].
    now contradiction Hne. }
  destruct Hce as (Hce & Hm & Hc).
  repeat split; try assumption.
  unfold judge_core, bind.
  destruct (compileProgram _ _ _ _) as [result l1]. cbn [fst] in *.
  rewrite Hce. cbn. now rewrite List.app_nil_r.
Qed.

Lemma judge_core_compile_error_witness :
  judge_core k_syntax_error "limits.json" "a.cpp" "in.txt"
  = compileProgram k_syntax_error "a.cpp" "a.cpp.out"
                   (loadLimits k_syntax_error "limits.json") /\
  snd (judge_core k_syntax_error "limits.json" "a.cpp" "in.txt")
  = [Popen ("g++ -g -std=c++20 -O2 -Wall -Wextra -Wshadow -Wconversion "
            ++ "-Wfloat-equal a.cpp -o a.cpp.out 2>&1"); Pclose].
Proof.
  assert (Hne : status (fst (compileProgram k_syntax_error "a.cpp"
                               ("a.cpp" ++ ".out")
                               (loadLimits k_syntax_error "limits.json")))
                <> "OK")
    by (vm_compute; discriminate).
  destruct (judge_core_compile_error k_syntax_error "limits.json" "a.cpp"
                                     "in.txt" Hne) as (H & _).
  split; [exact H |]. rewrite H. reflexivity.
Defined.

(** ** Exceptions in the run stage *)

Lemma stoi_what s what : stoi s = inr what -> what = "stoi".
Proof.
  unfold stoi. destruct (read_sign _) as [sg s1].
  destruct (span_digits s1) as [ds rest].
  destruct ds; [congruence |].
  destruct (CInt.in_int _); congruence.
Qed.

(** A run ends without a result only through the exception of [stoi], and
    only after the child was enrolled, when what was read back from
    [cpuset.cpus] is not empty and not a number that fits an [int]. *)
Lemma run_thrown k limits :
  run_result k limits = None ->
  fst (runProgram k limits) = Thrown "stoi" /\
  run_fault k limits = None /\
  affinity_throws (getAllocatedCpu k (run_cgroup k)) = true /\
  exists pid, k_fork k = Some pid.
Proof.
  intros Hnone.
  destruct (run_fault k limits) as [f |] eqn:Hf.
  { destruct (run_fault_result k limits f Hf) as (r & Hr & _). congruence. }
  revert Hnone Hf.
  unfold run_result at 1, runProgram. rewrite fst_bind.
  destruct (fst (runProgram_body k limits)) as [out cg] eqn:Hbody.
  rewrite fst_bind. cbn [fst ret].
  assert (Hout : out = fst (fst (runProgram_body k limits)))
    by now rewrite Hbody.
  clear Hbody. subst out.
  unfold run_fault, runProgram_body, run_cgroup.
  rewrite fst_bind, fst_create.
  destruct (k_mkdir k _); cbn [negb]; [| discriminate].
  rewrite fst_bind.
  destruct (fst (setMemoryLimit _ _ _)); cbn [negb]; [| discriminate].
  rewrite fst_bind.
  destruct (fst (setCpuLimit _ _)); cbn [negb]; [| discriminate].
  destruct (k_pipe_out k) as [[out_rd out_wr]|]; [| discriminate].
  rewrite fst_bind.
  destruct (k_pipe_err k) as [[err_rd err_wr]|]; [| discriminate].
  rewrite fst_bind.
  destruct (k_fork k) as [pid|]; [| discriminate].
  rewrite !fst_bind. cbn [fst ret].
  unfold supervise.
  destruct (drain (k_select k) _ _ _ _) as [stdout_output stderr_output].
  rewrite fst_bind.
  destruct (fst (addProcess _ _ _)); cbn [negb];
    [| rewrite !fst_bind; discriminate].
  unfold affinity_throws. cbn [allocated_cpu set_allocated_cpu].
  rewrite fst_bind.
  destruct (is_empty (getAllocatedCpu _ _)); cbn [negb andb fst ret].
  - rewrite !fst_bind. destruct (k_wait4 k) as [[st rss]|]; discriminate.
  - destruct (stoi _) as [id | what] eqn:Hstoi.
    + rewrite fst_bind.
      destruct (fst (forceCpuBinding _ _ _)); cbn [negb fst ret];
        rewrite !fst_bind; destruct (k_wait4 k) as [[st rss]|]; discriminate.
    + apply stoi_what in Hstoi. subst what. cbn [fst ret returned].
      intros _ _. repeat split. now exists pid.
Qed.

(** ** What the orchestrator does after the compilation *)

Lemma compile_ok_fields k source_file output_file limits :
  status (fst (compileProgram k source_file output_file limits)) = "OK" ->
  fst (compileProgram k source_file output_file limits)
  = mkJudgeResult "OK" (k_compile_ms k) 0 0 "" "" 0 "".
Proof.
  rewrite fst_compileProgram.
  destruct (k_popen k) as [[compile_output compile_result] |]; [| discriminate].
  destruct (negb (compile_result =? 0)); [discriminate |].
  destruct (k_compile_ms k >? compile_timeout limits); [discriminate |].
  reflexivity.
Qed.

(** When the compilation is OK and the run stage returns, the orchestrator
    hands out the result of the run unchanged, and the system calls are
    those of the compile stage, then those of the run stage, then the
    unlink of the executable. *)
Theorem judge_core_run_result k limits_file source_file input_file r :
  let limits := loadLimits k limits_file in
  let executable := source_file ++ ".out" in
  status (fst (compileProgram k source_file executable limits)) = "OK" ->
  run_result k limits = Some r ->
  judge_core k limits_file source_file input_file
  = (r, (snd (compileProgram k source_file executable limits)
           ++ run_log k limits ++ [Unlink executable])%list).
Proof.
  cbn zeta. intros Hok Hr.
  unfold judge_core, run_result, run_log, bind in *.
  destruct (compileProgram _ _ _ _) as [result l1]. cbn [fst snd] in *.
  rewrite Hok. cbn [String.eqb negb].
  replace (("OK" =? "OK")%string) with true by reflexivity. cbn [negb].
  destruct (runProgram k (loadLimits k limits_file)) as [out l2].
  cbn [fst snd] in *. destruct out as [r' | what]; [| discriminate].
  injection Hr as ->. cbn. reflexivity.
Qed.

Lemma judge_core_run_result_witness :
  judge_core (k_clean_exit 1000) "limits.json" "a.cpp" "in.txt"
  = (boundary_result,
     (snd (compileProgram (k_clean_exit 1000) "a.cpp" ("a.cpp" ++ ".out")
                          (loadLimits (k_clean_exit 1000) "limits.json"))
        ++ run_log (k_clean_exit 1000)
                   (loadLimits (k_clean_exit 1000) "limits.json")
        ++ [Unlink ("a.cpp" ++ ".out")])%list).
Proof.
  apply (judge_core_run_result (k_clean_exit 1000) "limits.json" "a.cpp"
                               "in.txt" boundary_result);
    vm_compute; reflexivity.
Defined.

Lemma leaves_child_alone_write_line k path data :
  forallb leaves_child_alone (snd (write_line k path data)) = true.
Proof. unfold write_line. destruct (k_open_out k path); reflexivity. Qed.

Lemma leaves_child_alone_setCpuLimit k cg :
  forallb leaves_child_alone (snd (setCpuLimit k cg)) = true.
Proof.
  unfold setCpuLimit. destruct (negb (created cg)); [reflexivity |].
  rewrite snd_bind, forallb_app. apply andb_true_intro. split.
  - destruct (k_open_out k _); reflexivity.
  - destruct (is_empty _); [reflexivity |].
    rewrite snd_bind, forallb_app, leaves_child_alone_write_line.
    destruct (negb _); [reflexivity |].
    apply leaves_child_alone_write_line.
Qed.

Lemma leaves_child_alone_create k cg :
  forallb leaves_child_alone (snd (create k cg)) = true.
Proof.
  unfold create. rewrite snd_bind.
  destruct (negb (k_mkdir k (cgroup_path cg))); reflexivity.
Qed.

Lemma leaves_child_alone_cleanup cg :
  forallb leaves_child_alone (snd (cleanup cg)) = true.
Proof. unfold cleanup. destruct (created cg); reflexivity. Qed.

Ltac alone_step :=
  rewrite snd_bind, forallb_app; apply andb_true_intro; split.

(** A run that meets no fault and whose core read back makes [stoi] throw
    ends without a result. *)
Lemma run_throws_when k limits :
  run_fault k limits = None ->
  affinity_throws (getAllocatedCpu k (run_cgroup k)) = true ->
  run_result k limits = None.
Proof.
  rewrite run_result_body.
  unfold run_fault, runProgram_body, run_cgroup.
  rewrite fst_bind, fst_create.
  destruct (k_mkdir k _); cbn [negb]; [| discriminate].
  rewrite fst_bind.
  destruct (fst (setMemoryLimit _ _ _)); cbn [negb]; [| discriminate].
  rewrite fst_bind.
  destruct (fst (setCpuLimit _ _)); cbn [negb]; [| discriminate].
  destruct (k_pipe_out k) as [[out_rd out_wr]|]; [| discriminate].
  rewrite fst_bind.
  destruct (k_pipe_err k) as [[err_rd err_wr]|]; [| discriminate].
  rewrite fst_bind.
  destruct (k_fork k) as [pid|]; [| discriminate].
  rewrite !fst_bind. cbn [fst ret].
  unfold supervise.
  destruct (drain (k_select k) _ _ _ _) as [stdout_output stderr_output].
  rewrite fst_bind.
  destruct (fst (addProcess _ _ _)); cbn [negb]; [| discriminate].
  intros _ Haff. cbn [allocated_cpu set_allocated_cpu].
  unfold affinity_throws in Haff. apply andb_prop in Haff as [Hne Hst].
  rewrite fst_bind, Hne.
  destruct (stoi _) as [id | what]; [discriminate |].
  reflexivity.
Qed.

(** When no sandbox fault occurs and the first line read back from
    [cpuset.cpus] is not empty but [stoi] cannot convert it, the exception
    leaves [runProgram] after the child was forked and enrolled: the
    orchestrator answers SE with the message "System error: stoi", zeroed
    numbers and no core; the run stage has written the pid of the child to
    [cgroup.procs] but makes no system call that signals the child, waits
    for it or closes a pipe end; and the executable is not unlinked: the
    system calls are those of the compile stage followed by those of the
    run stage. *)
Theorem judge_core_exception k limits_file source_file input_file
        pid content what :
  let limits := loadLimits k limits_file in
  let executable := source_file ++ ".out" in
  status (fst (compileProgram k source_file executable limits)) = "OK" ->
  run_fault k limits = None ->
  k_fork k = Some pid ->
  k_read k (cgroup_path (run_cgroup k) ++ "/cpuset.cpus") = Some content ->
  first_line content <> "" ->
  stoi (first_line content) = inr what ->
  fst (judge_core k limits_file source_file input_file)
  = mkJudgeResult "SE" 0 0 (-1) "System error: stoi" "" 0 "" /\
  snd (judge_core k limits_file source_file input_file)
  = (snd (compileProgram k source_file executable limits)
       ++ run_log k limits)%list /\
  In (Fork pid) (run_log k limits) /\
  In (WriteFile (cgroup_path (run_cgroup k) ++ "/cgroup.procs")
                (to_string pid ++ endl))
     (run_log k limits) /\
  forallb leaves_child_alone (run_log k limits) = true.
Proof.
  cbn zeta. intros Hok Hf Hfork Hread Hne Hstoi.
  assert (Haff : affinity_throws (getAllocatedCpu k (run_cgroup k)) = true).
  { unfold affinity_throws, getAllocatedCpu.
    cbn [run_cgroup created set_created negb]. rewrite Hread, Hstoi.
    destruct (first_line content); [congruence | reflexivity]. }
  pose proof (run_throws_when k _ Hf Haff) as Hnone.
  destruct (run_thrown k _ Hnone) as (Hthrow & _ & _ & _).
  pose proof (compile_ok_fields _ _ _ _ Hok) as Hc.
  split; [| split; [| split; [| split]]].
  - unfold judge_core. rewrite fst_bind, Hc. cbn [status].
    replace (("OK" =? "OK")%string) with true by reflexivity. cbn [negb].
    rewrite fst_bind, Hthrow. reflexivity.
  - unfold judge_core. rewrite snd_bind, Hc. cbn [status].
    replace (("OK" =? "OK")%string) with true by reflexivity. cbn [negb].
    rewrite snd_bind, Hthrow. cbn [snd ret]. unfold run_log.
    now rewrite List.app_nil_r.
  - clear Hc Hok Hnone Hthrow Haff. revert Hf.
    rewrite run_log_body. unfold run_fault, runProgram_body.
    rewrite fst_create.
    destruct (k_mkdir k _) eqn:Hmk; cbn [negb]; [| discriminate].
    destruct (fst (setMemoryLimit _ _ _)) eqn:Hmem; cbn [negb]; [| discriminate].
    destruct (fst (setCpuLimit _ _)) eqn:Hcpu; cbn [negb]; [| discriminate].
    destruct (k_pipe_out k) as [[out_rd out_wr]|] eqn:Hout; [| discriminate].
    destruct (k_pipe_err k) as [[err_rd err_wr]|] eqn:Herr; [| discriminate].
    rewrite Hfork. intros _.
    apply in_or_app. left.
    rewrite snd_bind. apply in_or_app. right.
    rewrite fst_create, Hmk. cbn [negb].
    rewrite snd_bind. apply in_or_app. right. rewrite Hmem. cbn [negb].
    rewrite snd_bind. apply in_or_app. right. rewrite Hcpu. cbn [negb].
    rewrite snd_bind. apply in_or_app. right.
    rewrite snd_bind. apply in_or_app. right.
    rewrite snd_bind. apply in_or_app. left. left. reflexivity.
  - clear Hc Hok Hnone Hthrow Haff. revert Hf.
    rewrite run_log_body. unfold run_fault, runProgram_body, run_cgroup.
    rewrite fst_create.
    destruct (k_mkdir k _) eqn:Hmk; cbn [negb]; [| discriminate].
    destruct (fst (setMemoryLimit _ _ _)) eqn:Hmem; cbn [negb]; [| discriminate].
    destruct (fst (setCpuLimit _ _)) eqn:Hcpu; cbn [negb]; [| discriminate].
    destruct (k_pipe_out k) as [[out_rd out_wr]|] eqn:Hout; [| discriminate].
    destruct (k_pipe_err k) as [[err_rd err_wr]|] eqn:Herr; [| discriminate].
    rewrite Hfork.
    destruct (fst (addProcess _ _ _)) eqn:Hadd; cbn [negb]; [| discriminate].
    intros _.
    apply in_or_app. left.
    rewrite snd_bind. apply in_or_app. right.
    rewrite fst_create, Hmk. cbn [negb].
    rewrite snd_bind. apply in_or_app. right. rewrite Hmem. cbn [negb].
    rewrite snd_bind. apply in_or_app. right. rewrite Hcpu. cbn [negb].
    rewrite snd_bind. apply in_or_app. right.
    rewrite snd_bind. apply in_or_app. right.
    rewrite snd_bind. apply in_or_app. right.
    rewrite snd_bind. apply in_or_app. left.
    unfold supervise.
    destruct (drain (k_select k) _ _ _ _) as [stdout_output stderr_output].
    rewrite snd_bind. apply in_or_app. left.
    revert Hadd. unfold addProcess. cbn [created set_created negb].
    unfold write_line. cbn [cgroup_path set_created].
    destruct (k_open_out k _); [| discriminate].
    intros _. left. reflexivity.
  - clear Hc Hok Hstoi Hread Hne. revert Hf Haff.
    rewrite run_log_body, forallb_app, leaves_child_alone_cleanup, andb_true_r.
    unfold run_fault, runProgram_body, run_cgroup.
    rewrite fst_create.
    destruct (k_mkdir k _) eqn:Hmk; cbn [negb]; [| discriminate].
    destruct (fst (setMemoryLimit _ _ _)) eqn:Hmem; cbn [negb]; [| discriminate].
    destruct (fst (setCpuLimit _ _)) eqn:Hcpu; cbn [negb]; [| discriminate].
    destruct (k_pipe_out k) as [[out_rd out_wr]|] eqn:Hout; [| discriminate].
    destruct (k_pipe_err k) as [[err_rd err_wr]|] eqn:Herr; [| discriminate].
    rewrite Hfork.
    destruct (fst (addProcess _ _ _)) eqn:Hadd; cbn [negb]; [| discriminate].
    intros _ Haff.
    alone_step; [apply leaves_child_alone_create |].
    rewrite fst_create, Hmk. cbn [negb].
    alone_step.
    { unfold setMemoryLimit. destruct (negb _); [reflexivity |].
      apply leaves_child_alone_write_line. }
    rewrite Hmem. cbn [negb].
    alone_step; [apply leaves_child_alone_setCpuLimit |].
    rewrite Hcpu. cbn [negb].
    alone_step; [reflexivity |].
    alone_step; [reflexivity |].
    alone_step; [reflexivity |].
    alone_step; [| reflexivity].
    unfold supervise.
    destruct (drain (k_select k) _ _ _ _) as [stdout_output stderr_output].
    alone_step.
    { unfold addProcess. destruct (negb _); [reflexivity |].
      apply leaves_child_alone_write_line. }
    rewrite Hadd. cbn [negb allocated_cpu set_allocated_cpu].
    unfold affinity_throws in Haff.
    apply andb_prop in Haff as [Hne' Hst].
    rewrite Hne'.
    destruct (stoi _) as [id | what']; [discriminate |].
    reflexivity.
Qed.

Lemma judge_core_exception_witness :
  run_fault k_blank_cpus (loadLimits k_blank_cpus "limits.json") = None /\
  stoi (first_line (" " ++ endl)) = inr "stoi" /\
  fst (judge_core k_blank_cpus "limits.json" "a.cpp" "in.txt")
  = mkJudgeResult "SE" 0 0 (-1) "System error: stoi" "" 0 "" /\
  In (WriteFile "/sys/fs/cgroup/judge_123456/cgroup.procs" ("4242" ++ endl))
     (run_log k_blank_cpus (loadLimits k_blank_cpus "limits.json")) /\
  forallb leaves_child_alone
          (run_log k_blank_cpus (loadLimits k_blank_cpus "limits.json")) = true.
Proof.
  assert (Hok : status (fst (compileProgram k_blank_cpus "a.cpp"
                               ("a.cpp" ++ ".out")
                               (loadLimits k_blank_cpus "limits.json"))) = "OK")
    by (vm_compute; reflexivity).
  assert (Hf : run_fault k_blank_cpus (loadLimits k_blank_cpus "limits.json")
               = None)
    by (vm_compute; reflexivity).
  assert (Hk : k_fork k_blank_cpus = Some 4242) by reflexivity.
  assert (Hread : k_read k_blank_cpus
                         (cgroup_path (run_cgroup k_blank_cpus) ++ "/cpuset.cpus")
                  = Some (" " ++ endl))
    by (vm_compute; reflexivity).
  assert (Hne : first_line (" " ++ endl) <> "") by (vm_compute; discriminate).
  assert (Hst : stoi (first_line (" " ++ endl)) = inr "stoi")
    by (vm_compute; reflexivity).
  destruct (judge_core_exception k_blank_cpus "limits.json" "a.cpp" "in.txt"
                                 4242 (" " ++ endl) "stoi"
                                 Hok Hf Hk Hread Hne Hst)
    as (H1 & _ & _ & H4 & H5).
  exact (conj Hf (conj Hst (conj H1 (conj H4 H5)))).
Defined.

(** ** Verdicts and exit codes *)

Lemma WEXITSTATUS_range st : 0 <= WEXITSTATUS st <= 255.
Proof.
  unfold WEXITSTATUS. rewrite Z.shiftr_land.
  change (Z.shiftr 65280 8) with (Z.ones 8).
  rewrite Z.land_ones by lia. change (2 ^ 8) with 256.
  pose proof (Z.mod_pos_bound (Z.shiftr st 8) 256 eq_refl). lia.
Qed.

Lemma classify_status_domain r0 limits st err :
  status r0 = "RE" ->
  In (status (classify r0 limits st err)) ["OK"; "TLE"; "MLE"; "OLE"; "RE"].
Proof.
  intros H0. unfold classify.
  split_ifs; cbn [status set_status set_error_message set_exit_code];
    try rewrite H0; cbn; tauto.
Qed.

Lemma classify_exit_code r0 limits st err :
  exit_code r0 = -1 ->
  let r := classify r0 limits st err in
  (WIFEXITED st = true -> exit_code r = WEXITSTATUS st) /\
  (exit_code r = -1 \/ 0 <= exit_code r <= 255).
Proof.
  intros H0. cbn zeta.
  pose proof (WEXITSTATUS_range st) as He.
  unfold classify.
  destruct (WIFEXITED st) eqn:Hex.
  - cbn [exit_code set_exit_code].
    split; [intros _ |];
      split_ifs; cbn [exit_code set_status set_error_message set_exit_code];
      auto.
  - split; [discriminate |].
    destruct (WIFSIGNALED st) eqn:Hs; [| left; exact H0].
    pose proof (WIFSIGNALED_range st Hs) as Hr.
    right. rewrite to_int_small by (unfold CInt.INT_MIN, CInt.INT_MAX; lia).
    split_ifs; cbn [exit_code set_status set_error_message set_exit_code]; lia.
Qed.

(** The run stage answers OK, TLE, MLE, OLE or RE and never CE or SE; the
    orchestrator answers one of the seven verdicts, SE only for an
    exception.  The exit code of a run is -1 (no exit status was
    collected) or lies between 0 and 255. *)
Theorem verdict_domain k limits_file source_file input_file :
  In (status (fst (judge_core k limits_file source_file input_file)))
     ["OK"; "TLE"; "MLE"; "OLE"; "RE"; "CE"; "SE"] /\
  (forall limits r,
     run_result k limits = Some r ->
     In (status r) ["OK"; "TLE"; "MLE"; "OLE"; "RE"] /\
     (exit_code r = -1 \/ 0 <= exit_code r <= 255)).
Proof.
  assert (Hrun : forall limits r,
             run_result k limits = Some r ->
             In (status r) ["OK"; "TLE"; "MLE"; "OLE"; "RE"] /\
             (exit_code r = -1 \/ 0 <= exit_code r <= 255)).
  { intros limits r Hr.
    destruct (run_fault k limits) as [f |] eqn:Hf.
    - destruct (run_fault_result k limits f Hf)
        as (r' & Hr' & Hst & _ & _ & Hec & _).
      rewrite Hr in Hr'. injection Hr' as <-.
      rewrite Hst, Hec. cbn. tauto.
    - destruct (run_verdict k limits r Hf Hr)
        as (st & rss & r0 & _ & -> & Hst & Hec & _).
      split; [now apply classify_status_domain |].
      now apply classify_exit_code. }
  split; [| exact Hrun].
  unfold judge_core. rewrite fst_bind, fst_compileProgram.
  destruct (k_popen k) as [[compile_output compile_result] |];
    [| cbn; tauto].
  destruct (negb (compile_result =? 0)); [cbn; tauto |].
  destruct (k_compile_ms k >? compile_timeout _); [cbn; tauto |].
  cbn [status]. replace (("OK" =? "OK")%string) with true by reflexivity.
  cbn [negb]. rewrite fst_bind.
  destruct (fst (runProgram k (loadLimits k limits_file))) as [r | what] eqn:Ho.
  - rewrite fst_bind. cbn [fst ret].
    assert (Hr : run_result k (loadLimits k limits_file) = Some r)
      by (unfold run_result; now rewrite Ho).
    destruct (Hrun _ _ Hr) as (Hin & _).
    cbn in Hin |- *. tauto.
  - cbn. tauto.
Qed.

Lemma verdict_domain_witness :
  run_result (k_signaled 9) sample_limits = Some killed_result /\
  In (status killed_result) ["OK"; "TLE"; "MLE"; "OLE"; "RE"] /\
  (exit_code killed_result = -1 \/ 0 <= exit_code killed_result <= 255).
Proof.
  assert (Hr : run_result (k_signaled 9) sample_limits = Some killed_result)
    by (vm_compute; reflexivity).
  destruct (verdict_domain (k_signaled 9) "limits.json" "a.cpp" "in.txt")
    as (_ & H).
  exact (conj Hr (H sample_limits killed_result Hr)).
Defined.

Lemma classify_nonzero_exit r0 limits st err :
  WIFEXITED st = true -> WEXITSTATUS st <> 0 ->
  let r := classify r0 limits st err in
  status r = "RE" /\ exit_code r = WEXITSTATUS st /\
  error_message r =
    "Program exited with non-zero code: " ++ to_string (WEXITSTATUS st)
      ++ (if is_empty err then "" else "\nStderr: " ++ err).
Proof.
  intros He Hc. cbn zeta. unfold classify. rewrite He.
  cbn [exit_code set_exit_code].
  apply Z.eqb_neq in Hc. rewrite Hc.
  destruct (is_empty err); cbn [negb];
    cbn [status exit_code error_message set_status set_error_message
         set_exit_code].
  - now rewrite append_nil_r.
  - rewrite append_assoc. repeat split.
Qed.

(** When the child exits with a code other than 0 the verdict is RE, the
    exit code is that of the child, and the message is "Program exited with
    non-zero code: N", followed by a backslash, the letter n, "Stderr: " and
    everything read from the standard error of the child when that is not
    empty; time and memory are not looked at. *)
Theorem nonzero_exit_verdict k limits r st rss :
  run_fault k limits = None ->
  run_result k limits = Some r ->
  k_wait4 k = Some (st, rss) ->
  WIFEXITED st = true ->
  WEXITSTATUS st <> 0 ->
  let stderr_output := snd (drain (k_select k) "" "" false false) in
  status r = "RE" /\ exit_code r = WEXITSTATUS st /\
  error_message r =
    "Program exited with non-zero code: " ++ to_string (WEXITSTATUS st)
      ++ (if is_empty stderr_output then "" else "\nStderr: " ++ stderr_output).
Proof.
  intros Hf Hr Hw He Hc.
  destruct (run_verdict k limits r Hf Hr) as (st' & rss' & r0 & Hw' & -> & _).
  rewrite Hw in Hw'. injection Hw' as <- <-.
  now apply classify_nonzero_exit.
Qed.

Lemma nonzero_exit_verdict_witness :
  run_result k_exit_3 sample_limits = Some exit_3_result /\
  status exit_3_result = "RE" /\ exit_code exit_3_result = 3 /\
  error_message exit_3_result
  = "Program exited with non-zero code: 3\nStderr: oops".
Proof.
  assert (Hf : run_fault k_exit_3 sample_limits = None)
    by (vm_compute; reflexivity).
  assert (Hr : run_result k_exit_3 sample_limits = Some exit_3_result)
    by (vm_compute; reflexivity).
  assert (Hw : k_wait4 k_exit_3 = Some (768, 100)) by reflexivity.
  assert (He : WIFEXITED 768 = true) by reflexivity.
  assert (Hc : WEXITSTATUS 768 <> 0) by (vm_compute; discriminate).
  exact (conj Hr (nonzero_exit_verdict k_exit_3 sample_limits exit_3_result
                                       768 100 Hf Hr Hw He Hc)).
Defined.

(** ** The trace of a run *)

Lemma ends_with_app s l1 l2 : ends_with s l2 -> ends_with s (l1 ++ l2).
Proof.
  intros (pre & ->). exists (l1 ++ pre)%list. now rewrite List.app_assoc.
Qed.

Lemma ends_with_snoc s t l : ends_with s l -> ends_with (s ++ t) (l ++ t).
Proof.
  intros (pre & ->). exists pre. now rewrite List.app_assoc.
Qed.

Lemma ends_with_nil_r s l : ends_with s l -> ends_with s (l ++ []).
Proof. now rewrite List.app_nil_r. Qed.

Lemma ends_with_refl s : ends_with s s.
Proof. now exists []. Qed.

Lemma snd_create k cg : snd (create k cg) = [Mkdir (cgroup_path cg) 493].
Proof.
  unfold create. rewrite snd_bind.
  destruct (negb (k_mkdir k (cgroup_path cg))); reflexivity.
Qed.

(** The manager [runProgram] destroys at the end is the one [create] left. *)
Lemma body_cgroup k limits :
  snd (fst (runProgram_body k limits))
  = snd (fst (create k (CgroupManager_new k))).
Proof.
  unfold runProgram_body. rewrite fst_bind.
  destruct (fst (create k (CgroupManager_new k))) as [ok cgroup].
  cbn [snd].
  destruct (negb ok); [reflexivity |].
  rewrite fst_bind. destruct (negb (fst (setMemoryLimit _ _ _))); [reflexivity |].
  rewrite fst_bind. destruct (negb (fst (setCpuLimit _ _))); [reflexivity |].
  destruct (k_pipe_out k) as [[out_rd out_wr]|]; [| reflexivity].
  rewrite fst_bind.
  destruct (k_pipe_err k) as [[err_rd err_wr]|]; [| reflexivity].
  rewrite fst_bind.
  destruct (k_fork k) as [pid|]; rewrite !fst_bind; reflexivity.
Qed.

(** A run whose [mkdir] fails makes no other system call, and removes
    nothing.  A run whose [mkdir] succeeds ends, as its last system call,
    with the [rmdir] of the directory it created, whether it returns a
    verdict, returns after a fault or lets an exception escape. *)
Theorem cgroup_lifecycle k limits :
  let path := cgroup_path (CgroupManager_new k) in
  (k_mkdir k path = false -> run_log k limits = [Mkdir path 493]) /\
  (k_mkdir k path = true ->
   exists mid, run_log k limits = (Mkdir path 493 :: mid ++ [Rmdir path])%list).
Proof.
  cbn zeta. rewrite run_log_body, body_cgroup, fst_create.
  unfold runProgram_body. rewrite snd_bind, snd_create, fst_create.
  split; intros Hmk; rewrite Hmk; cbn [negb snd ret cleanup created
                                        CgroupManager_new set_created].
  - reflexivity.
  - cbn [cgroup_path]. eexists. cbn [app]. reflexivity.
Qed.

Lemma cgroup_lifecycle_witness :
  k_mkdir k_blank_cpus (cgroup_path (CgroupManager_new k_blank_cpus)) = true /\
  run_result k_blank_cpus sample_limits = None /\
  exists mid,
    run_log k_blank_cpus sample_limits
    = (Mkdir "/sys/fs/cgroup/judge_123456" 493
         :: mid ++ [Rmdir "/sys/fs/cgroup/judge_123456"])%list.
Proof.
  assert (Hmk : k_mkdir k_blank_cpus
                        (cgroup_path (CgroupManager_new k_blank_cpus)) = true)
    by reflexivity.
  destruct (cgroup_lifecycle k_blank_cpus sample_limits) as (_ & H).
  split; [exact Hmk |]. split; [vm_compute; reflexivity |].
  exact (H Hmk).
Defined.

Ltac trace_step := rewrite snd_bind; apply ends_with_app.

(** A run that reaches a verdict: what it hands to the classification and
    how its body ends. *)
Lemma run_verdict_trace k limits r :
  run_fault k limits = None ->
  run_result k limits = Some r ->
  exists pid out_rd out_wr err_rd err_wr st rss r0,
    k_fork k = Some pid /\
    k_pipe_out k = Some (out_rd, out_wr) /\
    k_pipe_err k = Some (err_rd, err_wr) /\
    k_wait4 k = Some (st, rss) /\
    k_mkdir k (cgroup_path (CgroupManager_new k)) = true /\
    r = classify r0 limits st (snd (drain (k_select k) "" "" false false)) /\
    error_message r0 =
      (let cpu := getAllocatedCpu k (run_cgroup k) in
       if is_empty cpu then ""
       else match stoi cpu with
            | inl cpu_id =>
                if k_setaffinity k pid cpu_id then ""
                else "Warning: Failed to set CPU affinity; "
            | inr _ => ""
            end) /\
    ends_with [Close out_wr; Close err_wr; Close out_rd; Close err_rd; Wait4 pid]
              (snd (runProgram_body k limits)).
Proof.
  rewrite run_result_body.
  unfold run_fault, runProgram_body, run_cgroup.
  rewrite fst_bind, fst_create.
  destruct (k_mkdir k _) eqn:Hmk; cbn [negb]; [| discriminate].
  rewrite fst_bind.
  destruct (fst (setMemoryLimit _ _ _)) eqn:Hmem; cbn [negb]; [| discriminate].
  rewrite fst_bind.
  destruct (fst (setCpuLimit _ _)) eqn:Hcpu; cbn [negb]; [| discriminate].
  destruct (k_pipe_out k) as [[out_rd out_wr]|]; [| discriminate].
  rewrite fst_bind.
  destruct (k_pipe_err k) as [[err_rd err_wr]|]; [| discriminate].
  rewrite fst_bind.
  destruct (k_fork k) as [pid|]; [| discriminate].
  rewrite !fst_bind. cbn [fst ret].
  intros Hf Hr.
  exists pid, out_rd, out_wr, err_rd, err_wr.
  revert Hf Hr. unfold supervise.
  destruct (drain (k_select k) _ _ _ _) as [stdout_output stderr_output].
  rewrite fst_bind.
  destruct (fst (addProcess _ _ _)) eqn:Hadd; cbn [negb]; [| discriminate].
  unfold affinity_throws. cbn [allocated_cpu set_allocated_cpu].
  rewrite fst_bind.
  assert (Htail : forall (res : JudgeResult) st rss,
             k_wait4 k = Some (st, rss) ->
             ends_with [Close out_wr; Close err_wr; Close out_rd; Close err_rd;
                        Wait4 pid]
               (snd (emit (Close out_wr);;;
                     emit (Close err_wr);;;
                     emit (Close out_rd);;;
                     emit (Close err_rd);;;
                     emit (Wait4 pid);;;
                     match k_wait4 k with
                     | None =>
                         ret (Returned
                                (set_error_message res
                                   "Failed to wait for child process"))
                     | Some (wstatus, ru_maxrss) =>
                         ret (Returned
                                (classify
                                   (set_output_len
                                      (set_stdout_content
                                         (set_mem_used
                                            (set_time_used res (k_run_ms k))
                                            (if getMemoryPeak k
                                                  (set_created (CgroupManager_new k) true) >? 0
                                             then getMemoryPeak k
                                                    (set_created (CgroupManager_new k) true)
                                             else CInt.to_ll (ru_maxrss * 1024)))
                                         stdout_output)
                                      (CInt.to_int
                                         (Z.of_nat (String.length stdout_output))))
                                   limits wstatus stderr_output))
                     end))).
  { intros res st rss Hw. rewrite !snd_bind, Hw. cbn. apply ends_with_refl. }
  destruct (is_empty (getAllocatedCpu _ _)) eqn:Hemp; cbn [negb andb fst ret snd].
  - rewrite !fst_bind.
    destruct (k_wait4 k) as [[st rss]|] eqn:Hw; [| discriminate].
    intros _ [= <-]. exists st, rss. eexists.
    repeat (split; [reflexivity |]).
    rewrite snd_bind, snd_create. apply (ends_with_app _ [_]).
    rewrite fst_create, Hmk. cbn [negb].
    trace_step. rewrite Hmem. cbn [negb].
    trace_step. rewrite Hcpu. cbn [negb].
    trace_step. trace_step. trace_step.
    rewrite snd_bind. apply ends_with_nil_r.
    trace_step. rewrite Hadd. cbn [negb allocated_cpu set_allocated_cpu].
    rewrite Hemp. cbn [negb].
    rewrite snd_bind. cbn [snd ret fst]. apply (ends_with_app _ []).
    now apply (Htail _ st rss).
  - destruct (stoi _) as [id | what] eqn:Hstoi; [| discriminate].
    rewrite fst_bind.
    unfold forceCpuBinding at 1 2. rewrite !fst_bind. cbn [fst ret].
    destruct (k_setaffinity k pid id) eqn:Haff; cbn [negb fst ret];
      rewrite !fst_bind;
      (destruct (k_wait4 k) as [[st rss]|] eqn:Hw; [| discriminate]);
      intros _ [= <-]; exists st, rss; eexists;
      (repeat (split; [reflexivity |]));
      rewrite snd_bind, snd_create; apply (ends_with_app _ [_]);
      rewrite fst_create, Hmk; cbn [negb];
      trace_step; rewrite Hmem; cbn [negb];
      trace_step; rewrite Hcpu; cbn [negb];
      trace_step; trace_step; trace_step;
      rewrite snd_bind; apply ends_with_nil_r;
      trace_step; rewrite Hadd; cbn [negb allocated_cpu set_allocated_cpu];
      rewrite Hemp, Hstoi; cbn [negb];
      rewrite snd_bind; apply ends_with_app;
      unfold forceCpuBinding; rewrite !fst_bind; cbn [fst ret];
      rewrite Haff; cbn [negb fst ret];
      now apply (Htail _ st rss).
Qed.

(** Of the system calls the log records (mkdir, rmdir, writes to files,
    pipe, fork, kill, wait, close, sched_setaffinity, popen, unlink), the
    last six of a run that reaches a verdict are, in this order: the close
    of the two write ends, the close of the two read ends, the wait for the
    child and the removal of the directory of the cgroup.  The calls to
    [select] and [read] and the read of [memory.peak] that happen in between
    are answers of the system, not entries of the log. *)
Theorem reap_then_destroy k limits r :
  run_fault k limits = None ->
  run_result k limits = Some r ->
  exists pid out_rd out_wr err_rd err_wr,
    k_fork k = Some pid /\
    k_pipe_out k = Some (out_rd, out_wr) /\
    k_pipe_err k = Some (err_rd, err_wr) /\
    ends_with [Close out_wr; Close err_wr; Close out_rd; Close err_rd;
               Wait4 pid; Rmdir (cgroup_path (CgroupManager_new k))]
              (run_log k limits).
Proof.
  intros Hf Hr.
  destruct (run_verdict_trace k limits r Hf Hr)
    as (pid & out_rd & out_wr & err_rd & err_wr & st & rss & r0
        & Hfork & Hout & Herr & _ & Hmk & _ & _ & Hend).
  exists pid, out_rd, out_wr, err_rd, err_wr.
  repeat (split; [assumption |]).
  rewrite run_log_body, body_cgroup, fst_create, Hmk.
  cbn [snd cleanup created set_created]. rewrite snd_bind. cbn [snd ret fst emit].
  rewrite List.app_nil_r.
  apply (ends_with_snoc _ [Rmdir (cgroup_path (CgroupManager_new k))]) in Hend.
  exact Hend.
Qed.

Lemma reap_then_destroy_witness :
  run_fault (k_clean_exit 1000) sample_limits = None /\
  run_result (k_clean_exit 1000) sample_limits = Some boundary_result /\
  exists pid out_rd out_wr err_rd err_wr,
    k_fork (k_clean_exit 1000) = Some pid /\
    k_pipe_out (k_clean_exit 1000) = Some (out_rd, out_wr) /\
    k_pipe_err (k_clean_exit 1000) = Some (err_rd, err_wr) /\
    ends_with [Close out_wr; Close err_wr; Close out_rd; Close err_rd;
               Wait4 pid;
               Rmdir (cgroup_path (CgroupManager_new (k_clean_exit 1000)))]
              (run_log (k_clean_exit 1000) sample_limits).
Proof.
  assert (Hf : run_fault (k_clean_exit 1000) sample_limits = None)
    by (vm_compute; reflexivity).
  assert (Hr : run_result (k_clean_exit 1000) sample_limits = Some boundary_result)
    by (vm_compute; reflexivity).
  exact (conj Hf (conj Hr (reap_then_destroy (k_clean_exit 1000) sample_limits
                                             boundary_result Hf Hr))).
Defined.

Lemma classify_clean_message r0 limits st err :
  WIFEXITED st = true -> WEXITSTATUS st = 0 ->
  error_message (classify r0 limits st err) = error_message r0.
Proof.
  intros He Hc. unfold classify. rewrite He.
  cbn [exit_code set_exit_code]. rewrite Hc. cbn [Z.eqb].
  split_ifs; reflexivity.
Qed.

(** A failed [sched_setaffinity] does not stop the run: when the child
    then exits with code 0, whatever the verdict among OK, TLE, MLE and OLE,
    the message of the result is exactly the warning "Warning: Failed to set
    CPU affinity; "; when the call succeeds, or the core read back is empty
    so that no call is made, the message is empty. *)
Theorem affinity_warning k limits r st rss pid :
  run_fault k limits = None ->
  run_result k limits = Some r ->
  k_wait4 k = Some (st, rss) ->
  k_fork k = Some pid ->
  WIFEXITED st = true ->
  WEXITSTATUS st = 0 ->
  error_message r =
    (let cpu := getAllocatedCpu k (run_cgroup k) in
     if is_empty cpu then ""
     else match stoi cpu with
          | inl cpu_id =>
              if k_setaffinity k pid cpu_id then ""
              else "Warning: Failed to set CPU affinity; "
          | inr _ => ""
          end).
Proof.
  intros Hf Hr Hw Hfork He Hc.
  destruct (run_verdict_trace k limits r Hf Hr)
    as (pid' & out_rd & out_wr & err_rd & err_wr & st' & rss' & r0
        & Hfork' & _ & _ & Hw' & _ & -> & Hmsg & _).
  rewrite Hw in Hw'. injection Hw' as <- <-.
  rewrite Hfork in Hfork'. injection Hfork' as <-.
  rewrite classify_clean_message by assumption. exact Hmsg.
Qed.

Lemma affinity_warning_witness :
  run_result k_no_affinity sample_limits = Some warned_result /\
  status warned_result = "OK" /\
  error_message warned_result = "Warning: Failed to set CPU affinity; ".
Proof.
  assert (Hf : run_fault k_no_affinity sample_limits = None)
    by (vm_compute; reflexivity).
  assert (Hr : run_result k_no_affinity sample_limits = Some warned_result)
    by (vm_compute; reflexivity).
  assert (Hw : k_wait4 k_no_affinity = Some (0, 100)) by reflexivity.
  assert (Hk : k_fork k_no_affinity = Some 4242) by reflexivity.
  assert (He : WIFEXITED 0 = true) by reflexivity.
  assert (Hc : WEXITSTATUS 0 = 0) by reflexivity.
  split; [exact Hr |]. split; [reflexivity |].
  exact (affinity_warning k_no_affinity sample_limits warned_result 0 100 4242
                          Hf Hr Hw Hk He Hc).
Defined.

(** ** Cgroup node configuration *)

Lemma to_string_nonempty z : is_empty (to_string z) = false.
Proof.
  unfold to_string.
  destruct z as [| p | p]; cbn [Z.to_int NilZero.string_of_int];
    [reflexivity | | reflexivity].
  rewrite string_of_uint_pos.
  destruct (string_of_uint_head (Pos.to_uint p) (Unsigned.to_uint_nonnil p))
    as (c & s & -> & _).
  reflexivity.
Qed.

Lemma selectCpuForBinding_nonempty k cg :
  is_empty (selectCpuForBinding k cg) = false.
Proof.
  unfold selectCpuForBinding.
  destruct (getCpuCount k <=? 0); [reflexivity | apply to_string_nonempty].
Qed.

Lemma write_line_eq k path data :
  write_line k path data =
  (k_open_out k path && k_write_good k path (data ++ endl),
   if k_open_out k path then [WriteFile path (data ++ endl)] else []).
Proof. unfold write_line. destruct (k_open_out k path); reflexivity. Qed.

(** On a created node [setCpuLimit] succeeds exactly when the write of the
    selected core to [cpuset.cpus] and the write to [cpuset.mems] both
    succeed: the selection of the core cannot fail and trouble with
    [cgroup.subtree_control] is ignored.  What goes to [cpuset.mems] is the
    first line of the parent's [cpuset.mems.effective], or "0" when that
    file does not open or its first line is empty.  On success the writes
    are made in the order subtree control (when it opens), cpus, mems, each
    value followed by a newline. *)
Theorem setCpuLimit_created k cg :
  created cg = true ->
  let cpus := cgroup_path cg ++ "/cpuset.cpus" in
  let mems := cgroup_path cg ++ "/cpuset.mems" in
  let selected_cpu := selectCpuForBinding k cg in
  let available_mems :=
    match k_read k "/sys/fs/cgroup/cpuset.mems.effective" with
    | Some content =>
        if is_empty (first_line content) then "0" else first_line content
    | None => "0"
    end in
  fst (setCpuLimit k cg)
  = (k_open_out k cpus && k_write_good k cpus (selected_cpu ++ endl))
    && (k_open_out k mems && k_write_good k mems (available_mems ++ endl)) /\
  (fst (setCpuLimit k cg) = true ->
   snd (setCpuLimit k cg)
   = ((if k_open_out k "/sys/fs/cgroup/cgroup.subtree_control"
       then [WriteFile "/sys/fs/cgroup/cgroup.subtree_control"
                       ("+cpuset" ++ endl)]
       else [])
        ++ [WriteFile cpus (selected_cpu ++ endl);
            WriteFile mems (available_mems ++ endl)])%list).
Proof.
  intros Hc. cbn zeta. unfold setCpuLimit. rewrite Hc. cbn [negb].
  rewrite fst_bind, snd_bind, selectCpuForBinding_nonempty.
  rewrite fst_bind, snd_bind, !write_line_eq. cbn [fst snd].
  assert (Hm : (if is_empty
                     match k_read k "/sys/fs/cgroup/cpuset.mems.effective" with
                     | Some content => first_line content
                     | None => ""
                     end
                then "0"
                else match k_read k "/sys/fs/cgroup/cpuset.mems.effective" with
                     | Some content => first_line content
                     | None => ""
                     end)
               = match k_read k "/sys/fs/cgroup/cpuset.mems.effective" with
                 | Some content =>
                     if is_empty (first_line content) then "0"
                     else first_line content
                 | None => "0"
                 end)
    by (destruct (k_read k "/sys/fs/cgroup/cpuset.mems.effective");
        reflexivity).
  rewrite Hm.
  destruct (k_open_out k (cgroup_path cg ++ "/cpuset.cpus")) eqn:Ho1;
    cbn [andb negb fst snd ret]; [| split; [reflexivity | discriminate]].
  destruct (k_write_good k (cgroup_path cg ++ "/cpuset.cpus") _) eqn:Hg1;
    cbn [andb negb fst snd ret]; [| split; [reflexivity | discriminate]].
  split; [reflexivity |].
  destruct (k_open_out k (cgroup_path cg ++ "/cpuset.mems")) eqn:Ho2;
    cbn [andb]; [| discriminate].
  intros _.
  destruct (k_open_out k "/sys/fs/cgroup/cgroup.subtree_control"); reflexivity.
Qed.

Lemma setCpuLimit_created_witness :
  created (run_cgroup (k_clean_exit 15)) = true /\
  fst (setCpuLimit (k_clean_exit 15) (run_cgroup (k_clean_exit 15))) = true /\
  snd (setCpuLimit (k_clean_exit 15) (run_cgroup (k_clean_exit 15)))
  = [WriteFile "/sys/fs/cgroup/cgroup.subtree_control" ("+cpuset" ++ endl);
     WriteFile "/sys/fs/cgroup/judge_123456/cpuset.cpus" ("1" ++ endl);
     WriteFile "/sys/fs/cgroup/judge_123456/cpuset.mems" ("0" ++ endl)].
Proof.
  assert (Hc : created (run_cgroup (k_clean_exit 15)) = true) by reflexivity.
  destruct (setCpuLimit_created (k_clean_exit 15) (run_cgroup (k_clean_exit 15))
                                Hc) as (H1 & H2).
  assert (Ht : fst (setCpuLimit (k_clean_exit 15)
                                (run_cgroup (k_clean_exit 15))) = true)
    by (rewrite H1; vm_compute; reflexivity).
  split; [exact Hc |]. split; [exact Ht |].
  rewrite (H2 Ht). vm_compute. reflexivity.
Defined.

(** ** The drain loop *)

Lemma length_c_str buf : (String.length (c_str buf) <= String.length buf)%nat.
Proof.
  induction buf as [| c buf IH]; cbn [c_str String.length]; [lia |].
  destruct (Ascii.eqb c nul); cbn [String.length]; lia.
Qed.

(** A buffer that holds a NUL byte only gives the bytes in front of it. *)
Lemma c_str_nul a b : c_str a = a -> c_str (a ++ String nul b) = a.
Proof.
  induction a as [| c a IH]; cbn [c_str append]; [reflexivity |].
  destruct (Ascii.eqb c nul); [discriminate |].
  intros [= H]. now rewrite IH.
Qed.

Lemma absorb_length done ready rd output :
  (String.length (fst (absorb done ready rd output))
   <= String.length output
      + match rd with Some bytes => String.length bytes | None => 0 end)%nat.
Proof.
  unfold absorb. destruct (negb done && ready); cbn [fst]; [| lia].
  destruct rd as [[| c bytes] |]; cbn [fst]; try lia.
  rewrite length_append.
  pose proof (length_c_str (String c bytes)). lia.
Qed.

Lemma drain_length rounds : forall out err od ed,
  (String.length (fst (drain rounds out err od ed))
   <= String.length out + stdout_bytes_offered rounds)%nat.
Proof.
  induction rounds as [| r rounds IH]; intros out err od ed;
    cbn [drain stdout_bytes_offered].
  - destruct (od && ed); cbn [fst]; lia.
  - destruct (od && ed); cbn [fst]; [lia |].
    destruct (sel_result r <=? 0); cbn [fst]; [lia |].
    pose proof (absorb_length od (sel_out_ready r) (sel_out_read r) out) as Ha.
    destruct (absorb od _ _ out) as [out' od'].
    destruct (absorb ed _ _ err) as [err' ed'].
    cbn [fst] in Ha. specialize (IH out' err' od' ed'). lia.
Qed.

(** Once the standard output of the child is done, nothing is added to
    what was captured from it. *)
Lemma drain_stdout_done rounds : forall out err ed,
  fst (drain rounds out err true ed) = out.
Proof.
  induction rounds as [| r rounds IH]; intros out err ed; cbn [drain andb].
  - destruct ed; reflexivity.
  - destruct ed; [reflexivity |].
    destruct (sel_result r <=? 0); [reflexivity |].
    unfold absorb at 1. cbn [negb andb].
    destruct (absorb false _ _ err) as [err' ed']. apply IH.
Qed.

Lemma drain_stdout_side rounds1 rounds2 :
  Forall2 same_stdout_side rounds1 rounds2 ->
  forall out err1 err2 od ed1 ed2,
    fst (drain rounds1 out err1 od ed1) = fst (drain rounds2 out err2 od ed2).
Proof.
  induction 1 as [| a b rounds1 rounds2 (Hres & Hready & Hread) _ IH];
    intros out err1 err2 od ed1 ed2.
  - cbn. destruct (od && ed1), (od && ed2); reflexivity.
  - destruct od.
    + now rewrite !drain_stdout_done.
    + cbn [drain andb]. rewrite <- Hres, <- Hready, <- Hread.
      destruct (sel_result a <=? 0); [reflexivity |].
      destruct (absorb false (sel_out_ready a) (sel_out_read a) out)
        as [out' od'].
      destruct (absorb ed1 _ _ err1) as [err1' ed1'].
      destruct (absorb ed2 _ _ err2) as [err2' ed2'].
      apply IH.
Qed.

(** What a run captures from the standard output of the child is never
    longer than the bytes [read] returned on that pipe (it is shorter when a
    buffer holds a NUL byte), and it does not depend on the standard error:
    two systems that differ only in what the rounds of the drain loop show
    of the standard error capture the same standard output. *)
Theorem captured_stdout_bounds k limits r :
  run_fault k limits = None ->
  run_result k limits = Some r ->
  (String.length (stdout_content r) <= stdout_bytes_offered (k_select k))%nat /\
  (forall rounds,
     Forall2 same_stdout_side (k_select k) rounds ->
     stdout_content r = fst (drain rounds "" "" false false)).
Proof.
  intros Hf Hr.
  destruct (run_verdict k limits r Hf Hr)
    as (st & rss & r0 & _ & -> & _ & _ & _ & _ & Hso & _).
  destruct (classify_keeps r0 limits st
              (snd (drain (k_select k) "" "" false false)))
    as (_ & _ & -> & _).
  rewrite Hso. split.
  - apply (drain_length (k_select k) "" "" false false).
  - intros rounds Hsame. now apply drain_stdout_side.
Qed.

Lemma captured_stdout_bounds_witness :
  run_result (k_clean_exit 1000) sample_limits = Some boundary_result /\
  (String.length (stdout_content boundary_result)
   <= stdout_bytes_offered (k_select (k_clean_exit 1000)))%nat /\
  stdout_content boundary_result
  = fst (drain hello_rounds_stderr "" "" false false).
Proof.
  assert (Hf : run_fault (k_clean_exit 1000) sample_limits = None)
    by (vm_compute; reflexivity).
  assert (Hr : run_result (k_clean_exit 1000) sample_limits = Some boundary_result)
    by (vm_compute; reflexivity).
  destruct (captured_stdout_bounds (k_clean_exit 1000) sample_limits
                                   boundary_result Hf Hr) as (H1 & H2).
  split; [exact Hr |]. split; [exact H1 |].
  apply H2. repeat constructor.
Defined.

(** ** Limit loader *)

Lemma wrap_range w z :
  0 < w -> - 2 ^ (w - 1) <= CInt.wrap w z < 2 ^ (w - 1).
Proof.
  intros Hw. unfold CInt.wrap.
  assert (H2 : 2 ^ w = 2 * 2 ^ (w - 1)).
  { replace w with (1 + (w - 1)) at 1 by lia.
    rewrite Z.pow_add_r by lia. reflexivity. }
  assert (Hp : 0 < 2 ^ (w - 1)) by (apply Z.pow_pos_nonneg; lia).
  pose proof (Z.mod_pos_bound (z + 2 ^ (w - 1)) (2 ^ w) ltac:(lia)). lia.
Qed.

Lemma to_int_range z : CInt.INT_MIN <= CInt.to_int z <= CInt.INT_MAX.
Proof.
  pose proof (wrap_range 32 z eq_refl) as H. unfold CInt.to_int.
  change (2 ^ (32 - 1)) with 2147483648 in H.
  unfold CInt.INT_MIN, CInt.INT_MAX. lia.
Qed.

Lemma to_ll_range z : CInt.LLONG_MIN <= CInt.to_ll z <= CInt.LLONG_MAX.
Proof.
  pose proof (wrap_range 64 z eq_refl) as H. unfold CInt.to_ll.
  change (2 ^ (64 - 1)) with 9223372036854775808 in H.
  unfold CInt.LLONG_MIN, CInt.LLONG_MAX. lia.
Qed.

(** The loader returns a record whose five fields are positive for a
    missing file and for every file in which the numbers found by
    [parseJsonNumber] fit the fields they go to: at most [INT_MAX] for the
    three [int] fields, at most [LLONG_MAX] once multiplied by 1024 for the
    two sizes.  Whatever the file, every field is a value of its C type. *)
Theorem loadLimits_positive file :
  (forall json,
     file = Some json ->
     parseJsonNumber json "time_limit" <= CInt.INT_MAX /\
     parseJsonNumber json "output_limit" <= CInt.INT_MAX /\
     parseJsonNumber json "compile_timeout" <= CInt.INT_MAX /\
     parseJsonNumber json "memory_limit" * 1024 <= CInt.LLONG_MAX /\
     parseJsonNumber json "stack_limit" * 1024 <= CInt.LLONG_MAX) ->
  let limits := loadLimits_from file in
  0 < time_limit limits /\ 0 < memory_limit limits /\
  0 < output_limit limits /\ 0 < compile_timeout limits /\
  0 < stack_limit limits.
Proof.
  intros Hfit. destruct file as [json |]; [| cbn; lia].
  destruct (Hfit json eq_refl) as (Ht & Ho & Hc & Hm & Hs).
  destruct (loadLimits_in_range json)
    as (Ht0 & Ht1 & Hm0 & Hm1 & Ho0 & Ho1 & Hc0 & Hc1 & Hs0 & Hs1).
  cbn zeta in *.
  repeat split.
  - destruct (Z_le_gt_dec (parseJsonNumber json "time_limit") 0);
      [rewrite Ht0 | rewrite Ht1]; lia.
  - destruct (Z_le_gt_dec (parseJsonNumber json "memory_limit") 0);
      [rewrite Hm0 | rewrite Hm1]; lia.
  - destruct (Z_le_gt_dec (parseJsonNumber json "output_limit") 0);
      [rewrite Ho0 | rewrite Ho1]; lia.
  - destruct (Z_le_gt_dec (parseJsonNumber json "compile_timeout") 0);
      [rewrite Hc0 | rewrite Hc1]; lia.
  - destruct (Z_le_gt_dec (parseJsonNumber json "stack_limit") 0);
      [rewrite Hs0 | rewrite Hs1]; lia.
Qed.

Lemma loadLimits_positive_witness :
  parseJsonNumber partial_limits_file "time_limit" = 2000 /\
  parseJsonNumber partial_limits_file "memory_limit" = 1024 /\
  loadLimits_from (Some partial_limits_file)
  = mkLimits 2000 1048576 64000000 30000 8388608 /\
  0 < time_limit (loadLimits_from (Some partial_limits_file)) /\
  0 < memory_limit (loadLimits_from (Some partial_limits_file)) /\
  0 < output_limit (loadLimits_from (Some partial_limits_file)) /\
  0 < compile_timeout (loadLimits_from (Some partial_limits_file)) /\
  0 < stack_limit (loadLimits_from (Some partial_limits_file)).
Proof.
  split; [vm_compute; reflexivity |].
  split; [vm_compute; reflexivity |].
  split; [vm_compute; reflexivity |].
  apply (loadLimits_positive (Some partial_limits_file)).
  intros json [= <-]. vm_compute. repeat split; discriminate.
Defined.

(** *** Reading a number that follows its key *)

Lemma parse_skip c s key :
  prefix (q ++ key ++ q) (String c s) = false ->
  parseJsonNumber (String c s) key = parseJsonNumber s key.
Proof.
  intros Hp. unfold parseJsonNumber, find.
  cbn [String.index]. rewrite Hp.
  destruct (String.index 0 (q ++ key ++ q) s) as [pos |]; [| reflexivity].
  cbn [String.index].
  destruct (String.index pos ":" s) as [pos' |]; reflexivity.
Qed.

Lemma parse_skip_uint d s key :
  parseJsonNumber (NilEmpty.string_of_uint d ++ s) key = parseJsonNumber s key.
Proof.
  induction d as [| d IH | d IH | d IH | d IH | d IH | d IH | d IH | d IH
                  | d IH | d IH];
    cbn [NilEmpty.string_of_uint append]; [reflexivity | ..];
    (rewrite parse_skip; [exact IH | reflexivity]).
Qed.

Lemma parse_skip_number n s key :
  0 < n -> parseJsonNumber (to_string n ++ s) key = parseJsonNumber s key.
Proof.
  intros Hn. destruct n as [| p | p]; try lia.
  unfold to_string. cbn [Z.to_int NilZero.string_of_int].
  rewrite string_of_uint_pos. apply parse_skip_uint.
Qed.

Lemma digits_val_mono d : forall acc,
  0 <= acc -> acc <= digits_val acc (NilEmpty.string_of_uint d).
Proof.
  induction d as [| d IH | d IH | d IH | d IH | d IH | d IH | d IH | d IH
                  | d IH | d IH];
    intros acc Hacc; cbn [NilEmpty.string_of_uint digits_val]; [lia | ..];
    match goal with
    | |- context [digit_val ?c] =>
        let v := eval vm_compute in (digit_val c) in
        change (digit_val c) with v
    end;
    match goal with
    | |- _ <= digits_val ?a _ => specialize (IH a ltac:(lia)); lia
    end.
Qed.

Lemma accumulate_uint d rest : forall acc,
  starts_nondigit rest ->
  0 <= acc ->
  digits_val acc (NilEmpty.string_of_uint d) <= CInt.LLONG_MAX ->
  accumulate_digits acc (NilEmpty.string_of_uint d ++ rest)
  = digits_val acc (NilEmpty.string_of_uint d).
Proof.
  intros acc Hrest. revert acc.
  induction d as [| d IH | d IH | d IH | d IH | d IH | d IH | d IH | d IH
                  | d IH | d IH];
    intros acc Hacc Hmax;
    cbn [NilEmpty.string_of_uint digits_val append accumulate_digits] in *.
  1: { destruct rest as [| c rest]; [reflexivity |].
       cbn in Hrest |- *. now rewrite Hrest. }
  all: change (is_digit _) with true; cbv iota;
    match goal with
    | |- context [digit_val ?c] =>
        let v := eval vm_compute in (digit_val c) in
        change (digit_val c) with v in *
    end;
    match goal with
    | H : digits_val ?a _ <= _ |- _ =>
        pose proof (digits_val_mono d a ltac:(lia)) as Hm;
        rewrite (to_ll_small a)
          by (unfold CInt.LLONG_MIN, CInt.LLONG_MAX in *; lia);
        apply IH; [lia | exact H]
    end.
Qed.

Lemma skip_blank_uint d rest :
  d <> Decimal.Nil ->
  skip_blank (NilEmpty.string_of_uint d ++ rest)
  = NilEmpty.string_of_uint d ++ rest.
Proof.
  destruct d; intros H; [congruence | ..]; reflexivity.
Qed.

(** The digits of a positive number that fits a [long long], followed by
    something that is not a digit, are read back as that number. *)
Lemma accumulate_number n rest :
  0 < n <= CInt.LLONG_MAX ->
  starts_nondigit rest ->
  accumulate_digits 0 (skip_blank (to_string n ++ rest)) = n.
Proof.
  intros Hn Hrest. destruct n as [| p | p]; try lia.
  unfold to_string. cbn [Z.to_int NilZero.string_of_int].
  rewrite string_of_uint_pos.
  rewrite skip_blank_uint by apply Unsigned.to_uint_nonnil.
  assert (Hv : digits_val 0 (NilEmpty.string_of_uint (Pos.to_uint p)) = Z.pos p)
    by (rewrite digits_val_uint, DecimalPos.Unsigned.of_to; reflexivity).
  rewrite accumulate_uint; [exact Hv | exact Hrest | lia | rewrite Hv; lia].
Qed.

Lemma parse_here key rest :
  In key limit_keys ->
  parseJsonNumber (q ++ key ++ q ++ ":" ++ rest) key
  = accumulate_digits 0 (skip_blank rest).
Proof.
  intros H. unfold limit_keys in H.
  repeat (destruct H as [<- | H]; [destruct rest; reflexivity |]).
  contradiction.
Qed.

Ltac skip_to_key :=
  repeat first [ rewrite parse_skip_number by lia
               | rewrite parse_skip by reflexivity ].

Lemma parse_rendered time_ms memory_kib output_bytes compile_ms stack_kib :
  0 < time_ms <= CInt.LLONG_MAX ->
  0 < memory_kib <= CInt.LLONG_MAX ->
  0 < output_bytes <= CInt.LLONG_MAX ->
  0 < compile_ms <= CInt.LLONG_MAX ->
  0 < stack_kib <= CInt.LLONG_MAX ->
  let json :=
    render_limits time_ms memory_kib output_bytes compile_ms stack_kib in
  parseJsonNumber json "time_limit" = time_ms /\
  parseJsonNumber json "memory_limit" = memory_kib /\
  parseJsonNumber json "output_limit" = output_bytes /\
  parseJsonNumber json "compile_timeout" = compile_ms /\
  parseJsonNumber json "stack_limit" = stack_kib.
Proof.
  intros Ht Hm Ho Hc Hs. cbn zeta.
  unfold render_limits, q, chr. cbn [append].
  repeat split; skip_to_key;
    match goal with
    | |- parseJsonNumber ?s ?key = ?n =>
        match s with
        | context [String " " (to_string n ++ ?r)] =>
            transitivity
              (accumulate_digits 0 (skip_blank (String " " (to_string n ++ r))));
            [ refine (parse_here key (String " " (to_string n ++ r)) _);
              cbn; tauto
            | change (accumulate_digits 0 (skip_blank (to_string n ++ r)) = n);
              apply accumulate_number; [assumption | reflexivity] ]
        end
    end.
Qed.

(** A limits file written in the usual layout is read back exactly: the
    time limit, output limit and compile timeout as they are, the memory and
    stack limits multiplied by 1024, for all positive values that fit their
    fields. *)
Theorem loadLimits_rendered time_ms memory_kib output_bytes compile_ms stack_kib :
  0 < time_ms <= CInt.INT_MAX ->
  0 < memory_kib -> memory_kib * 1024 <= CInt.LLONG_MAX ->
  0 < output_bytes <= CInt.INT_MAX ->
  0 < compile_ms <= CInt.INT_MAX ->
  0 < stack_kib -> stack_kib * 1024 <= CInt.LLONG_MAX ->
  loadLimits_from
    (Some (render_limits time_ms memory_kib output_bytes compile_ms stack_kib))
  = mkLimits time_ms (memory_kib * 1024) output_bytes compile_ms
             (stack_kib * 1024).
Proof.
  intros Ht Hm Hm' Ho Hc Hs Hs'.
  unfold CInt.INT_MAX, CInt.LLONG_MAX in *.
  destruct (parse_rendered time_ms memory_kib output_bytes compile_ms stack_kib)
    as (Et & Em & Eo & Ec & Es);
    try (unfold CInt.LLONG_MAX; lia).
  cbn zeta in *. unfold loadLimits_from. rewrite Et, Em, Eo, Ec, Es.
  replace (time_ms >? 0) with true by (symmetry; apply Z.gtb_lt; lia).
  replace (memory_kib >? 0) with true by (symmetry; apply Z.gtb_lt; lia).
  replace (output_bytes >? 0) with true by (symmetry; apply Z.gtb_lt; lia).
  replace (compile_ms >? 0) with true by (symmetry; apply Z.gtb_lt; lia).
  replace (stack_kib >? 0) with true by (symmetry; apply Z.gtb_lt; lia).
  rewrite !to_int_small by (unfold CInt.INT_MIN, CInt.INT_MAX; lia).
  rewrite !to_ll_small by (unfold CInt.LLONG_MIN, CInt.LLONG_MAX; lia).
  reflexivity.
Qed.

Lemma loadLimits_rendered_witness :
  loadLimits_from (Some (render_limits 1000 65536 64000000 30000 8192))
  = mkLimits 1000 (65536 * 1024) 64000000 30000 (8192 * 1024).
Proof.
  apply loadLimits_rendered; vm_compute;
    first [reflexivity | discriminate | split; [reflexivity | discriminate]].
Defined.

Lemma count_char_append c a b :
  count_char c (a ++ b) = (count_char c a + count_char c b)%nat.
Proof.
  induction a as [| x a IH]; cbn [append count_char]; [reflexivity |].
  rewrite IH. lia.
Qed.

Lemma index_skip_pre pre s pat n :
  String.index (String.length pre + n) pat (pre ++ s)
  = option_map (Nat.add (String.length pre)) (String.index n pat s).
Proof.
  induction pre as [| c pre IH]; cbn [String.length append Nat.add].
  - destruct (String.index n pat s); reflexivity.
  - cbn [String.index]. rewrite IH.
    destruct (String.index n pat s); reflexivity.
Qed.

Lemma index_colon_first a rest :
  count_char ":" a = 0%nat ->
  String.index 0 ":" (a ++ String ":" rest) = Some (String.length a).
Proof.
  induction a as [| c a IH]; cbn [count_char append String.length].
  - intros _. destruct rest; reflexivity.
  - destruct (Ascii.eqb_spec c ":"%char) as [-> | Hc]; [discriminate |].
    cbn [Nat.add]. intros Ha. cbn [String.index].
    assert (Hp : prefix ":" (String c (a ++ String ":" rest)) = false).
    { cbn [prefix]. destruct (ascii_dec ":" c); [congruence | reflexivity]. }
    rewrite Hp, (IH Ha). reflexivity.
Qed.

Lemma drop_app a s n : drop (String.length a + n) (a ++ s) = drop n s.
Proof. induction a as [| c a IH]; cbn; [reflexivity | exact IH]. Qed.

Lemma drop_past a c s : drop (S (String.length a)) (a ++ String c s) = s.
Proof. induction a as [| x a IH]; cbn; [reflexivity | exact IH]. Qed.

Lemma limit_key_no_colon key :
  In key limit_keys -> count_char ":" (q ++ key ++ q) = 0%nat.
Proof.
  intros H. unfold limit_keys in H.
  repeat (destruct H as [<- | H]; [reflexivity |]). contradiction.
Qed.

(** For each of the five keys, wherever in the file its first quoted
    occurrence stands: when what lies between that occurrence and the next
    colon holds no colon, and the colon is followed, after blanks and tabs,
    by something that is not a digit (a minus sign, a quote, a letter, the
    end of the file), [parseJsonNumber] gives 0 and the field of that key
    takes its default. *)
Theorem value_without_digits key pre mid rest :
  In key limit_keys ->
  let json := pre ++ q ++ key ++ q ++ mid ++ ":" ++ rest in
  String.index 0 (q ++ key ++ q) json = Some (String.length pre) ->
  count_char ":" mid = 0%nat ->
  starts_nondigit (skip_blank rest) ->
  parseJsonNumber json key = 0 /\
  limit_field key (loadLimits_from (Some json)) = limit_default key.
Proof.
  intros Hk json Hfirst Hmid Hrest.
  assert (Hjson : json = pre ++ ((q ++ key ++ q) ++ mid) ++ String ":" rest).
  { unfold json. now rewrite !append_assoc. }
  assert (Hp : parseJsonNumber json key = 0).
  { unfold parseJsonNumber, find. rewrite Hfirst.
    rewrite Hjson at 1.
    rewrite <- (Nat.add_0_r (String.length pre)) at 1.
    rewrite index_skip_pre, index_colon_first
      by (rewrite count_char_append, limit_key_no_colon, Hmid by assumption;
          reflexivity).
    cbn [option_map]. rewrite Hjson.
    rewrite <- Nat.add_succ_r, drop_app, drop_past.
    destruct (skip_blank rest) as [| c s]; [reflexivity |].
    cbn in Hrest |- *. now rewrite Hrest. }
  split; [exact Hp |].
  unfold limit_keys in Hk.
  repeat (destruct Hk as [<- | Hk];
          [unfold loadLimits_from, limit_field, limit_default;
           cbn [String.eqb Ascii.eqb Bool.eqb time_limit memory_limit
                output_limit compile_timeout stack_limit];
           rewrite Hp; reflexivity |]).
  contradiction.
Qed.

Lemma value_without_digits_witness :
  let json :=
    ("{" ++ q ++ "memory_limit" ++ q ++ ": 5, ")
      ++ q ++ "time_limit" ++ q ++ " " ++ ":" ++ " -5}" in
  parseJsonNumber json "time_limit" = 0 /\
  time_limit (loadLimits_from (Some json)) = 1000 /\
  memory_limit (loadLimits_from (Some json)) = 5 * 1024.
Proof.
  cbn zeta.
  destruct (value_without_digits
              "time_limit" ("{" ++ q ++ "memory_limit" ++ q ++ ": 5, ")
              " " " -5}") as (H1 & H2).
  - cbn. tauto.
  - vm_compute. reflexivity.
  - reflexivity.
  - reflexivity.
  - split; [exact H1 |]. split; [exact H2 |]. vm_compute. reflexivity.
Defined.

(** ** Shape of the encoded result *)

Lemma count_char_uint c d :
  is_digit c = false -> count_char c (NilEmpty.string_of_uint d) = 0%nat.
Proof.
  intros Hc.
  induction d as [| d IH | d IH | d IH | d IH | d IH | d IH | d IH | d IH
                  | d IH | d IH];
    cbn [NilEmpty.string_of_uint count_char]; [reflexivity | ..];
    rewrite IH;
    match goal with
    | |- context [Ascii.eqb ?x c] =>
        destruct (Ascii.eqb_spec x c) as [<- | _]; [discriminate | reflexivity]
    end.
Qed.

Lemma count_char_to_string c z :
  is_digit c = false -> c <> "-"%char -> count_char c (to_string z) = 0%nat.
Proof.
  intros Hd Hm. unfold to_string.
  destruct z as [| p | p]; cbn [Z.to_int NilZero.string_of_int].
  - change (count_char c (String "0" "") = 0%nat). cbn [count_char].
    destruct (Ascii.eqb_spec "0"%char c) as [<- | _];
      [discriminate | reflexivity].
  - rewrite string_of_uint_pos. now apply count_char_uint.
  - rewrite string_of_uint_pos. cbn [count_char].
    rewrite count_char_uint by assumption.
    destruct (Ascii.eqb_spec "-"%char c) as [<- | _]; [congruence | reflexivity].
Qed.

Lemma escape_char_not_control c x :
  x = newline \/ x = cret \/ x = tab ->
  count_char x (escape_char c) = 0%nat.
Proof.
  intros Hx. unfold escape_char.
  destruct (Ascii.eqb_spec c dquote) as [-> | N1];
    [destruct Hx as [-> | [-> | ->]]; reflexivity |].
  destruct (Ascii.eqb_spec c backslash) as [-> | N2];
    [destruct Hx as [-> | [-> | ->]]; reflexivity |].
  destruct (Ascii.eqb_spec c newline) as [-> | N3];
    [destruct Hx as [-> | [-> | ->]]; reflexivity |].
  destruct (Ascii.eqb_spec c cret) as [-> | N4];
    [destruct Hx as [-> | [-> | ->]]; reflexivity |].
  destruct (Ascii.eqb_spec c tab) as [-> | N5];
    [destruct Hx as [-> | [-> | ->]]; reflexivity |].
  cbn [chr count_char].
  destruct (Ascii.eqb_spec c x) as [-> | _]; [| reflexivity].
  destruct Hx as [-> | [-> | ->]]; congruence.
Qed.

Lemma escape_char_length c :
  (1 <= String.length (escape_char c) <= 2)%nat.
Proof. unfold escape_char. split_ifs; cbn; lia. Qed.

Lemma escape_no_control s x :
  x = newline \/ x = cret \/ x = tab -> count_char x (escape s) = 0%nat.
Proof.
  intros Hx. induction s as [| c s IH]; cbn [escape]; [reflexivity |].
  now rewrite count_char_append, escape_char_not_control, IH.
Qed.

(** The escaped form of a text holds no newline, carriage return or tab,
    whatever the text, and is at least as long as the text and at most twice
    as long. *)
Theorem escape_shape s :
  count_char newline (escape s) = 0%nat /\
  count_char cret (escape s) = 0%nat /\
  count_char tab (escape s) = 0%nat /\
  (String.length s <= String.length (escape s) <= 2 * String.length s)%nat.
Proof.
  rewrite !escape_no_control by tauto.
  repeat (split; [reflexivity |]).
  induction s as [| c s IH]; cbn [escape]; [cbn; lia |].
  rewrite length_append. cbn [String.length].
  pose proof (escape_char_length c). lia.
Qed.

(** The encoded result has nine newlines besides those of [status] and
    [allocated_cpu], which are written as they are: with a status and a core
    free of newlines it spans exactly ten lines, whatever the messages and
    the captured output hold. *)
Theorem encoded_lines r :
  count_char newline (resultToJson r)
  = (9 + count_char newline (status r)
       + count_char newline (allocated_cpu r))%nat.
Proof.
  rewrite resultToJson_layout.
  repeat (rewrite count_char_append || cbn [count_char]).
  rewrite !escape_no_control by tauto.
  rewrite !count_char_to_string by (reflexivity || discriminate).
  cbn. lia.
Qed.

(** ** Resource limits of the child *)



(** ** More on what a run captures and measures *)

(** A buffer with a NUL byte in it only contributes the bytes in front of
    the NUL: what follows in that buffer is dropped, and the loop goes on
    with the next round. *)
Theorem nul_truncates_capture a b rounds out err ed :
  c_str a = a ->
  drain (stdout_round (a ++ String nul b) :: rounds) out err false ed
  = drain rounds (out ++ a) err false ed.
Proof.
  intros Ha.
  cbn [drain andb stdout_round sel_result sel_out_ready sel_err_ready
       sel_out_read sel_err_read].
  change (1 <=? 0) with false. cbv iota.
  unfold absorb at 1 2. rewrite andb_false_r. cbn [negb andb].
  rewrite c_str_nul by assumption.
  destruct a; reflexivity.
Qed.

Lemma nul_truncates_capture_witness :
  drain [stdout_round ("ab" ++ String nul "cd"); stdout_round "ef"]
        "" "" false false
  = ("abef", "").
Proof.
  rewrite (nul_truncates_capture "ab" "cd" [stdout_round "ef"] "" "" false
                                 eq_refl).
  reflexivity.
Defined.

(** For a run that reaches a verdict the time is the span the clock
    measured around the child, and the memory is the value read from
    [memory.peak] of the node when that is positive, and otherwise (file
    unreadable, no number, zero) [ru_maxrss] times 1024; the core is what
    was read back from [cpuset.cpus]. *)
Theorem measured_usage k limits r st rss :
  run_fault k limits = None ->
  run_result k limits = Some r ->
  k_wait4 k = Some (st, rss) ->
  time_used r = k_run_ms k /\
  mem_used r =
    (if getMemoryPeak k (run_cgroup k) >? 0
     then getMemoryPeak k (run_cgroup k)
     else CInt.to_ll (rss * 1024)) /\
  allocated_cpu r = getAllocatedCpu k (run_cgroup k).
Proof.
  intros Hf Hr Hw.
  destruct (run_verdict k limits r Hf Hr)
    as (st' & rss' & r0 & Hw' & -> & _ & _ & Ht & Hm & _ & _ & Hc).
  rewrite Hw in Hw'. injection Hw' as <- <-.
  destruct (classify_keeps r0 limits st
              (snd (drain (k_select k) "" "" false false)))
    as (-> & -> & _ & _ & ->).
  auto.
Qed.

Lemma measured_usage_witness :
  run_result k_no_peak sample_limits
  = Some (mkJudgeResult "OK" 15 102400 0 "" "hello" 5 "1") /\
  getMemoryPeak k_no_peak (run_cgroup k_no_peak) = -1 /\
  mem_used (mkJudgeResult "OK" 15 102400 0 "" "hello" 5 "1") = 100 * 1024.
Proof.
  assert (Hf : run_fault k_no_peak sample_limits = None)
    by (vm_compute; reflexivity).
  assert (Hr : run_result k_no_peak sample_limits
               = Some (mkJudgeResult "OK" 15 102400 0 "" "hello" 5 "1"))
    by (vm_compute; reflexivity).
  assert (Hw : k_wait4 k_no_peak = Some (0, 100)) by reflexivity.
  destruct (measured_usage k_no_peak sample_limits _ 0 100 Hf Hr Hw)
    as (_ & Hm & _).
  split; [exact Hr |]. split; [reflexivity |].
  rewrite Hm. reflexivity.
Defined.

(** ** Descriptors on the early faults *)

(** When the second [pipe] fails the run returns at once: the two
    descriptors of the first pipe are not closed, and the last system calls
    are the creation of that pipe and the removal of the node.  When [fork]
    fails the four descriptors are closed before the node is removed. *)
Theorem early_fault_descriptors k limits out_rd out_wr :
  k_pipe_out k = Some (out_rd, out_wr) ->
  (run_fault k limits = Some PipeCreation ->
   ends_with [PipeCreate out_rd out_wr;
              Rmdir (cgroup_path (CgroupManager_new k))]
             (run_log k limits)) /\
  (run_fault k limits = Some ForkFailure ->
   exists err_rd err_wr,
     k_pipe_err k = Some (err_rd, err_wr) /\
     ends_with [PipeCreate out_rd out_wr; PipeCreate err_rd err_wr;
                Close out_rd; Close out_wr; Close err_rd; Close err_wr;
                Rmdir (cgroup_path (CgroupManager_new k))]
               (run_log k limits)).
Proof.
  intros Hout.
  assert (Hshape :
            run_fault k limits = Some PipeCreation \/
            run_fault k limits = Some ForkFailure ->
            k_mkdir k (cgroup_path (CgroupManager_new k)) = true /\
            ends_with
              (match k_pipe_err k with
               | None => [PipeCreate out_rd out_wr]
               | Some (err_rd, err_wr) =>
                   [PipeCreate out_rd out_wr; PipeCreate err_rd err_wr;
                    Close out_rd; Close out_wr; Close err_rd; Close err_wr]
               end)
              (snd (runProgram_body k limits)) /\
            (run_fault k limits = Some PipeCreation -> k_pipe_err k = None) /\
            (run_fault k limits = Some ForkFailure -> k_pipe_err k <> None)).
  { unfold run_fault, runProgram_body. rewrite fst_create, Hout.
    destruct (k_mkdir k _) eqn:Hmk; cbn [negb];
      [| intros [H | H]; discriminate].
    destruct (fst (setMemoryLimit _ _ _)) eqn:Hmem; cbn [negb];
      [| intros [H | H]; discriminate].
    destruct (fst (setCpuLimit _ _)) eqn:Hcpu; cbn [negb];
      [| intros [H | H]; discriminate].
    destruct (k_pipe_err k) as [[err_rd err_wr] |] eqn:Herr.
    - destruct (k_fork k) as [pid |] eqn:Hfork.
      + destruct (negb (fst (addProcess _ _ _)));
          [intros [H | H]; discriminate |].
        destruct (affinity_throws _); [intros [H | H]; discriminate |].
        destruct (k_wait4 k); intros [H | H]; discriminate.
      + intros _. split; [reflexivity |]. split; [| split; congruence].
        rewrite snd_bind, snd_create. apply (ends_with_app _ [_]).
        rewrite fst_create, Hmk. cbn [negb].
        trace_step. rewrite Hmem. cbn [negb].
        trace_step. rewrite Hcpu. cbn [negb].
        rewrite !snd_bind. cbn. apply ends_with_refl.
    - intros _. split; [reflexivity |]. split; [| split; congruence].
      rewrite snd_bind, snd_create. apply (ends_with_app _ [_]).
      rewrite fst_create, Hmk. cbn [negb].
      trace_step. rewrite Hmem. cbn [negb].
      trace_step. rewrite Hcpu. cbn [negb].
      rewrite !snd_bind. cbn. apply ends_with_refl. }
  assert (Hlog : k_mkdir k (cgroup_path (CgroupManager_new k)) = true ->
                 run_log k limits
                 = (snd (runProgram_body k limits)
                      ++ [Rmdir (cgroup_path (CgroupManager_new k))])%list).
  { intros Hmk. rewrite run_log_body, body_cgroup, fst_create, Hmk.
    cbn [snd cleanup created set_created]. rewrite snd_bind.
    cbn [snd ret fst emit]. now rewrite List.app_nil_r. }
  split; intros Hf.
  - destruct Hshape as (Hmk & Hend & Hnone & _); [now left |].
    rewrite (Hnone Hf) in Hend. rewrite (Hlog Hmk).
    apply (ends_with_snoc _ [Rmdir (cgroup_path (CgroupManager_new k))]) in Hend.
    exact Hend.
  - destruct Hshape as (Hmk & Hend & _ & Hsome); [now right |].
    specialize (Hsome Hf).
    destruct (k_pipe_err k) as [[err_rd err_wr] |]; [| congruence].
    exists err_rd, err_wr. split; [reflexivity |].
    rewrite (Hlog Hmk).
    apply (ends_with_snoc _ [Rmdir (cgroup_path (CgroupManager_new k))]) in Hend.
    exact Hend.
Qed.

Lemma early_fault_descriptors_witness :
  k_pipe_out k_second_pipe_fail = Some (3, 4) /\
  run_fault k_second_pipe_fail sample_limits = Some PipeCreation /\
  ends_with [PipeCreate 3 4;
             Rmdir (cgroup_path (CgroupManager_new k_second_pipe_fail))]
            (run_log k_second_pipe_fail sample_limits).
Proof.
  assert (Hout : k_pipe_out k_second_pipe_fail = Some (3, 4)) by reflexivity.
  assert (Hf : run_fault k_second_pipe_fail sample_limits = Some PipeCreation)
    by (vm_compute; reflexivity).
  destruct (early_fault_descriptors k_second_pipe_fail sample_limits 3 4 Hout)
    as (H & _).
  exact (conj Hout (conj Hf (H Hf))).
Defined.

Lemma compile_outcome_witness :
  status (fst (compileProgram (k_clean_exit 15) "a.cpp" "a.cpp.out"
                              sample_limits)) = "OK" /\
  error_message (fst (compileProgram (k_clean_exit 15) "a.cpp" "a.cpp.out"
                                     sample_limits)) = "" /\
  time_used (fst (compileProgram (k_clean_exit 15) "a.cpp" "a.cpp.out"
                                 sample_limits)) = 300.
Proof.
  destruct (compile_outcome (k_clean_exit 15) "a.cpp" "a.cpp.out" sample_limits)
    as (_ & _ & _ & _ & _ & _ & _ & H).
  assert (Hok : status (fst (compileProgram (k_clean_exit 15) "a.cpp"
                               "a.cpp.out" sample_limits)) = "OK")
    by reflexivity.
  destruct (H Hok) as (He & Ht).
  exact (conj Hok (conj He Ht)).
Defined.

(** * Captured output and result encoder *)

Lemma concat_str_app a l : concat_str (a :: l) = a ++ concat_str l.
Proof. reflexivity. Qed.

Lemma c_str_nul_free s : nul_free s = true -> c_str s = s.
Proof.
  unfold nul_free.
  induction s as [| c s IH]; cbn [count_char c_str]; [reflexivity |].
  destruct (Ascii.eqb c nul); cbn [Nat.add]; [discriminate |].
  intros H. now rewrite IH.
Qed.

Lemma map_c_str_nul_free bs :
  forallb nul_free bs = true -> map c_str bs = bs.
Proof.
  induction bs as [| b bs IH]; cbn [forallb map]; [reflexivity |].
  intros H. apply andb_prop in H as [Hb Hbs].
  now rewrite c_str_nul_free, IH.
Qed.

(** The drain loop captures the buffers of the rounds, in order, each as a
    C string. *)
Lemma drain_stdout_buffers rounds : forall out err ed,
  fst (drain rounds out err false ed)
  = out ++ concat_str (map c_str (stdout_buffers rounds)).
Proof.
  unfold stdout_buffers.
  induction rounds as [| r rounds IH]; intros out err ed;
    cbn [drain andb rounds_before_timeout].
  - cbn. now rewrite append_nil_r.
  - destruct (sel_result r <=? 0); [cbn; now rewrite append_nil_r |].
    cbn [filter]. unfold absorb at 1. cbn [negb andb].
    destruct (sel_out_ready r).
    + cbn [map buffers_until_eof].
      destruct (sel_out_read r) as [[| c bytes] |].
      * destruct (absorb ed _ _ err) as [err' ed'].
        rewrite drain_stdout_done. cbn. now rewrite append_nil_r.
      * destruct (absorb ed _ _ err) as [err' ed'].
        rewrite IH. cbn [map concat_str fold_right].
        now rewrite append_assoc.
      * destruct (absorb ed _ _ err) as [err' ed'].
        rewrite drain_stdout_done. cbn. now rewrite append_nil_r.
    + destruct (absorb ed _ _ err) as [err' ed']. apply IH.
Qed.

(** C6 (as amended).  The [stdout_content] of a result is not capped at
    the output limit.  It is empty when the run met a sandbox fault.
    Otherwise capture goes on, whatever the limits, until a [read] on the
    standard output of the child returns no byte or [select] times out or
    fails, also after the standard error has ended: for output without NUL
    bytes, [stdout_content] is every buffer read until then, in order.
    [output_len] is the byte length of [stdout_content], for a length that
    fits an [int]. *)
Theorem captured_output k limits r :
  run_result k limits = Some r ->
  (forall f, run_fault k limits = Some f -> stdout_content r = "") /\
  (run_fault k limits = None ->
   forallb nul_free (stdout_buffers (k_select k)) = true ->
   stdout_content r = concat_str (stdout_buffers (k_select k))) /\
  (Z.of_nat (String.length (stdout_content r)) <= CInt.INT_MAX ->
   output_len r = Z.of_nat (String.length (stdout_content r))).
Proof.
  intros Hr.
  assert (Hol : output_len r
                = CInt.to_int (Z.of_nat (String.length (stdout_content r)))).
  { destruct (run_fault k limits) as [f |] eqn:Hf.
    - destruct (run_fault_result k limits f Hf)
        as (r' & Hr' & _ & _ & _ & _ & _ & Hso & Hol & _).
      rewrite Hr in Hr'. injection Hr' as <-. now rewrite Hso, Hol.
    - destruct (run_verdict k limits r Hf Hr)
        as (st & rss & r0 & _ & -> & _ & _ & _ & _ & _ & Hol & _).
      destruct (classify_keeps r0 limits st
                  (snd (drain (k_select k) "" "" false false)))
        as (_ & _ & -> & -> & _).
      exact Hol. }
  split; [| split].
  - intros f Hf.
    destruct (run_fault_result k limits f Hf)
      as (r' & Hr' & _ & _ & _ & _ & _ & Hso & _).
    rewrite Hr in Hr'. injection Hr' as <-. exact Hso.
  - intros Hf Hnul.
    destruct (run_verdict k limits r Hf Hr)
      as (st & rss & r0 & _ & -> & _ & _ & _ & _ & Hso & _).
    destruct (classify_keeps r0 limits st
                (snd (drain (k_select k) "" "" false false)))
      as (_ & _ & -> & _).
    rewrite Hso, drain_stdout_buffers, map_c_str_nul_free by assumption.
    reflexivity.
  - intros Hle. rewrite Hol. apply to_int_small.
    unfold CInt.INT_MIN. lia.
Qed.

Lemma captured_output_witness :
  run_result k_stderr_first sample_limits = Some hello_result /\
  stdout_content hello_result = concat_str ["hel"; "lo"] /\
  output_len hello_result = 5.
Proof.
  assert (Hr : run_result k_stderr_first sample_limits = Some hello_result)
    by (vm_compute; reflexivity).
  assert (Hf : run_fault k_stderr_first sample_limits = None)
    by (vm_compute; reflexivity).
  destruct (captured_output k_stderr_first sample_limits hello_result Hr)
    as (_ & Hso & Hol).
  split; [exact Hr |]. split.
  - exact (Hso Hf eq_refl).
  - apply Hol. vm_compute. discriminate.
Defined.

(** C7 (as amended).  The object [resultToJson] writes, with its fields in
    the order status, time_used, mem_used, exit_code, error_message, stdout,
    output_len, allocated_cpu, the numbers in plain decimal, the values of
    error_message and stdout escaped for double quote, backslash, newline,
    carriage return and tab, and the values of status and allocated_cpu
    written as they are, is decoded back to the very same result, for every
    result whose status and allocated_cpu hold no double quote, by the
    decoder that undoes these five escapes and refuses a newline, carriage
    return or tab that is not escaped; and indeed none is left in the two
    escaped values. *)
Theorem encoder_round_trip r :
  no_dquote (status r) = true ->
  no_dquote (allocated_cpu r) = true ->
  parseResult (resultToJson r) = Some r /\
  (forall x,
     x = newline \/ x = cret \/ x = tab ->
     count_char x (escape (error_message r)) = 0%nat /\
     count_char x (escape (stdout_content r)) = 0%nat).
Proof.
  intros Hst Hcpu. split.
  - rewrite resultToJson_layout. unfold parseResult.
    rewrite expect_app. cbn [obind].
    rewrite read_raw_app by assumption. cbn [obind].
    rewrite expect_app. cbn [obind].
    rewrite read_number_to_string by reflexivity. cbn [obind].
    rewrite expect_app. cbn [obind].
    rewrite read_number_to_string by reflexivity. cbn [obind].
    rewrite expect_app. cbn [obind].
    rewrite read_number_to_string by reflexivity. cbn [obind].
    rewrite expect_app. cbn [obind].
    rewrite read_escaped_escape. cbn [obind].
    rewrite expect_app. cbn [obind].
    rewrite read_escaped_escape. cbn [obind].
    rewrite expect_app. cbn [obind].
    rewrite read_number_to_string by reflexivity. cbn [obind].
    rewrite expect_app. cbn [obind].
    rewrite read_raw_app by assumption. cbn [obind].
    rewrite expect_app. cbn [obind is_empty].
    destruct r; reflexivity.
  - intros x Hx. split; now apply escape_no_control.
Qed.

Lemma encoder_round_trip_witness :
  no_dquote (status tricky_result) = true /\
  no_dquote (allocated_cpu tricky_result) = true /\
  parseResult (resultToJson tricky_result) = Some tricky_result /\
  count_char newline (escape (error_message tricky_result)) = 0%nat.
Proof.
  assert (Hst : no_dquote (status tricky_result) = true) by reflexivity.
  assert (Hcpu : no_dquote (allocated_cpu tricky_result) = true) by reflexivity.
  destruct (encoder_round_trip tricky_result Hst Hcpu) as (Hrt & Hctl).
  destruct (Hctl newline (or_introl eq_refl)) as (Hn & _).
  exact (conj Hst (conj Hcpu (conj Hrt Hn))).
Defined.
